(** * DataComparator: the reconciliation engine, embedded and verified

    A shallow embedding of [comparison_engine.py] and
    [fingerprinting_sampler.py] (with the call site of the fingerprinting
    phase in [data_comparator.py]).  Spark DataFrames are finite tables:
    a schema and a list of rows; Spark's lazily evaluated plans are
    replaced by the tables they denote.  Python integers are [Z] or [nat],
    Python floats that only carry ratios are exact rationals [Q]. *)

From Stdlib Require Import List String Ascii ZArith QArith Lia Bool Arith.
From Stdlib Require Import Permutation Sorted DecimalString PrimFloat.
Import ListNotations.

Open Scope string_scope.
Open Scope nat_scope.

(** ** Tables *)

Module Spark.

(** The declared type of a column ([pyspark.sql.types]). *)
Inductive DataType :=
| IntegerType | LongType | FloatType | DoubleType
| StringType | BooleanType | TimestampType.

Record StructField := mkField { name : string; dataType : DataType }.

(** A cell: SQL null, the floating-point not-a-number, an integral value,
    or any other value, carried by the string Spark's cast to string gives
    it. *)
Inductive Cell :=
| CNull
| CNaN
| CLong (z : Z)
| CVal (s : string).

Definition Row := list Cell.

Record DataFrame := mkDF { schema : list StructField; rows : list Row }.

(** [df.columns] *)
Definition columns (df : DataFrame) : list string := map name (schema df).

(** [df.count()] *)
Definition count (df : DataFrame) : nat := List.length (rows df).

(** Python's [c in names] on a list of strings. *)
Definition str_in (c : string) (names : list string) : bool :=
  existsb (String.eqb c) names.

Fixpoint index_of (c : string) (names : list string) : option nat :=
  match names with
  | [] => None
  | n :: rest =>
      if String.eqb c n then Some O
      else option_map S (index_of c rest)
  end.

(** The value of column [c] in row [r] of a frame with column names
    [names]; a row shorter than its schema reads as null. *)
Definition cell_at (names : list string) (r : Row) (c : string) : Cell :=
  match index_of c names with
  | Some i => nth i r CNull
  | None => CNull
  end.

(** [col(c).cast(StringType())]: null stays null. *)
Definition cast_string (v : Cell) : option string :=
  match v with
  | CNull => None
  | CNaN => Some "NaN"
  | CLong z => Some (NilZero.string_of_int (Z.to_int z))
  | CVal s => Some s
  end.

Fixpoint drop_nulls (l : list (option string)) : list string :=
  match l with
  | [] => []
  | None :: rest => drop_nulls rest
  | Some s :: rest => s :: drop_nulls rest
  end.

(** [concat_ws(sep, ...)]: nulls are skipped, the result is never null. *)
Definition concat_ws (sep : string) (l : list (option string)) : string :=
  String.concat sep (drop_nulls l).

(** Python exceptions and Spark errors that the modelled code can meet. *)
Inductive Exception :=
| ZeroDivisionError
| ValueError (msg : string)
| TypeError
| AnalysisException (msg : string)
| IllegalArgumentException (msg : string).

Inductive PyResult (A : Type) :=
| Ok (a : A)
| Raise (e : Exception).
Arguments Ok {A} a.
Arguments Raise {A} e.

Section Joins.
Context {K A B : Type} (eqk : K -> K -> bool).

(** [l.join(r, key, "inner")]: one output row per pair of rows with equal
    keys. *)
Definition inner_join (l : list (K * A)) (r : list (K * B))
  : list (K * A * B) :=
  flat_map
    (fun a => map (fun b => (fst a, snd a, snd b))
                  (filter (fun b => eqk (fst a) (fst b)) r))
    l.

(** [l.join(r, key, "left_anti")]: the rows of [l] with no partner. *)
Definition left_anti_join (l : list (K * A)) (r : list (K * B))
  : list (K * A) :=
  filter (fun a => negb (existsb (fun b => eqk (fst a) (fst b)) r)) l.
End Joins.

End Spark.

Import Spark.

(** ** The chunk comparator ([comparison_engine.compare_data_chunks]) *)

(** The per-chunk result dictionary.  A failed chunk carries the keys
    [chunk_id], [error], [matches = 0], [differences = 0] and
    [total_rows = 0]; the wall-clock [timestamp] of a successful chunk is
    left out. *)
Inductive ChunkResult :=
| ChunkOk (chunk_id matches only_in_dataset1 only_in_dataset2 total_rows : nat)
          (common_columns : list string) (match_percentage : Q)
| ChunkError (chunk_id : nat) (error : string).

(** The recognised keys of [comparison_config]; [None] is an absent key. *)
Record Config := mkConfig {
  cfg_chunk_id : option nat;
  cfg_chunk_size : option Z;
  cfg_max_parallelism : option nat
}.

Definition system_columns : list string :=
  ["__row_id"; "__fingerprint"; "__chunk_id"].

Definition common_columns_of (chunk1 chunk2 : DataFrame) : list string :=
  filter (fun c => str_in c (columns chunk2) && negb (str_in c system_columns))
         (columns chunk1).

(** The content key of one row. *)
Definition comparison_key (cols : list string) (df : DataFrame) (r : Row)
  : string :=
  concat_ws "|" (map (fun c => cast_string (cell_at (columns df) r c)) cols).

(** [chunk.withColumn("__comparison_key", ...).select("__comparison_key",
    "__row_id")]; a content key is never null. *)
Definition with_key (cols : list string) (df : DataFrame)
  : list (string * Cell) :=
  map (fun r => (comparison_key cols df r, cell_at (columns df) r "__row_id"))
      (rows df).

Definition percentage (num den : nat) : Q :=
  if Nat.ltb 0 den
  then (inject_Z (Z.of_nat num) / inject_Z (Z.of_nat den)) * 100
  else 0.

(** Selecting [__row_id] from a chunk that has no such column makes Spark
    raise; the handler of [compare_data_chunks] turns that into an error
    result whose text is Spark's message. *)
Definition unresolved_row_id : string := "cannot resolve __row_id".

Definition compare_data_chunks (chunk1 chunk2 : DataFrame) (config : Config)
  : ChunkResult :=
  let chunk_id := match cfg_chunk_id config with Some i => i | None => 0 end in
  let common_columns := common_columns_of chunk1 chunk2 in
  match common_columns with
  | [] => ChunkError chunk_id "No common columns found"
  | _ :: _ =>
      if str_in "__row_id" (columns chunk1) && str_in "__row_id" (columns chunk2)
      then
        let chunk1_keys := with_key common_columns chunk1 in
        let chunk2_keys := with_key common_columns chunk2 in
        let match_count := List.length (inner_join String.eqb chunk1_keys chunk2_keys) in
        let only_in_1_count := List.length (left_anti_join String.eqb chunk1_keys chunk2_keys) in
        let only_in_2_count := List.length (left_anti_join String.eqb chunk2_keys chunk1_keys) in
        let total_rows := count chunk1 + count chunk2 in
        ChunkOk chunk_id match_count only_in_1_count only_in_2_count total_rows
                common_columns
                (percentage match_count (Nat.max (count chunk1) (count chunk2)))
      else ChunkError chunk_id unresolved_row_id
  end.

(** Dictionary reads used by the callers: ['error' in result] and
    [result.get(key, 0)]. *)
Definition has_error (r : ChunkResult) : bool :=
  match r with ChunkOk _ _ _ _ _ _ _ => false | ChunkError _ _ => true end.

Definition result_chunk_id (r : ChunkResult) : nat :=
  match r with ChunkOk i _ _ _ _ _ _ => i | ChunkError i _ => i end.

Definition get_matches (r : ChunkResult) : nat :=
  match r with ChunkOk _ m _ _ _ _ _ => m | ChunkError _ _ => 0 end.

Definition get_only_in_dataset1 (r : ChunkResult) : nat :=
  match r with ChunkOk _ _ o _ _ _ _ => o | ChunkError _ _ => 0 end.

Definition get_only_in_dataset2 (r : ChunkResult) : nat :=
  match r with ChunkOk _ _ _ o _ _ _ => o | ChunkError _ _ => 0 end.

Definition get_total_rows (r : ChunkResult) : nat :=
  match r with ChunkOk _ _ _ _ t _ _ => t | ChunkError _ _ => 0 end.

(** The content keys of a chunk, in row order. *)
Definition chunk_keys (cols : list string) (df : DataFrame) : list string :=
  map fst (with_key cols df).

(** ** The coordinator ([comparison_engine.parallel_chunk_comparison]) *)

(** What [future.result()] gives: the value the task returned, or the
    exception it raised. *)
Inductive Outcome :=
| Returned (r : ChunkResult)
| Raised (msg : string).

(** The task submitted for index [i]: [compare_data_chunks] on the pair,
    with [config['chunk_id'] = i] in a copy of the configuration.  The
    comparator handles its own exceptions, so the task returns. *)
Definition submit_task (config : Config) (i : nat)
           (pair : DataFrame * DataFrame) : Outcome :=
  let config' := mkConfig (Some i) (cfg_chunk_size config)
                          (cfg_max_parallelism config) in
  Returned (compare_data_chunks (fst pair) (snd pair) config').

(** [enumerate(zip(chunks1, chunks2))], each pair turned into its future. *)
Fixpoint submit_all (config : Config) (i : nat)
         (pairs : list (DataFrame * DataFrame)) : list Outcome :=
  match pairs with
  | [] => []
  | p :: rest => submit_task config i p :: submit_all config (S i) rest
  end.

(** One turn of the collection loop for the future of index [i]. *)
Definition collect_one (futures : list Outcome) (i : nat)
  : list ChunkResult :=
  match nth_error futures i with
  | Some (Returned result) => [result]
  | Some (Raised msg) => [ChunkError i msg]
  | None => []
  end.

(** [results.sort(key=lambda x: x['chunk_id'])]: a stable sort. *)
Fixpoint insert_by_chunk_id (r : ChunkResult) (l : list ChunkResult)
  : list ChunkResult :=
  match l with
  | [] => [r]
  | x :: rest =>
      if result_chunk_id r <=? result_chunk_id x then r :: x :: rest
      else x :: insert_by_chunk_id r rest
  end.

Definition sort_by_chunk_id (l : list ChunkResult) : list ChunkResult :=
  fold_right insert_by_chunk_id [] l.

(** [order] is the order in which [as_completed] yields the futures, given
    by their indices: the scheduler's choice, made explicit.
    [ThreadPoolExecutor(max_workers=max_parallelism)] raises [ValueError]
    for a pool of no worker, before any task is submitted; the
    coordinator has no handler for it. *)
Definition parallel_chunk_comparison (chunks1 chunks2 : list DataFrame)
           (comparison_config : Config) (order : list nat)
  : PyResult (list ChunkResult) :=
  let max_parallelism :=
    match cfg_max_parallelism comparison_config with
    | Some n => n
    | None => 4
    end in
  if Nat.eqb max_parallelism 0
  then Raise (ValueError "max_workers must be greater than 0")
  else
    let futures := submit_all comparison_config 0 (combine chunks1 chunks2) in
    let results := flat_map (collect_one futures) order in
    Ok (sort_by_chunk_id results).

(** ** The aggregator ([comparison_engine.aggregate_chunk_results]) *)

(** The aggregated dictionary, without its rounded float
    [match_percentage] and its [timestamp]. *)
Record Aggregate := mkAggregate {
  total_matches : nat;
  total_only_in_dataset1 : nat;
  total_only_in_dataset2 : nat;
  total_differences : nat;
  total_rows_processed : nat;
  successful_chunks : nat;
  failed_chunks : nat;
  total_chunks : nat;
  errors : list string;
  datasets_match : bool
}.

(** The running totals of the loop. *)
Record Totals := mkTotals {
  t_matches : nat;
  t_only_in_1 : nat;
  t_only_in_2 : nat;
  t_rows : nat;
  t_successful : nat;
  t_failed : nat;
  t_errors : list string
}.

Definition nat_to_string (n : nat) : string :=
  NilZero.string_of_uint (Nat.to_uint n).

Definition aggregate_step (acc : Totals) (result : ChunkResult) : Totals :=
  match result with
  | ChunkError chunk_id error =>
      mkTotals (t_matches acc) (t_only_in_1 acc) (t_only_in_2 acc) (t_rows acc)
               (t_successful acc) (t_failed acc + 1)
               (t_errors acc ++ ["Chunk " ++ nat_to_string chunk_id ++ ": " ++ error])
  | ChunkOk _ _ _ _ _ _ _ =>
      mkTotals (t_matches acc + get_matches result)
               (t_only_in_1 acc + get_only_in_dataset1 result)
               (t_only_in_2 acc + get_only_in_dataset2 result)
               (t_rows acc + get_total_rows result)
               (t_successful acc + 1) (t_failed acc)
               (t_errors acc)
  end.

Definition aggregate_chunk_results (chunk_results : list ChunkResult)
  : Aggregate :=
  let acc := fold_left aggregate_step chunk_results
                       (mkTotals 0 0 0 0 0 0 []) in
  let total_differences := t_only_in_1 acc + t_only_in_2 acc in
  mkAggregate (t_matches acc) (t_only_in_1 acc) (t_only_in_2 acc)
              total_differences (t_rows acc)
              (t_successful acc) (t_failed acc)
              (List.length chunk_results) (t_errors acc)
              ((total_differences =? 0) && (t_failed acc =? 0)).

(** ** The chunker ([comparison_engine.chunk_dataframe]) *)

(** The row identifier of a row: the connectors add [__row_id] as a long
    column; a null (or a cell that is no long) has no identifier. *)
Definition row_id_of (names : list string) (r : Row) : option Z :=
  match cell_at names r "__row_id" with
  | CLong z => Some z
  | _ => None
  end.

(** [(col("__row_id") / chunk_size).cast("int")]: the quotient, truncated
    toward zero.  Spark divides in double precision and casts to a 32-bit
    integer; the quotient is taken here at its exact value. *)
Definition chunk_id_of (names : list string) (chunk_size : Z) (r : Row)
  : option Z :=
  option_map (fun z => Z.quot z chunk_size) (row_id_of names r).

(** [range(n)] *)
Definition range (n : Z) : list Z :=
  map Z.of_nat (seq 0 (Z.to_nat n)).

(** [df_with_chunk.filter(col("__chunk_id") == i).drop("__chunk_id")] *)
Definition chunk_number (df : DataFrame) (chunk_size : Z) (i : Z) : DataFrame :=
  mkDF (schema df)
       (filter (fun r => match chunk_id_of (columns df) chunk_size r with
                         | Some k => Z.eqb k i
                         | None => false
                         end)
               (rows df)).

Definition chunk_dataframe (df : DataFrame) (chunk_size : Z)
  : PyResult (list DataFrame) :=
  let total_rows := Z.of_nat (count df) in
  if Z.eqb chunk_size 0 then Raise ZeroDivisionError
  else
    let num_chunks := Z.div (total_rows + chunk_size - 1) chunk_size in
    if str_in "__row_id" (columns df)
    then Ok (map (chunk_number df chunk_size) (range num_chunks))
    else Raise (AnalysisException unresolved_row_id).

(** ** Fingerprints ([fingerprinting_sampler]) *)

(** What fingerprinting takes from the Spark session.  The hash
    functions of Spark SQL: [md5], [sha2(_, 256)] and [hash].
    [nan_text s]: the cast of the string [s] to double is the
    not-a-number, which is what [isnan] asks of a string column.
    [same_name]: the resolver of column names, equality up to case
    unless the session sets [spark.sql.caseSensitive]. *)
Record HashFunctions := mkHashes {
  md5 : string -> string;
  sha2_256 : string -> string;
  spark_hash : string -> Z;
  nan_text : string -> bool;
  same_name : string -> string -> bool
}.

Definition DataType_eq_dec (a b : DataType) : {a = b} + {a <> b}.
Proof. decide equality. Defined.

Definition Cell_eq_dec (a b : Cell) : {a = b} + {a <> b}.
Proof. decide equality; [apply Z.eq_dec | apply string_dec]. Defined.

Fixpoint set_nth {A : Type} (i : nat) (x : A) (l : list A) : list A :=
  match l, i with
  | [], _ => []
  | _ :: rest, O => x :: rest
  | y :: rest, S j => y :: set_nth j x rest
  end.

(** [df.withColumn(c, e)]: replaces the column named [c] where it stands,
    or appends a new one; [e] is evaluated on the row as it was. *)
Definition withColumn (df : DataFrame) (c : string) (ty : DataType)
           (e : list string -> Row -> Cell) : DataFrame :=
  match index_of c (columns df) with
  | Some i =>
      mkDF (set_nth i (mkField c ty) (schema df))
           (map (fun r => set_nth i (e (columns df) r) r) (rows df))
  | None =>
      mkDF (schema df ++ [mkField c ty])%list
           (map (fun r => (r ++ [e (columns df) r])%list) (rows df))
  end.

(** The positions of the columns that the resolver matches with [c]. *)
Definition matching_positions (H : HashFunctions) (c : string)
           (names : list string) : list nat :=
  filter (fun i => same_name H c (nth i names EmptyString))
         (seq 0 (List.length names)).

(** [col(c)] at analysis: the one column that [c] names.  A name that
    matches no column, and a name that matches several, make Spark raise;
    the texts stand for Spark's messages.  Names are plain identifiers:
    Spark reads a name with a dot or backquotes as a path. *)
Definition resolve (H : HashFunctions) (c : string) (names : list string)
  : PyResult nat :=
  match matching_positions H c names with
  | [] => Raise (AnalysisException ("cannot resolve " ++ c))
  | [i] => Ok i
  | _ :: _ :: _ => Raise (AnalysisException ("ambiguous reference " ++ c))
  end.

Fixpoint resolve_all (H : HashFunctions) (cols names : list string)
  : PyResult (list nat) :=
  match cols with
  | [] => Ok []
  | c :: rest =>
      match resolve H c names with
      | Raise e => Raise e
      | Ok i =>
          match resolve_all H rest names with
          | Raise e => Raise e
          | Ok positions => Ok (i :: positions)
          end
      end
  end.

(** The declared type of the column at position [i]. *)
Definition type_at (df : DataFrame) (i : nat) : DataType :=
  dataType (nth i (schema df) (mkField EmptyString StringType)).

(** [isnan] takes a double or a float; Spark casts a column of another
    numeric type or of strings to double for it, and refuses a boolean or
    a timestamp column at analysis. *)
Definition isnan_accepts (ty : DataType) : bool :=
  match ty with
  | BooleanType | TimestampType => false
  | IntegerType | LongType | FloatType | DoubleType | StringType => true
  end.

(** [when(isnull(c), "__NULL__").when(isnan(c), "__NAN__")
     .otherwise(c.cast(StringType()))] on a cell of a column of type
    [ty]: in a string column the texts that cast to the not-a-number
    read [__NAN__] as well. *)
Definition null_safe_string (H : HashFunctions) (ty : DataType) (v : Cell)
  : Cell :=
  match v with
  | CNull => CVal "__NULL__"
  | CNaN => CVal "__NAN__"
  | CLong z => CVal (NilZero.string_of_int (Z.to_int z))
  | CVal s =>
      if DataType_eq_dec ty StringType
      then if nan_text H s then CVal "__NAN__" else CVal s
      else CVal s
  end.

(** One turn of the loop: [withColumn(col_name, ...)] puts the rewritten
    column, under the name as it was given and with string type, where
    the column that [col_name] resolves to stands. *)
Definition process_column (H : HashFunctions) (df : DataFrame)
           (col_name : string) : PyResult DataFrame :=
  match resolve H col_name (columns df) with
  | Raise e => Raise e
  | Ok i =>
      let ty := type_at df i in
      if isnan_accepts ty
      then Ok (mkDF (set_nth i (mkField col_name StringType) (schema df))
                    (map (fun r =>
                            set_nth i (null_safe_string H ty (nth i r CNull)) r)
                         (rows df)))
      else Raise (AnalysisException
                    ("data type mismatch: isnan(" ++ col_name ++ ")"))
  end.

(** The loop that rewrites the chosen columns, one after the other. *)
Fixpoint process_columns (H : HashFunctions) (df : DataFrame)
         (cols : list string) : PyResult DataFrame :=
  match cols with
  | [] => Ok df
  | col_name :: rest =>
      match process_column H df col_name with
      | Raise e => Raise e
      | Ok df_processed => process_columns H df_processed rest
      end
  end.

(** [df_processed.withColumn("__fingerprint", fingerprint_expr)]: the
    chosen columns are resolved in the processed frame, their cells
    joined and hashed. *)
Definition with_fingerprint (H : HashFunctions) (df_processed : DataFrame)
           (cols : list string) (ty : DataType) (hash : string -> Cell)
  : PyResult DataFrame :=
  match resolve_all H cols (columns df_processed) with
  | Raise e => Raise e
  | Ok positions =>
      Ok (withColumn df_processed "__fingerprint" ty
                     (fun _ r =>
                        hash (concat_ws "|"
                                (map (fun i => cast_string (nth i r CNull))
                                     positions))))
  end.

Definition create_data_fingerprint (H : HashFunctions) (df : DataFrame)
           (columns_arg : option (list string)) (algorithm : string)
  : PyResult DataFrame :=
  let cols := match columns_arg with
              | None => filter (fun c => negb (String.eqb c "__row_id")) (columns df)
              | Some cols => cols
              end in
  match process_columns H df cols with
  | Raise e => Raise e
  | Ok df_processed =>
      if String.eqb algorithm "md5" then
        with_fingerprint H df_processed cols StringType
                         (fun s => CVal (md5 H s))
      else if String.eqb algorithm "sha256" then
        with_fingerprint H df_processed cols StringType
                         (fun s => CVal (sha2_256 H s))
      else if String.eqb algorithm "xxhash" then
        with_fingerprint H df_processed cols IntegerType
                         (fun s => CLong (spark_hash H s))
      else Raise (ValueError ("Unsupported algorithm: " ++ algorithm))
  end.

(** Equality of join and grouping keys: a null key equals nothing, not
    even another null. *)
Definition key_eqb (a b : Cell) : bool :=
  match a, b with
  | CNull, _ | _, CNull => false
  | _, _ => if Cell_eq_dec a b then true else false
  end.

(** [df.groupBy(c).count()]: one row per distinct value (nulls form one
    group), with the number of rows that carry it.  Spark fixes no order
    of the groups; first occurrences are taken here. *)
Definition group_by_count (values : list Cell) : list (Cell * nat) :=
  map (fun v => (v, count_occ Cell_eq_dec values v)) (nodup Cell_eq_dec values).

(** The result dictionary of [compare_fingerprints], without its rounded
    float [match_percentage]. *)
Record FingerprintComparison := mkFpComparison {
  common_fingerprints : nat;
  only_in_dataset1 : nat;
  only_in_dataset2 : nat;
  total_dataset1 : nat;
  total_dataset2 : nat;
  fingerprints_match : bool
}.

Definition fingerprint_column (df : DataFrame) : list Cell :=
  map (fun r => cell_at (columns df) r "__fingerprint") (rows df).

Definition compare_fingerprints (df1 df2 : DataFrame)
  : PyResult FingerprintComparison :=
  if str_in "__fingerprint" (columns df1) && str_in "__fingerprint" (columns df2)
  then
    let fp1_counts := group_by_count (fingerprint_column df1) in
    let fp2_counts := group_by_count (fingerprint_column df2) in
    let common_fps := inner_join key_eqb fp1_counts fp2_counts in
    let only_in_1 := left_anti_join key_eqb fp1_counts fp2_counts in
    let only_in_2 := left_anti_join key_eqb fp2_counts fp1_counts in
    let common_count := List.length common_fps in
    let only_in_1_count := List.length only_in_1 in
    let only_in_2_count := List.length only_in_2 in
    Ok (mkFpComparison common_count only_in_1_count only_in_2_count
                       (count df1) (count df2)
                       ((only_in_1_count =? 0) && (only_in_2_count =? 0)))
  else Raise (AnalysisException "__fingerprint").

(** The read of [fingerprint_columns] in
    [data_comparator.run_fingerprinting_comparison]:
    [comparison_settings.get('fingerprint_columns', [])].  The outer
    option is the presence of the key, the inner one a value of [None]. *)
Record ComparisonSettings := mkSettings {
  enable_fingerprinting : option bool;
  fingerprint_columns : option (option (list string));
  fingerprint_algorithm : option string
}.

Definition get_default {A : Type} (v : option A) (default : A) : A :=
  match v with Some a => a | None => default end.

(** The fingerprinting phase up to the two fingerprinted frames; [None]
    when the phase is disabled. *)
Definition run_fingerprinting_frames (H : HashFunctions) (df1 df2 : DataFrame)
           (comparison_settings : ComparisonSettings)
  : option (PyResult (DataFrame * DataFrame)) :=
  if negb (get_default (enable_fingerprinting comparison_settings) true)
  then None
  else
    let fingerprint_columns :=
      get_default (fingerprint_columns comparison_settings) (Some []) in
    let algorithm :=
      get_default (fingerprint_algorithm comparison_settings) "md5" in
    match create_data_fingerprint H df1 fingerprint_columns algorithm with
    | Raise e => Some (Raise e)
    | Ok df1_fp =>
        match create_data_fingerprint H df2 fingerprint_columns algorithm with
        | Raise e => Some (Raise e)
        | Ok df2_fp => Some (Ok (df1_fp, df2_fp))
        end
    end.

Definition run_fingerprinting_comparison (H : HashFunctions)
           (df1 df2 : DataFrame) (comparison_settings : ComparisonSettings)
  : option (PyResult FingerprintComparison) :=
  match run_fingerprinting_frames H df1 df2 comparison_settings with
  | None => None
  | Some (Raise e) => Some (Raise e)
  | Some (Ok (df1_fp, df2_fp)) => Some (compare_fingerprints df1_fp df2_fp)
  end.

(** ** Sampling ([fingerprinting_sampler]) *)

Section Sampling.
(** The uniform variates in [[0, 1)] that the generator seeded with 42
    hands to the rows, by row position. *)
Variable draw : nat -> Q.

Fixpoint bernoulli (fraction : Q) (i : nat) (rs : list Row) : list Row :=
  match rs with
  | [] => []
  | r :: rest =>
      if negb (Qle_bool fraction (draw i))
      then r :: bernoulli fraction (S i) rest
      else bernoulli fraction (S i) rest
  end.

(** [df.sample(withReplacement=False, fraction=f, seed=42)]: every row
    is kept when its variate lies below [f]; Spark refuses a fraction
    outside [[0, 1]]. *)
Definition sample (fraction : Q) (df : DataFrame) : PyResult DataFrame :=
  if Qle_bool 0 fraction && Qle_bool fraction 1
  then Ok (mkDF (schema df) (bernoulli fraction 0 (rows df)))
  else Raise (IllegalArgumentException "Sampling fraction must be on interval [0, 1]").

(** Python's [a / b] on two integers with [b <> 0]. *)
Definition true_div (a b : Z) : Q := inject_Z a / inject_Z b.

Definition random_sampling (df : DataFrame) (sample_size : Z)
  : PyResult DataFrame :=
  let total_rows := Z.of_nat (count df) in
  if Z.leb total_rows sample_size then Ok df
  else if Z.eqb total_rows 0 then Raise ZeroDivisionError
  else
    let sample_ratio := true_div sample_size total_rows in
    sample sample_ratio df.

(** Rows in ascending [__row_id] order, nulls first. *)
Definition row_id_leb (a b : option Z) : bool :=
  match a, b with
  | None, _ => true
  | Some _, None => false
  | Some x, Some y => Z.leb x y
  end.

Fixpoint insert_by_row_id (names : list string) (r : Row) (l : list Row)
  : list Row :=
  match l with
  | [] => [r]
  | x :: rest =>
      if row_id_leb (row_id_of names r) (row_id_of names x)
      then r :: x :: rest
      else x :: insert_by_row_id names r rest
  end.

Definition order_by_row_id (names : list string) (rs : list Row) : list Row :=
  fold_right (insert_by_row_id names) [] rs.

(** [row_number()]: positions from 1. *)
Fixpoint number_from (n : Z) (rs : list Row) : list (Z * Row) :=
  match rs with
  | [] => []
  | r :: rest => (n, r) :: number_from (n + 1) rest
  end.

Definition systematic_sampling (df : DataFrame) (sample_size : Z)
  : PyResult DataFrame :=
  let total_rows := Z.of_nat (count df) in
  if Z.leb total_rows sample_size then Ok df
  else if Z.eqb sample_size 0 then Raise ZeroDivisionError
  else
    let interval := Z.div total_rows sample_size in
    if negb (str_in "__row_id" (columns df))
    then Raise (AnalysisException unresolved_row_id)
    else if Z.ltb sample_size 0
    then Raise (AnalysisException "The limit expression must be equal to or greater than 0")
    else
      let df_with_rownum :=
        number_from 1 (order_by_row_id (columns df) (rows df)) in
      let sampled :=
        firstn (Z.to_nat sample_size)
               (filter (fun p => Z.eqb (Z.rem (fst p) interval) 0)
                       df_with_rownum) in
      Ok (mkDF (schema df) (map snd sampled)).

(** Python's [int(x)] on a float: truncation toward zero. *)
Definition int_of (x : Q) : Z := Z.quot (Qnum x) (Zpos (Qden x)).

(** The loop over the strata: the frames sampled so far and the budget
    that remains. *)
Fixpoint strata_loop (df : DataFrame) (stratify_column : string)
         (sample_size : Z) (value_counts : list (Cell * nat))
         (remaining_sample : Z) : list (list Row) :=
  match value_counts with
  | [] => []
  | (value, cnt) :: rest =>
      let total_rows := Z.of_nat (count df) in
      let stratum_sample_size :=
        Z.max 1 (int_of (true_div (Z.of_nat cnt) total_rows
                         * inject_Z sample_size)) in
      let stratum_sample_size :=
        Z.min (Z.min stratum_sample_size (Z.of_nat cnt)) remaining_sample in
      if Z.ltb 0 stratum_sample_size then
        let stratum_df :=
          filter (fun r => key_eqb (cell_at (columns df) r stratify_column) value)
                 (rows df) in
        let stratum_sample :=
          firstn (Z.to_nat stratum_sample_size)
                 (bernoulli (true_div stratum_sample_size (Z.of_nat cnt)) 0
                            stratum_df) in
        stratum_sample
          :: strata_loop df stratify_column sample_size rest
                         (remaining_sample - stratum_sample_size)
      else strata_loop df stratify_column sample_size rest remaining_sample
  end.

Definition stratified_sampling (df : DataFrame) (sample_size : Z)
           (stratify_column : string) : PyResult DataFrame :=
  if str_in stratify_column (columns df) then
    let value_counts :=
      group_by_count
        (map (fun r => cell_at (columns df) r stratify_column) (rows df)) in
    let sampled_dfs :=
      strata_loop df stratify_column sample_size value_counts sample_size in
    Ok (mkDF (schema df) (List.concat sampled_dfs))
  else
    (* the handler: fall back to a plain sample of the whole frame *)
    if Nat.eqb (count df) 0 then Raise ZeroDivisionError
    else sample (true_div sample_size (Z.of_nat (count df))) df.

(** Python values that meet in [field.dataType in ['int', ...]]: a
    [DataType] object on the left, strings in the list.  [DataType.__eq__]
    answers [False] for anything that is not an instance of the same
    class, and a string never equals an object that is not a string. *)
Inductive PyObject :=
| PyStr (s : string)
| PyDataType (t : DataType).

Definition py_eq (a b : PyObject) : bool :=
  match a, b with
  | PyStr s, PyStr t => String.eqb s t
  | PyDataType s, PyDataType t => if DataType_eq_dec s t then true else false
  | _, _ => false
  end.

Definition py_in (x : PyObject) (l : list PyObject) : bool :=
  existsb (py_eq x) l.

Definition numeric_columns_of (df : DataFrame) : list string :=
  map name
      (filter (fun field =>
                 py_in (PyDataType (dataType field))
                       [PyStr "int"; PyStr "long"; PyStr "float"; PyStr "double"])
              (schema df)).

Definition adaptive_sampling (df : DataFrame) (sample_size : Z)
           (sampling_strategy : string) : PyResult DataFrame :=
  if String.eqb sampling_strategy "random" then
    random_sampling df sample_size
  else if String.eqb sampling_strategy "systematic" then
    systematic_sampling df sample_size
  else if String.eqb sampling_strategy "stratified" then
    match numeric_columns_of df with
    | stratify_col :: _ => stratified_sampling df sample_size stratify_col
    | [] => random_sampling df sample_size
    end
  else Raise (ValueError ("Unsupported sampling strategy: " ++ sampling_strategy)).
End Sampling.

(** ** Drift indicators ([fingerprinting_sampler.detect_data_drift]) *)

Module Drift.

(** The dictionary built from [describe()]: summary name to value, the
    value a string or [None].  Python floats are IEEE doubles. *)
Definition Stats := list (string * option string).

Fixpoint lookup (key : string) (d : Stats) : option (option string) :=
  match d with
  | [] => None
  | (k, v) :: rest => if String.eqb key k then Some v else lookup key rest
  end.

Record Indicator := mkIndicator {
  ind_type : string;
  ind_value : float;
  ind_threshold : Z
}.

Record ColumnDrift := mkColumnDrift {
  drift_detected : bool;
  drift_indicators : list Indicator
}.

Section Detect.
(** Python's [float(s)] on a string; [None] is a [ValueError]. *)
Variable python_float : string -> option float.

(** [float(v)]: a [TypeError] on [None]. *)
Definition to_float (v : option string) : PyResult float :=
  match v with
  | None => Raise TypeError
  | Some s =>
      match python_float s with
      | Some f => Ok f
      | None => Raise (ValueError s)
      end
  end.

(** The relative change [(diff / base) * 100 if nonzero else 0]. *)
Definition change_pct (diff base : float) (nonzero : bool) : float :=
  if nonzero then PrimFloat.mul (PrimFloat.div diff base) 100%float
  else 0%float.

(** The block that compares the means; [ValueError] and [TypeError]
    are passed over. *)
Definition mean_indicators (stats1_dict stats2_dict : Stats)
  : list Indicator :=
  match lookup "mean" stats1_dict, lookup "mean" stats2_dict with
  | Some v1, Some v2 =>
      match to_float v1 with
      | Raise _ => []
      | Ok mean1 =>
          match to_float v2 with
          | Raise _ => []
          | Ok mean2 =>
              let mean_diff := PrimFloat.abs (PrimFloat.sub mean2 mean1) in
              let mean_change_pct :=
                change_pct mean_diff (PrimFloat.abs mean1)
                           (negb (PrimFloat.eqb mean1 0%float)) in
              if PrimFloat.ltb 10%float mean_change_pct
              then [mkIndicator "mean_change" mean_change_pct 10]
              else []
          end
      end
  | _, _ => []
  end.

(** The block that compares the standard deviations. *)
Definition stddev_indicators (stats1_dict stats2_dict : Stats)
  : list Indicator :=
  match lookup "stddev" stats1_dict, lookup "stddev" stats2_dict with
  | Some v1, Some v2 =>
      match to_float v1 with
      | Raise _ => []
      | Ok std1 =>
          match to_float v2 with
          | Raise _ => []
          | Ok std2 =>
              let std_diff := PrimFloat.abs (PrimFloat.sub std2 std1) in
              let std_change_pct :=
                change_pct std_diff std1
                           (negb (PrimFloat.eqb std1 0%float)) in
              if PrimFloat.ltb 20%float std_change_pct
              then [mkIndicator "stddev_change" std_change_pct 20]
              else []
          end
      end
  | _, _ => []
  end.

(** The entry of [drift_results] for one common column. *)
Definition column_drift (stats1_dict stats2_dict : Stats) : ColumnDrift :=
  let indicators :=
    (mean_indicators stats1_dict stats2_dict
     ++ stddev_indicators stats1_dict stats2_dict)%list in
  mkColumnDrift (Nat.ltb 0 (List.length indicators)) indicators.
End Detect.

End Drift.

(** ** Metadata ([metadata_comparator]) *)

Module Metadata.

(** One entry of the schema list of a metadata dictionary. *)
Record FieldInfo := mkFieldInfo {
  f_name : string;
  f_type : string;
  f_nullable : bool
}.

(** [{field['name']: field for field in schema}[key]]: of several fields
    with one name the last is kept. *)
Fixpoint schema_get (key : string) (schema : list FieldInfo)
  : option FieldInfo :=
  match schema with
  | [] => None
  | f :: rest =>
      match schema_get key rest with
      | Some g => Some g
      | None => if String.eqb key (f_name f) then Some f else None
      end
  end.

(** The key set of that dictionary; Python fixes no order of a set, first
    occurrences are taken here. *)
Definition schema_keys (schema : list FieldInfo) : list string :=
  nodup string_dec (map f_name schema).

Record TypeDifference := mkTypeDifference {
  td_column : string;
  td_type1 : string;
  td_type2 : string
}.

Record SchemaComparison := mkSchemaComparison {
  sc_common_columns : list string;
  sc_only_in_dataset1 : list string;
  sc_only_in_dataset2 : list string;
  sc_type_differences : list TypeDifference;
  sc_schema_match : bool
}.

(** The body of the loop over the common columns. *)
Definition type_difference (schema1 schema2 : list FieldInfo)
           (col_name : string) : list TypeDifference :=
  match schema_get col_name schema1, schema_get col_name schema2 with
  | Some field1, Some field2 =>
      if String.eqb (f_type field1) (f_type field2) then []
      else [mkTypeDifference col_name (f_type field1) (f_type field2)]
  | _, _ => []
  end.

Definition compare_schemas (schema1 schema2 : list FieldInfo)
  : SchemaComparison :=
  let keys1 := schema_keys schema1 in
  let keys2 := schema_keys schema2 in
  let common_columns := filter (fun c => str_in c keys2) keys1 in
  let only_in_1 := filter (fun c => negb (str_in c keys2)) keys1 in
  let only_in_2 := filter (fun c => negb (str_in c keys1)) keys2 in
  let type_differences :=
    flat_map (type_difference schema1 schema2) common_columns in
  mkSchemaComparison
    common_columns only_in_1 only_in_2 type_differences
    ((List.length type_differences =? 0)
     && (List.length only_in_1 =? 0) && (List.length only_in_2 =? 0)).

(** A dictionary of null counts by column, read by first match. *)
Definition NullCounts := list (string * Z).

Fixpoint counts_get (key : string) (d : NullCounts) : option Z :=
  match d with
  | [] => None
  | (k, v) :: rest => if String.eqb key k then Some v else counts_get key rest
  end.

Definition counts_keys (d : NullCounts) : list string :=
  nodup string_dec (map fst d).

(** An entry of [null_differences], without its two rounded
    percentages. *)
Record NullDifference := mkNullDifference {
  nd_column : string;
  nd_null_count1 : Z;
  nd_null_count2 : Z;
  nd_difference : Z
}.

Record NullComparison := mkNullComparison {
  null_differences : list NullDifference;
  null_counts_match : bool
}.

Definition null_difference (null_counts1 null_counts2 : NullCounts)
           (col_name : string) : list NullDifference :=
  match counts_get col_name null_counts1, counts_get col_name null_counts2 with
  | Some null1, Some null2 =>
      if Z.eqb null1 null2 then []
      else [mkNullDifference col_name null1 null2 (null2 - null1)]
  | _, _ => []
  end.

Definition compare_null_counts (null_counts1 null_counts2 : NullCounts)
           (row_count1 row_count2 : Z) : NullComparison :=
  let common_columns :=
    filter (fun c => str_in c (counts_keys null_counts2))
           (counts_keys null_counts1) in
  let null_differences :=
    flat_map (null_difference null_counts1 null_counts2) common_columns in
  mkNullComparison null_differences (List.length null_differences =? 0).

(** The metadata dictionary of a source. *)
Record Metadata := mkMetadata {
  row_count : Z;
  column_count : Z;
  md_schema : list FieldInfo;
  null_counts : NullCounts
}.

Record CountComparison := mkCountComparison {
  count1 : Z;
  count2 : Z;
  difference : Z;
  count_match : bool
}.

Record Summary := mkSummary {
  total_columns_compared : nat;
  columns_only_in_dataset1 : nat;
  columns_only_in_dataset2 : nat;
  type_difference_count : nat;
  null_count_differences : nat
}.

Record MetadataComparison := mkMetadataComparison {
  overall_match : bool;
  row_count_comparison : CountComparison;
  column_count_comparison : CountComparison;
  schema_comparison : SchemaComparison;
  null_count_comparison : NullComparison;
  summary : Summary
}.

Definition compare_metadata (metadata1 metadata2 : Metadata)
  : MetadataComparison :=
  let schema_comparison :=
    compare_schemas (md_schema metadata1) (md_schema metadata2) in
  let null_comparison :=
    compare_null_counts (null_counts metadata1) (null_counts metadata2)
                        (row_count metadata1) (row_count metadata2) in
  let row_count_difference := (row_count metadata2 - row_count metadata1)%Z in
  let row_count_match := Z.eqb row_count_difference 0 in
  let column_count_difference :=
    (column_count metadata2 - column_count metadata1)%Z in
  let column_count_match := Z.eqb column_count_difference 0 in
  let overall_match :=
    sc_schema_match schema_comparison && null_counts_match null_comparison
    && row_count_match && column_count_match in
  mkMetadataComparison
    overall_match
    (mkCountComparison (row_count metadata1) (row_count metadata2)
                       row_count_difference row_count_match)
    (mkCountComparison (column_count metadata1) (column_count metadata2)
                       column_count_difference column_count_match)
    schema_comparison null_comparison
    (mkSummary (List.length (sc_common_columns schema_comparison))
               (List.length (sc_only_in_dataset1 schema_comparison))
               (List.length (sc_only_in_dataset2 schema_comparison))
               (List.length (sc_type_differences schema_comparison))
               (List.length (null_differences null_comparison))).

End Metadata.

(** ** Tables used as concrete inputs *)

Module Examples.

Definition schema_v : list StructField :=
  [mkField "v" StringType; mkField "__row_id" LongType].


(** Three rows with the same content. *)
Definition triplets : DataFrame :=
  mkDF schema_v [[CVal "a"; CLong 0]; [CVal "a"; CLong 1]; [CVal "a"; CLong 2]].

(** Three rows with different contents. *)
Definition abc : DataFrame :=
  mkDF schema_v [[CVal "a"; CLong 0]; [CVal "b"; CLong 1]; [CVal "c"; CLong 2]].

Definition bcd : DataFrame :=
  mkDF schema_v [[CVal "b"; CLong 0]; [CVal "c"; CLong 1]; [CVal "d"; CLong 2]].

(** Five rows, identified 0 to 4. *)
Definition five : DataFrame :=
  mkDF schema_v
       [[CVal "a"; CLong 0]; [CVal "b"; CLong 1]; [CVal "c"; CLong 2];
        [CVal "d"; CLong 3]; [CVal "e"; CLong 4]].

Definition no_config : Config := mkConfig None None None.

Definition schema_fp : list StructField :=
  [mkField "v" StringType; mkField "__row_id" LongType;
   mkField "__fingerprint" StringType].

(** Fingerprinted frames: three rows, two of them with the same
    fingerprint; and two rows. *)
Definition fingerprinted1 : DataFrame :=
  mkDF schema_fp
       [[CVal "a"; CLong 0; CVal "h1"]; [CVal "b"; CLong 1; CVal "h2"];
        [CVal "b"; CLong 2; CVal "h2"]].

Definition fingerprinted2 : DataFrame :=
  mkDF schema_fp
       [[CVal "b"; CLong 0; CVal "h2"]; [CVal "c"; CLong 1; CVal "h3"]].

Definition reversed (df : DataFrame) : DataFrame :=
  mkDF (schema df) (rev (rows df)).

(** Variates for five rows; four of them lie below 2/5. *)
Definition draws (i : nat) : Q :=
  nth i [1 # 10; 3 # 10; 1 # 5; 9 # 10; 7 # 20]%Q (1 # 2)%Q.

(** A frame with a column of declared integer type. *)
Definition with_age : DataFrame :=
  mkDF [mkField "name" StringType; mkField "age" IntegerType;
        mkField "__row_id" LongType]
       [[CVal "Alice"; CLong 25; CLong 0]; [CVal "Bob"; CLong 30; CLong 1];
        [CVal "Eve"; CLong 25; CLong 2]].

(** ASCII lower case. *)
Definition lower_ascii (a : ascii) : ascii :=
  let n := nat_of_ascii a in
  if (65 <=? n) && (n <=? 90) then ascii_of_nat (n + 32) else a.

Fixpoint lower (s : string) : string :=
  match s with
  | EmptyString => EmptyString
  | String a rest => String (lower_ascii a) (lower rest)
  end.

(** Equality up to case, on ASCII names. *)
Definition equals_ignore_case (a b : string) : bool :=
  String.eqb (lower a) (lower b).

(** Functions that stand in for Spark's: each hash marks its input, the
    texts that read as the not-a-number are the spellings of [nan], and
    names are resolved up to case. *)
Definition marking_hashes : HashFunctions :=
  mkHashes (fun s => "md5:" ++ s) (fun s => "sha256:" ++ s)
           (fun s => Z.of_nat (String.length s))
           (fun s => equals_ignore_case s "nan")
           equals_ignore_case.

(** A reading of the three numerals used below, for [float]. *)
Definition read_float (s : string) : option float :=
  if String.eqb s "0.0" then Some 0%float
  else if String.eqb s "inf" then Some PrimFloat.infinity
  else if String.eqb s "1.0" then Some 1%float
  else None.

Definition baseline_stats : Drift.Stats :=
  [("count", Some "3"); ("mean", Some "0.0"); ("stddev", Some "1.0")].

Definition current_stats : Drift.Stats :=
  [("count", Some "3"); ("mean", Some "inf"); ("stddev", Some "1.0")].

End Examples.

(** ** Properties named by the theorems *)

(** One call of the chunk comparator. *)
Definition Call := (DataFrame * DataFrame * Config)%type.

Definition run_call (c : Call) : ChunkResult :=
  compare_data_chunks (fst (fst c)) (snd (fst c)) (snd c).

(** In at least one of the two chunks no content key occurs twice. *)
Definition one_side_without_repeats (c : Call) : Prop :=
  let chunk1 := fst (fst c) in
  let chunk2 := snd (fst c) in
  let cols := common_columns_of chunk1 chunk2 in
  NoDup (chunk_keys cols chunk1) \/ NoDup (chunk_keys cols chunk2).

(** The integers of [[lo, hi)], ascending. *)
Definition Zrange (lo hi : Z) : list Z :=
  map (fun k => (lo + Z.of_nat k)%Z) (seq 0 (Z.to_nat (hi - lo))).

(** The row identifiers of a frame, in row order. *)
Definition row_ids (df : DataFrame) : list (option Z) :=
  map (row_id_of (columns df)) (rows df).

(** The row identifiers of the frame are the integers of
    [[0, rowCount)], each carried by one row. *)
Definition rows_identified_from_zero (df : DataFrame) : Prop :=
  Permutation (row_ids df) (map Some (range (Z.of_nat (count df)))).

(** The result that belongs to index [i] of the paired chunks: what the
    task submitted for [i] returns. *)
Definition result_of_pair (config : Config)
           (pairs : list (DataFrame * DataFrame)) (i : nat) : ChunkResult :=
  match nth_error pairs i with
  | Some p =>
      compare_data_chunks (fst p) (snd p)
                          (mkConfig (Some i) (cfg_chunk_size config)
                                    (cfg_max_parallelism config))
  | None => ChunkError i EmptyString
  end.

(** The order the coordinator sorts by. *)
Definition chunk_id_le (a b : ChunkResult) : Prop :=
  result_chunk_id a <= result_chunk_id b.

(** A chunk of one row over the columns [a], [b] and [__row_id]. *)
Definition single_row (a b : Cell) (id : Z) : DataFrame :=
  mkDF [mkField "a" StringType; mkField "b" StringType;
        mkField "__row_id" LongType]
       [[a; b; CLong id]].

(** The line the aggregator records for a failed chunk. *)
Definition error_lines (r : ChunkResult) : list string :=
  match r with
  | ChunkError chunk_id error =>
      ["Chunk " ++ nat_to_string chunk_id ++ ": " ++ error]
  | ChunkOk _ _ _ _ _ _ _ => []
  end.

(** ** The full comparison ([comparison_engine.full_data_comparison]) *)

(** The aggregate with the keys the full comparison adds to it; the
    measured [processing_time_seconds] is left out. *)
Record FullComparison := mkFullComparison {
  aggregated : Aggregate;
  chunks_processed : nat;
  used_chunk_size : Z;
  used_max_parallelism : nat
}.

(** [order] is the completion order of the chunk tasks, as for the
    coordinator, whose [ValueError] for a pool of no worker passes
    through. *)
Definition full_data_comparison (df1 df2 : DataFrame)
           (comparison_config : Config) (order : list nat)
  : PyResult FullComparison :=
  let chunk_size := get_default (cfg_chunk_size comparison_config) 1000000%Z in
  let max_parallelism := get_default (cfg_max_parallelism comparison_config) 4 in
  match chunk_dataframe df1 chunk_size with
  | Raise e => Raise e
  | Ok chunks1 =>
      match chunk_dataframe df2 chunk_size with
      | Raise e => Raise e
      | Ok chunks2 =>
          let min_chunks := Nat.min (List.length chunks1) (List.length chunks2) in
          let chunks1 := firstn min_chunks chunks1 in
          let chunks2 := firstn min_chunks chunks2 in
          match parallel_chunk_comparison chunks1 chunks2
                                          comparison_config order with
          | Raise e => Raise e
          | Ok chunk_results =>
              Ok (mkFullComparison (aggregate_chunk_results chunk_results)
                                   (List.length chunk_results)
                                   chunk_size max_parallelism)
          end
      end
  end.

(** ** Detailed differences ([comparison_engine.find_detailed_differences]) *)

(** Python's [==] on two collected values of a column: [None] equals
    [None], a not-a-number equals nothing. *)
Definition py_value_eqb (a b : Cell) : bool :=
  match a, b with
  | CNaN, _ | _, CNaN => false
  | _, _ => if Cell_eq_dec a b then true else false
  end.

(** [x in s] and [s - t] on sets of collected values. *)
Definition py_value_in (x : Cell) (s : list Cell) : bool :=
  existsb (py_value_eqb x) s.

Definition set_difference (s t : list Cell) : list Cell :=
  filter (fun x => negb (py_value_in x t)) s.

Definition set_intersection (s t : list Cell) : list Cell :=
  filter (fun x => py_value_in x t) s.

(** One entry of [detailed_differences]. *)
Record ColumnDifference := mkColumnDifference {
  cd_column : string;
  cd_only_in_dataset1 : list Cell;
  cd_only_in_dataset2 : list Cell;
  cd_common_values_count : nat;
  cd_unique_values_dataset1 : nat;
  cd_unique_values_dataset2 : nat
}.

Record DetailedDifferences := mkDetailedDifferences {
  detailed_differences : list ColumnDifference;
  columns_with_differences : nat;
  dd_sample_size : Z;
  total_columns_analyzed : nat
}.

(** [set(row[c] for row in sample.select(c).distinct().collect())]; Spark's
    [distinct] keeps one null and one not-a-number. *)
Definition distinct_values (df : DataFrame) (col_name : string) : list Cell :=
  nodup Cell_eq_dec (map (fun r => cell_at (columns df) r col_name) (rows df)).

Definition column_difference (sample1 sample2 : DataFrame) (col_name : string)
  : list ColumnDifference :=
  let values1 := distinct_values sample1 col_name in
  let values2 := distinct_values sample2 col_name in
  let only_in_1 := set_difference values1 values2 in
  let only_in_2 := set_difference values2 values1 in
  let common_values := set_intersection values1 values2 in
  match only_in_1, only_in_2 with
  | [], [] => []
  | _, _ =>
      [mkColumnDifference col_name (firstn 10 only_in_1) (firstn 10 only_in_2)
                          (List.length common_values)
                          (List.length values1) (List.length values2)]
  end.

Definition find_detailed_differences (draw : nat -> Q) (df1 df2 : DataFrame)
           (sample_size : Z) : PyResult DetailedDifferences :=
  if Nat.eqb (count df1) 0 then Raise ZeroDivisionError
  else
    match sample draw (true_div sample_size (Z.of_nat (count df1))) df1 with
    | Raise e => Raise e
    | Ok sample1 =>
        if Nat.eqb (count df2) 0 then Raise ZeroDivisionError
        else
          match sample draw (true_div sample_size (Z.of_nat (count df2))) df2 with
          | Raise e => Raise e
          | Ok sample2 =>
              let common_columns :=
                filter (fun c => str_in c (columns sample2)
                                 && negb (str_in c ["__row_id"; "__fingerprint"]))
                       (columns sample1) in
              let differences :=
                flat_map (column_difference sample1 sample2) common_columns in
              Ok (mkDetailedDifferences differences (List.length differences)
                                        sample_size
                                        (List.length common_columns))
          end
    end.

(** A frame whose second row lies in another partition: its identifier
    carries the partition number in the high bits. *)
Definition two_partitions : DataFrame :=
  mkDF [mkField "v" StringType; mkField "__row_id" LongType]
       [[CVal "a"; CLong 0]; [CVal "b"; CLong 8589934592]].

(** Three rows read over two partitions, one row in the first and two in
    the second, with the identifiers of [monotonically_increasing_id]:
    the partition index in the upper 31 bits, the position within the
    partition in the lower 33. *)
Definition three_rows_two_partitions : DataFrame :=
  mkDF Examples.schema_v
       [[CVal "a"; CLong 0]; [CVal "b"; CLong (Z.shiftl 1 33)];
        [CVal "c"; CLong (Z.shiftl 1 33 + 1)]].




(** A frame in which [h2] occurs once. *)
Definition fingerprinted1_once : DataFrame :=
  mkDF Examples.schema_fp
       [[CVal "a"; CLong 0; CVal "h1"]; [CVal "b"; CLong 1; CVal "h2"]].

(** Every row has one cell per column. *)
Definition well_formed (df : DataFrame) : Prop :=
  forall r, In r (rows df) -> List.length r = List.length (schema df).

(** The resolver relates names as an equivalence does. *)
Definition resolver_laws (H : HashFunctions) : Prop :=
  (forall a, same_name H a a = true) /\
  (forall a b, same_name H a b = true -> same_name H b a = true) /\
  (forall a b c, same_name H a b = true -> same_name H b c = true ->
                 same_name H a c = true).

(** No two columns bear the same name for the resolver. *)
Definition unambiguous (H : HashFunctions) (names : list string) : Prop :=
  forall i j, i < List.length names -> j < List.length names ->
              same_name H (nth i names EmptyString) (nth j names EmptyString)
              = true ->
              i = j.

(** Every column but [__row_id] has a type that [isnan] accepts. *)
Definition hashable (df : DataFrame) : Prop :=
  forall field, In field (schema df) -> name field <> "__row_id" ->
                isnan_accepts (dataType field) = true.

(** The text that stands for a cell of a column of type [ty] in the
    string that is hashed. *)
Definition null_safe_text (H : HashFunctions) (ty : DataType) (v : Cell)
  : string :=
  match v with
  | CNull => "__NULL__"
  | CNaN => "__NAN__"
  | CLong z => NilZero.string_of_int (Z.to_int z)
  | CVal s =>
      if DataType_eq_dec ty StringType
      then if nan_text H s then "__NAN__" else s
      else s
  end.

(** The fingerprint cell for a canonical string, by algorithm. *)
Definition hash_cell (H : HashFunctions) (algorithm : string) (s : string)
  : Cell :=
  if String.eqb algorithm "md5" then CVal (md5 H s)
  else if String.eqb algorithm "sha256" then CVal (sha2_256 H s)
  else CLong (spark_hash H s).

(** The columns that are hashed. *)
Definition fingerprint_columns_of (df : DataFrame)
           (columns_arg : option (list string)) : list string :=
  match columns_arg with
  | None => filter (fun c => negb (String.eqb c "__row_id")) (columns df)
  | Some cols => cols
  end.

(** The position of the first column named [c]. *)
Definition position_of (names : list string) (c : string) : nat :=
  match index_of c names with
  | Some i => i
  | None => 0
  end.

(** The positions of the columns hashed by default. *)
Definition default_positions (df : DataFrame) : list nat :=
  map (position_of (columns df)) (fingerprint_columns_of df None).

(** Two rows agree on every column but [__row_id]. *)
Definition same_content (names : list string) (r r' : Row) : Prop :=
  forall c, c <> "__row_id" -> cell_at names r c = cell_at names r' c.

(** What the loop does to one row, by the positions of the chosen
    columns. *)
Definition process_row (H : HashFunctions) (df : DataFrame)
           (positions : list nat) (r : Row) : Row :=
  fold_left
    (fun r i => set_nth i (null_safe_string H (type_at df i) (nth i r CNull)) r)
    positions r.

(** The string that is hashed for a row: the texts of the cells at the
    chosen positions, joined by the delimiter. *)
Definition canonical_string (H : HashFunctions) (df : DataFrame)
           (positions : list nat) (r : Row) : string :=
  String.concat
    "|" (map (fun i => null_safe_text H (type_at df i) (nth i r CNull))
             positions).

(** The five rows of [Examples.five] under other row identifiers, the last
    two in the other order. *)
Definition five_renumbered : DataFrame :=
  mkDF Examples.schema_v
       [[CVal "a"; CLong 100]; [CVal "b"; CLong 101]; [CVal "c"; CLong 102];
        [CVal "e"; CLong 103]; [CVal "d"; CLong 104]].

(** Statistics of a constant baseline column and of a spread-out one. *)
Definition constant_stats : Drift.Stats :=
  [("count", Some "3"); ("mean", Some "0.0"); ("stddev", Some "0.0")].

Definition spread_stats : Drift.Stats :=
  [("count", Some "3"); ("mean", Some "inf"); ("stddev", Some "inf")].

(** ** The consolidated report ([data_comparator.create_consolidated_report]) *)

Module Report.

(** What [result.get(key, {})] finds: no such key, the value [None] (a
    disabled phase stores it), or the dictionary of the phase. *)
Inductive Entry (A : Type) :=
| Absent
| IsNone
| Dict (a : A).
Arguments Absent {A}.
Arguments IsNone {A}.
Arguments Dict {A} a.

(** [None.get(...)] raises [AttributeError]. *)
Inductive Outcome (A : Type) :=
| Done (a : A)
| AttributeError.
Arguments Done {A} a.
Arguments AttributeError {A}.

(** The result of one dataset pair that succeeded, as far as the report
    reads it; the measured times are left out. *)
Record SuccessResult := mkSuccess {
  s_dataset_name : string;
  s_dataset_description : string;
  s_metadata_comparison : Entry Metadata.MetadataComparison;
  s_fingerprint_comparison : Entry FingerprintComparison;
  s_full_comparison : Entry FullComparison
}.

Record FailedResult := mkFailed {
  f_dataset_name : string;
  f_dataset_description : string;
  f_error : string
}.

(** An element of [all_results]; ['error' in result] tells them apart. *)
Inductive Result :=
| Success (r : SuccessResult)
| Failed (r : FailedResult).

(** [entry.get(key, default)] after [result.get(section, {})]. *)
Definition get_from {A B : Type} (e : Entry A) (read : A -> B) (default : B)
  : Outcome B :=
  match e with
  | Absent => Done default
  | IsNone => AttributeError
  | Dict a => Done (read a)
  end.

Definition bind {A B : Type} (o : Outcome A) (k : A -> Outcome B) : Outcome B :=
  match o with
  | Done a => k a
  | AttributeError => AttributeError
  end.

(** [metadata... and fingerprint... and full...], left to right, stopping
    at the first false. *)
Definition matches_everywhere (r : SuccessResult) : Outcome bool :=
  bind (get_from (s_metadata_comparison r) Metadata.overall_match false)
       (fun m =>
          if m then
            bind (get_from (s_fingerprint_comparison r) fingerprints_match false)
                 (fun f =>
                    if f then
                      get_from (s_full_comparison r)
                               (fun full => datasets_match (aggregated full))
                               false
                    else Done false)
          else Done false).

(** [all(... for result in successful_results)]: stops at the first
    result that does not match. *)
Fixpoint all_match (results : list SuccessResult) : Outcome bool :=
  match results with
  | [] => Done true
  | r :: rest =>
      bind (matches_everywhere r)
           (fun b => if b then all_match rest else Done false)
  end.

Definition row_counts (r : SuccessResult) : Outcome Z :=
  bind (get_from (s_metadata_comparison r)
                 (fun m => Metadata.count1 (Metadata.row_count_comparison m)) 0%Z)
       (fun c1 =>
          bind (get_from (s_metadata_comparison r)
                         (fun m => Metadata.count2 (Metadata.row_count_comparison m))
                         0%Z)
               (fun c2 => Done (c1 + c2)%Z)).

Fixpoint sum_row_counts (results : list SuccessResult) : Outcome Z :=
  match results with
  | [] => Done 0%Z
  | r :: rest =>
      bind (row_counts r)
           (fun n => bind (sum_row_counts rest) (fun m => Done (n + m)%Z))
  end.

Inductive DatasetSummary :=
| SummaryFailed (name description error : string)
| SummarySuccess (name description : string)
                 (metadata_match fingerprint_match full_match overall_match : bool)
                 (row_count_1 row_count_2 : Z).

Definition summarise (result : Result) : Outcome DatasetSummary :=
  match result with
  | Failed r =>
      Done (SummaryFailed (f_dataset_name r) (f_dataset_description r) (f_error r))
  | Success r =>
      bind (get_from (s_metadata_comparison r) Metadata.overall_match false)
      (fun m =>
      bind (get_from (s_fingerprint_comparison r) fingerprints_match false)
      (fun f =>
      bind (get_from (s_full_comparison r)
                     (fun full => datasets_match (aggregated full)) false)
      (fun d =>
      bind (get_from (s_metadata_comparison r)
                     (fun m => Metadata.count1 (Metadata.row_count_comparison m))
                     0%Z)
      (fun c1 =>
      bind (get_from (s_metadata_comparison r)
                     (fun m => Metadata.count2 (Metadata.row_count_comparison m))
                     0%Z)
      (fun c2 =>
         Done (SummarySuccess (s_dataset_name r) (s_dataset_description r)
                              m f d (m && f && d) c1 c2))))))
  end.

Fixpoint summarise_all (results : list Result) : Outcome (list DatasetSummary) :=
  match results with
  | [] => Done []
  | r :: rest =>
      bind (summarise r)
           (fun s => bind (summarise_all rest) (fun l => Done (s :: l)))
  end.

(** The consolidated summary, without its times and rates. *)
Record ConsolidatedReport := mkReport {
  total_datasets : nat;
  successful_comparisons : nat;
  failed_comparisons : nat;
  overall_match : bool;
  total_rows_processed : Z;
  dataset_summaries : list DatasetSummary
}.

Definition create_consolidated_report
           (all_results : list Result)
           (successful_results : list SuccessResult)
           (failed_results : list FailedResult)
  : Outcome ConsolidatedReport :=
  let total_datasets := List.length all_results in
  let successful_count := List.length successful_results in
  let failed_count := List.length failed_results in
  bind (all_match successful_results)
  (fun overall_match =>
  bind (sum_row_counts successful_results)
  (fun total_rows_processed =>
  bind (summarise_all all_results)
  (fun dataset_summaries =>
     Done (mkReport total_datasets successful_count failed_count
                    overall_match total_rows_processed dataset_summaries)))).

(** The three lists that the loop of [run_comparison] builds from the
    outcomes of the dataset pairs, and the report made of them. *)
Fixpoint successes (outcomes : list Result) : list SuccessResult :=
  match outcomes with
  | [] => []
  | Success r :: rest => r :: successes rest
  | Failed _ :: rest => successes rest
  end.

Fixpoint failures (outcomes : list Result) : list FailedResult :=
  match outcomes with
  | [] => []
  | Success _ :: rest => failures rest
  | Failed r :: rest => r :: failures rest
  end.

Definition consolidate (outcomes : list Result) : Outcome ConsolidatedReport :=
  create_consolidated_report outcomes (successes outcomes) (failures outcomes).

(** No section of the result holds [None]. *)
Definition no_none (r : SuccessResult) : Prop :=
  s_metadata_comparison r <> IsNone /\
  s_fingerprint_comparison r <> IsNone /\
  s_full_comparison r <> IsNone.

End Report.

(** ** The sample comparison ([fingerprinting_sampler.create_sample_comparison]) *)

Record SampleMetadata := mkSampleMetadata {
  sm_row_count : nat;
  sm_columns : list string
}.

Record SampleComparison := mkSampleComparison {
  sample1_metadata : SampleMetadata;
  sample2_metadata : SampleMetadata;
  sample_fingerprint_comparison : FingerprintComparison;
  used_sampling_strategy : string;
  used_sample_size : Z
}.

Definition create_sample_comparison (H : HashFunctions) (draw : nat -> Q)
           (df1 df2 : DataFrame) (sample_size : Z) (sampling_strategy : string)
  : PyResult SampleComparison :=
  match adaptive_sampling draw df1 sample_size sampling_strategy with
  | Raise e => Raise e
  | Ok sample1 =>
  match adaptive_sampling draw df2 sample_size sampling_strategy with
  | Raise e => Raise e
  | Ok sample2 =>
  let sample1_metadata := mkSampleMetadata (count sample1) (columns sample1) in
  let sample2_metadata := mkSampleMetadata (count sample2) (columns sample2) in
  match create_data_fingerprint H sample1 None "md5" with
  | Raise e => Raise e
  | Ok sample1_fp =>
  match create_data_fingerprint H sample2 None "md5" with
  | Raise e => Raise e
  | Ok sample2_fp =>
  match compare_fingerprints sample1_fp sample2_fp with
  | Raise e => Raise e
  | Ok fingerprint_comparison =>
      Ok (mkSampleComparison sample1_metadata sample2_metadata
                             fingerprint_comparison
                             sampling_strategy sample_size)
  end end end end end.

(** Outcomes of dataset pairs: a failed pair, and a successful pair that
    ran none of the phases that leave an entry. *)
Definition failed_pair : Report.Result :=
  Report.Failed (Report.mkFailed "orders" "" "connection refused").

Definition bare_pair : Report.Result :=
  Report.Success
    (Report.mkSuccess "users" "" Report.Absent Report.Absent Report.Absent).

(** A successful pair whose fingerprint phase was disabled. *)
Definition pair_without_fingerprints : Report.SuccessResult :=
  Report.mkSuccess "events" "" Report.Absent Report.IsNone Report.Absent.

(** A column of strings and a column of doubles, each with a
    not-a-number, a null and a number; the not-a-number of the string
    column is the text [NaN]. *)
Definition texts_and_doubles : DataFrame :=
  mkDF [mkField "s" StringType; mkField "x" DoubleType;
        mkField "__row_id" LongType]
       [[CVal "NaN"; CNaN; CLong 0]; [CNull; CNull; CLong 1];
        [CVal "1.5"; CVal "1.5"; CLong 2]].


(** A frame with a boolean column. *)
Definition with_flag : DataFrame :=
  mkDF [mkField "v" StringType; mkField "flag" BooleanType;
        mkField "__row_id" LongType]
       [[CVal "a"; CVal "true"; CLong 0]; [CVal "b"; CVal "false"; CLong 1]].


(** * Verification *)

(** ** Counting the rows of joins *)

Section JoinCounts.
Context {A B : Type}.

Lemma length_flat_map_sum {X Y : Type} (f : X -> list Y) (l : list X) :
  List.length (flat_map f l) = list_sum (map (fun x => List.length (f x)) l).
Proof.
  induction l as [|x l IH]; simpl; [reflexivity|].
  now rewrite length_app, IH.
Qed.

Lemma length_filter_key (k : string) (r : list (string * B)) :
  List.length (filter (fun b => String.eqb k (fst b)) r)
  = count_occ string_dec (map fst r) k.
Proof.
  induction r as [|[k' b] r IH]; simpl; [reflexivity|].
  destruct (String.eqb_spec k k') as [->|Hne].
  - destruct (string_dec k' k') as [_|C]; [simpl; now rewrite IH | congruence].
  - destruct (string_dec k' k) as [E|_]; [congruence | exact IH].
Qed.

Lemma existsb_key (k : string) (r : list (string * B)) :
  existsb (fun b => String.eqb k (fst b)) r
  = negb (count_occ string_dec (map fst r) k =? 0).
Proof.
  induction r as [|[k' b] r IH]; simpl; [reflexivity|].
  destruct (String.eqb_spec k k') as [->|Hne].
  - destruct (string_dec k' k') as [_|C]; [reflexivity | congruence].
  - destruct (string_dec k' k) as [E|_]; [congruence | exact IH].
Qed.

(** An inner join has one row per pair of rows with equal keys. *)
Lemma length_inner_join (l : list (string * A)) (r : list (string * B)) :
  List.length (inner_join String.eqb l r)
  = list_sum (map (count_occ string_dec (map fst r)) (map fst l)).
Proof.
  unfold inner_join. rewrite length_flat_map_sum, map_map.
  f_equal. apply map_ext. intros a.
  now rewrite length_map, length_filter_key.
Qed.

(** A left anti join keeps the rows whose key the other side lacks. *)
Lemma length_left_anti_join (l : list (string * A)) (r : list (string * B)) :
  List.length (left_anti_join String.eqb l r)
  = List.length (filter (fun k => count_occ string_dec (map fst r) k =? 0)
                        (map fst l)).
Proof.
  unfold left_anti_join.
  induction l as [|a l IH]; simpl; [reflexivity|].
  rewrite existsb_key, negb_involutive.
  destruct (count_occ string_dec (map fst r) (fst a) =? 0); simpl; now rewrite IH.
Qed.
End JoinCounts.

(** Pairs of equal keys can be counted from either side. *)
Lemma pair_count_sym (ks1 ks2 : list string) :
  list_sum (map (count_occ string_dec ks2) ks1)
  = list_sum (map (count_occ string_dec ks1) ks2).
Proof.
  revert ks2. induction ks1 as [|k ks1 IH]; intros ks2; simpl.
  - induction ks2 as [|k2 ks2 IH2]; simpl; [reflexivity | exact IH2].
  - rewrite IH. clear IH.
    induction ks2 as [|k2 ks2 IH2]; simpl; [reflexivity|].
    destruct (string_dec k k2) as [->|Hne].
    + destruct (string_dec k2 k2) as [_|C]; [|congruence]. simpl. lia.
    + destruct (string_dec k2 k) as [E|_]; [congruence|]. lia.
Qed.

(** When no key repeats on the other side, every row is either matched
    once or unmatched. *)
Lemma matched_or_alone (ks1 ks2 : list string) :
  NoDup ks2 ->
  list_sum (map (count_occ string_dec ks2) ks1)
  + List.length (filter (fun k => count_occ string_dec ks2 k =? 0) ks1)
  = List.length ks1.
Proof.
  intros Hnd. induction ks1 as [|k ks1 IH]; simpl; [reflexivity|].
  pose proof (proj1 (NoDup_count_occ string_dec ks2) Hnd k) as Hle.
  destruct (count_occ string_dec ks2 k) as [|[|n]] eqn:E; simpl; lia.
Qed.

(** ** The chunk comparator *)

Lemma chunk_keys_length (cols : list string) (df : DataFrame) :
  List.length (chunk_keys cols df) = count df.
Proof. unfold chunk_keys, with_key, count. now rewrite !length_map. Qed.

(** The comparator succeeds exactly on chunks that share a column and
    both carry [__row_id]. *)
Lemma compare_data_chunks_ok (chunk1 chunk2 : DataFrame) (config : Config) :
  common_columns_of chunk1 chunk2 <> [] ->
  str_in "__row_id" (columns chunk1) = true ->
  str_in "__row_id" (columns chunk2) = true ->
  let cols := common_columns_of chunk1 chunk2 in
  let keys1 := with_key cols chunk1 in
  let keys2 := with_key cols chunk2 in
  compare_data_chunks chunk1 chunk2 config
  = ChunkOk (get_default (cfg_chunk_id config) 0)
            (List.length (inner_join String.eqb keys1 keys2))
            (List.length (left_anti_join String.eqb keys1 keys2))
            (List.length (left_anti_join String.eqb keys2 keys1))
            (count chunk1 + count chunk2)
            cols
            (percentage (List.length (inner_join String.eqb keys1 keys2))
                        (Nat.max (count chunk1) (count chunk2))).
Proof.
  intros Hc H1 H2. unfold compare_data_chunks.
  destruct (common_columns_of chunk1 chunk2) as [|c cs] eqn:E; [congruence|].
  rewrite H1, H2. simpl. destruct (cfg_chunk_id config); reflexivity.
Qed.

(** What the three joins count, in terms of the content keys. *)
Lemma chunk_counts (chunk1 chunk2 : DataFrame) (config : Config) :
  common_columns_of chunk1 chunk2 <> [] ->
  str_in "__row_id" (columns chunk1) = true ->
  str_in "__row_id" (columns chunk2) = true ->
  let cols := common_columns_of chunk1 chunk2 in
  let keys1 := chunk_keys cols chunk1 in
  let keys2 := chunk_keys cols chunk2 in
  let r := compare_data_chunks chunk1 chunk2 config in
  has_error r = false /\
  get_matches r = list_sum (map (count_occ string_dec keys2) keys1) /\
  get_only_in_dataset1 r
  = List.length (filter (fun k => count_occ string_dec keys2 k =? 0) keys1) /\
  get_only_in_dataset2 r
  = List.length (filter (fun k => count_occ string_dec keys1 k =? 0) keys2) /\
  get_total_rows r = count chunk1 + count chunk2.
Proof.
  intros Hc H1 H2 cols keys1 keys2 r.
  subst r. rewrite (compare_data_chunks_ok _ _ config Hc H1 H2).
  fold cols. simpl.
  rewrite length_inner_join, !length_left_anti_join.
  fold (chunk_keys cols chunk1) (chunk_keys cols chunk2). fold keys1 keys2.
  repeat split; trivial.
Qed.




(** ** The aggregator *)

(** The loop of the aggregator adds up the fields of the successful
    results and counts the failed ones. *)
Lemma aggregate_fold (results : list ChunkResult) (acc : Totals) :
  let out := fold_left aggregate_step results acc in
  t_matches out = t_matches acc + list_sum (map get_matches results) /\
  t_only_in_1 out = t_only_in_1 acc + list_sum (map get_only_in_dataset1 results) /\
  t_only_in_2 out = t_only_in_2 acc + list_sum (map get_only_in_dataset2 results) /\
  t_rows out = t_rows acc + list_sum (map get_total_rows results) /\
  t_failed out = t_failed acc + List.length (filter has_error results).
Proof.
  revert acc. induction results as [|r results IH]; intros acc; simpl.
  - repeat split; lia.
  - destruct (IH (aggregate_step acc r)) as (Hm & H1 & H2 & Hr & Hf).
    rewrite Hm, H1, H2, Hr, Hf.
    destruct r; simpl; repeat split; lia.
Qed.

(** One chunk pair: the three counts stay within the rows of the pair when
    one of its chunks has no repeated key. *)
Lemma chunk_result_bound (c : Call) :
  one_side_without_repeats c ->
  get_matches (run_call c) + get_only_in_dataset1 (run_call c)
  + get_only_in_dataset2 (run_call c)
  <= get_total_rows (run_call c).
Proof.
  destruct c as [[chunk1 chunk2] config].
  unfold one_side_without_repeats, run_call. simpl. intros Hnd.
  destruct (common_columns_of chunk1 chunk2) as [|c0 cs] eqn:Ec.
  { unfold compare_data_chunks. rewrite Ec. simpl. lia. }
  destruct (str_in "__row_id" (columns chunk1)) eqn:E1;
    [|unfold compare_data_chunks; rewrite Ec, E1; simpl; lia].
  destruct (str_in "__row_id" (columns chunk2)) eqn:E2;
    [|unfold compare_data_chunks; rewrite Ec, E1, E2; simpl; lia].
  assert (Hc : common_columns_of chunk1 chunk2 <> []) by (rewrite Ec; discriminate).
  destruct (chunk_counts chunk1 chunk2 config Hc E1 E2)
    as (_ & Hm & Ho1 & Ho2 & Ht).
  rewrite Ec in *. rewrite Hm, Ht.
  pose proof (chunk_keys_length (c0 :: cs) chunk1) as L1.
  pose proof (chunk_keys_length (c0 :: cs) chunk2) as L2.
  destruct Hnd as [Hnd|Hnd].
  - rewrite pair_count_sym.
    pose proof (matched_or_alone _ _ Hnd : _ = List.length (chunk_keys (c0 :: cs) chunk2)) as Hb.
    rewrite <- Ho2 in Hb.
    assert (get_only_in_dataset1 (compare_data_chunks chunk1 chunk2 config)
            <= count chunk1)
      by (rewrite Ho1, <- L1; apply filter_length_le).
    lia.
  - pose proof (matched_or_alone _ _ Hnd : _ = List.length (chunk_keys (c0 :: cs) chunk1)) as Hb.
    rewrite <- Ho1 in Hb.
    assert (get_only_in_dataset2 (compare_data_chunks chunk1 chunk2 config)
            <= count chunk2)
      by (rewrite Ho2, <- L2; apply filter_length_le).
    lia.
Qed.

Lemma sum_bound (results : list ChunkResult) :
  Forall (fun r => get_matches r + get_only_in_dataset1 r + get_only_in_dataset2 r
                   <= get_total_rows r) results ->
  list_sum (map get_matches results)
  + list_sum (map get_only_in_dataset1 results)
  + list_sum (map get_only_in_dataset2 results)
  <= list_sum (map get_total_rows results).
Proof. induction 1; simpl; lia. Qed.

(** C2, as the code has it: over the results of chunk pairs in which one
    side has no repeated content key, the three totals stay within the
    total of rows; and for every list of chunk results, with or without
    repeated keys and failed chunks, [datasets_match] holds exactly when
    both one-sided totals and the number of failed chunks are zero. *)
Theorem aggregate_bound_and_match_flag
        (calls : list Call) (results : list ChunkResult) :
  (Forall one_side_without_repeats calls ->
   let a := aggregate_chunk_results (map run_call calls) in
   total_matches a + total_only_in_dataset1 a + total_only_in_dataset2 a
   <= total_rows_processed a) /\
  (let a := aggregate_chunk_results results in
   datasets_match a = true <->
   total_only_in_dataset1 a = 0 /\ total_only_in_dataset2 a = 0
   /\ failed_chunks a = 0).
Proof.
  split.
  - intros Hcalls a. subst a. unfold aggregate_chunk_results. simpl.
    destruct (aggregate_fold (map run_call calls) (mkTotals 0 0 0 0 0 0 []))
      as (Hm & H1 & H2 & Hr & _).
    simpl in Hm, H1, H2, Hr.
    rewrite Hm, H1, H2, Hr. apply sum_bound.
    rewrite Forall_map. revert Hcalls. apply Forall_impl.
    intros c. apply chunk_result_bound.
  - intros a. subst a. unfold aggregate_chunk_results. simpl.
    rewrite andb_true_iff, !Nat.eqb_eq. lia.
Qed.

Lemma aggregate_bound_and_match_flag_witness :
  (let a := aggregate_chunk_results
              (map run_call [(Examples.abc, Examples.bcd, Examples.no_config)]) in
   total_matches a + total_only_in_dataset1 a + total_only_in_dataset2 a
   <= total_rows_processed a) /\
  datasets_match
    (aggregate_chunk_results
       [compare_data_chunks Examples.triplets Examples.triplets
                            Examples.no_config]) = true.
Proof.
  destruct (aggregate_bound_and_match_flag
              [(Examples.abc, Examples.bcd, Examples.no_config)]
              [compare_data_chunks Examples.triplets Examples.triplets
                                   Examples.no_config])
    as (Hbound & Hflag).
  split.
  - apply Hbound. constructor; [|constructor].
    left. vm_compute. repeat constructor; simpl; intuition discriminate.
  - apply Hflag. vm_compute. repeat split.
Defined.

(** C2 as stated fails: a pair of chunks of three identical rows yields
    nine matches out of six rows. *)
Lemma triplet_rows_exceed_total :
  let a := aggregate_chunk_results
             [compare_data_chunks Examples.triplets Examples.triplets
                                  Examples.no_config] in
  total_matches a = 9 /\ total_rows_processed a = 6 /\
  ~ (total_matches a + total_only_in_dataset1 a + total_only_in_dataset2 a
     <= total_rows_processed a).
Proof. vm_compute. repeat split; lia. Qed.

(** ** The chunker *)

Lemma Permutation_filter {A : Type} (f : A -> bool) (l l' : list A) :
  Permutation l l' -> Permutation (filter f l) (filter f l').
Proof.
  induction 1 as [|x l l' _ IH|x y l|l l' l'' _ IH1 _ IH2]; simpl.
  - constructor.
  - destruct (f x); [constructor|]; exact IH.
  - destruct (f x), (f y); try reflexivity. constructor.
  - now transitivity (filter f l').
Qed.

Lemma range_eq_Zrange (n : Z) : range n = Zrange 0 n.
Proof. unfold range, Zrange. now rewrite Z.sub_0_r. Qed.

Lemma Zrange_empty (lo hi : Z) : (hi <= lo)%Z -> Zrange lo hi = [].
Proof.
  intros H. unfold Zrange.
  replace (Z.to_nat (hi - lo)) with 0 by lia. reflexivity.
Qed.

Lemma Zrange_snoc (lo hi : Z) :
  (lo <= hi)%Z -> Zrange lo (hi + 1) = (Zrange lo hi ++ [hi])%list.
Proof.
  intros H. unfold Zrange.
  replace (Z.to_nat (hi + 1 - lo)) with (S (Z.to_nat (hi - lo))) by lia.
  rewrite seq_S, map_app. simpl. do 2 f_equal. lia.
Qed.

Lemma Zrange_length (lo hi : Z) :
  List.length (Zrange lo hi) = Z.to_nat (hi - lo).
Proof. unfold Zrange. now rewrite length_map, length_seq. Qed.

Lemma In_Zrange (lo hi z : Z) : In z (Zrange lo hi) <-> (lo <= z < hi)%Z.
Proof.
  unfold Zrange. rewrite in_map_iff. split.
  - intros (k & <- & Hk). apply in_seq in Hk. lia.
  - intros H. exists (Z.to_nat (z - lo)). split; [lia|]. apply in_seq. lia.
Qed.

(** For a non-negative identifier the truncated quotient is [i] exactly
    on the window [[i * c, (i + 1) * c)]. *)
Lemma quot_window (c z i : Z) :
  (0 < c)%Z -> (0 <= z)%Z ->
  Z.eqb (Z.quot z c) i = true <-> (i * c <= z < (i + 1) * c)%Z.
Proof.
  intros Hc Hz. rewrite Z.eqb_eq, Z.quot_div_nonneg by lia.
  split.
  - intros <-. pose proof (Z.mul_div_le z c Hc).
    pose proof (Z.mul_succ_div_gt z c Hc). lia.
  - intros H. symmetry. apply (Z.div_unique z c i (z - i * c)); lia.
Qed.

(** The identifiers below [n] that fall into chunk [i]. *)
Lemma filter_window (c i : Z) (n : nat) :
  (0 < c)%Z -> (0 <= i)%Z ->
  filter (fun z => Z.eqb (Z.quot z c) i) (range (Z.of_nat n))
  = Zrange (i * c) (Z.min ((i + 1) * c) (Z.of_nat n)).
Proof.
  intros Hc Hi. induction n as [|n IH].
  - simpl. symmetry. apply Zrange_empty. nia.
  - rewrite range_eq_Zrange in *.
    replace (Z.of_nat (S n)) with (Z.of_nat n + 1)%Z by lia.
    rewrite Zrange_snoc, filter_app, IH by lia. simpl.
    destruct (Z.eqb (Z.quot (Z.of_nat n) c) i) eqn:E.
    + apply quot_window in E; [|lia|lia].
      replace (Z.min ((i + 1) * c) (Z.of_nat n + 1)) with (Z.of_nat n + 1)%Z by lia.
      replace (Z.min ((i + 1) * c) (Z.of_nat n)) with (Z.of_nat n) by lia.
      rewrite Zrange_snoc by lia. reflexivity.
    + rewrite app_nil_r.
      assert (Hn : ~ (i * c <= Z.of_nat n < (i + 1) * c)%Z).
      { intros C. apply (quot_window c (Z.of_nat n) i Hc) in C; [congruence|lia]. }
      destruct (Z_lt_le_dec (Z.of_nat n) (i * c)).
      * rewrite !Zrange_empty by lia. reflexivity.
      * f_equal. lia.
Qed.

(** The number of chunks is the ceiling of [n / c]. *)
Lemma num_chunks_ceiling (n c : Z) :
  (0 < c)%Z -> (0 <= n)%Z ->
  let k := ((n + c - 1) / c)%Z in
  (0 <= k /\ (k - 1) * c < n <= k * c)%Z.
Proof.
  intros Hc Hn k.
  pose proof (Z.mul_div_le (n + c - 1) c Hc).
  pose proof (Z.mul_succ_div_gt (n + c - 1) c Hc).
  fold k in H, H0.
  assert (0 <= k)%Z by (apply Z.div_pos; lia).
  nia.
Qed.

Lemma filter_below_succ {A : Type} (k : A -> Z) (m : Z) (l : list A) :
  (0 <= m)%Z ->
  Permutation
    (filter (fun x => Z.leb 0 (k x) && Z.ltb (k x) m) l
     ++ filter (fun x => Z.eqb (k x) m) l)
    (filter (fun x => Z.leb 0 (k x) && Z.ltb (k x) (m + 1)) l).
Proof.
  intros Hm. induction l as [|x l IHl]; simpl; [constructor|].
  destruct (Z.leb_spec 0 (k x)), (Z.ltb_spec (k x) m),
           (Z.ltb_spec (k x) (m + 1)), (Z.eqb_spec (k x) m); try lia; simpl.
  - apply perm_skip, IHl.
  - symmetry. apply Permutation_cons_app. symmetry. exact IHl.
  - exact IHl.
  - exact IHl.
Qed.

(** Splitting a list by an integer key in [[0, n)] loses and repeats
    nothing. *)
Lemma split_by_key {A : Type} (k : A -> Z) (l : list A) (n : nat) :
  Permutation
    (flat_map (fun i => filter (fun x => Z.eqb (k x) i) l) (range (Z.of_nat n)))
    (filter (fun x => Z.leb 0 (k x) && Z.ltb (k x) (Z.of_nat n)) l).
Proof.
  induction n as [|n IH].
  - simpl. replace (filter _ l) with (@nil A); [constructor|].
    symmetry. induction l as [|x l IHl]; simpl; [reflexivity|].
    destruct (Z.leb_spec 0 (k x)), (Z.ltb_spec (k x) 0); simpl; try lia; exact IHl.
  - unfold range in *. rewrite Nat2Z.id in *.
    rewrite seq_S, map_app, flat_map_app. simpl flat_map at 2.
    rewrite app_nil_r, IH.
    replace (Z.of_nat (S n)) with (Z.of_nat n + 1)%Z by lia.
    simpl plus. apply filter_below_succ. lia.
Qed.

Lemma filter_true {A : Type} (f : A -> bool) (l : list A) :
  (forall x, In x l -> f x = true) -> filter f l = l.
Proof.
  induction l as [|x l IH]; simpl; intros H; [reflexivity|].
  rewrite (H x) by now left. f_equal. apply IH. intros; apply H; now right.
Qed.

(** With a row identifier column the chunker returns one frame for each
    number below the ceiling. *)
Lemma chunk_dataframe_ok (df : DataFrame) (chunk_size : Z) :
  (0 < chunk_size)%Z ->
  str_in "__row_id" (columns df) = true ->
  chunk_dataframe df chunk_size
  = Ok (map (chunk_number df chunk_size)
            (range ((Z.of_nat (count df) + chunk_size - 1) / chunk_size))).
Proof.
  intros Hc Hid. unfold chunk_dataframe.
  destruct (Z.eqb_spec chunk_size 0) as [E|_]; [lia|].
  now rewrite Hid.
Qed.

Lemma range_length (n : Z) : List.length (range n) = Z.to_nat n.
Proof. unfold range. now rewrite length_map, length_seq. Qed.

Lemma nth_range (i : nat) (n d : Z) :
  i < Z.to_nat n -> nth i (range n) d = Z.of_nat i.
Proof.
  intros H. unfold range.
  rewrite (nth_indep _ d (Z.of_nat 0)) by now rewrite length_map, length_seq.
  rewrite map_nth, seq_nth by exact H. reflexivity.
Qed.

(** The identifiers held by chunk [i]. *)
Lemma row_ids_chunk_number (df : DataFrame) (chunk_size i : Z) :
  row_ids (chunk_number df chunk_size i)
  = filter (fun o => match o with
                     | Some z => Z.eqb (Z.quot z chunk_size) i
                     | None => false
                     end)
           (row_ids df).
Proof.
  unfold row_ids, chunk_number, columns, chunk_id_of. simpl.
  induction (rows df) as [|r l IH]; simpl; [reflexivity|].
  destruct (row_id_of (map name (schema df)) r) as [z|] eqn:E; simpl.
  - destruct (Z.eqb (Z.quot z chunk_size) i); simpl; rewrite ?E; now rewrite IH.
  - exact IH.
Qed.

Lemma filter_map_Some (p : Z -> bool) (l : list Z) :
  filter (fun o : option Z => match o with Some z => p z | None => false end)
         (map Some l)
  = map Some (filter p l).
Proof.
  induction l as [|z l IH]; simpl; [reflexivity|].
  destruct (p z); simpl; now rewrite IH.
Qed.

Lemma chunk_ids_window (df : DataFrame) (chunk_size : Z) (i : nat) :
  (0 < chunk_size)%Z ->
  rows_identified_from_zero df ->
  Permutation
    (row_ids (chunk_number df chunk_size (Z.of_nat i)))
    (map Some (Zrange (Z.of_nat i * chunk_size)
                      (Z.min ((Z.of_nat i + 1) * chunk_size)
                             (Z.of_nat (count df))))).
Proof.
  intros Hc Hids. rewrite row_ids_chunk_number.
  rewrite (Permutation_filter _ _ _ Hids), filter_map_Some.
  rewrite filter_window by lia. reflexivity.
Qed.

Lemma count_row_ids (df : DataFrame) : List.length (row_ids df) = count df.
Proof. unfold row_ids, count. apply length_map. Qed.

Lemma identified_rows_in_range (df : DataFrame) (r : Row) :
  rows_identified_from_zero df -> In r (rows df) ->
  exists z, row_id_of (columns df) r = Some z
            /\ (0 <= z < Z.of_nat (count df))%Z.
Proof.
  intros Hids Hr.
  assert (Hin : In (row_id_of (columns df) r) (row_ids df))
    by (unfold row_ids; now apply in_map).
  apply (Permutation_in _ Hids) in Hin.
  apply in_map_iff in Hin. destruct Hin as (z & Hz & Hin).
  exists z. split; [now symmetry|].
  rewrite range_eq_Zrange in Hin. now apply In_Zrange in Hin.
Qed.

(** The chunks, taken together, are the rows of the frame. *)
Lemma chunks_cover (df : DataFrame) (chunk_size : Z) (n : nat) :
  (0 < chunk_size)%Z ->
  rows_identified_from_zero df ->
  (Z.of_nat (count df) <= Z.of_nat n * chunk_size)%Z ->
  Permutation
    (flat_map rows (map (chunk_number df chunk_size) (range (Z.of_nat n))))
    (rows df).
Proof.
  intros Hc Hids Hn.
  set (k := fun r => match chunk_id_of (columns df) chunk_size r with
                     | Some k => k
                     | None => (-1)%Z
                     end).
  rewrite flat_map_concat_map, map_map, <- flat_map_concat_map.
  rewrite (flat_map_ext _ (fun i => filter (fun x => Z.eqb (k x) i) (rows df))).
  - rewrite split_by_key, filter_true; [reflexivity|].
    intros r Hr. destruct (identified_rows_in_range df r Hids Hr) as (z & Hz & Hb).
    unfold k, chunk_id_of. rewrite Hz. simpl.
    rewrite Z.quot_div_nonneg by lia.
    assert (0 <= z / chunk_size)%Z by (apply Z.div_pos; lia).
    assert (z / chunk_size < Z.of_nat n)%Z
      by (apply Z.div_lt_upper_bound; nia).
    apply andb_true_iff. split; [apply Z.leb_le | apply Z.ltb_lt]; lia.
  - intros i. unfold chunk_number. simpl.
    apply filter_ext_in. intros r Hr.
    destruct (identified_rows_in_range df r Hids Hr) as (z & Hz & Hb).
    unfold k, chunk_id_of. now rewrite Hz.
Qed.

(** For a positive chunk size the chunker returns ceil(rowCount /
    chunkSize) chunks; on a source whose row identifiers are the integers
    of [0, rowCount) the chunks hold every row once, chunk i holds the
    identifiers of [i * chunkSize, min((i + 1) * chunkSize, rowCount)),
    every chunk but the last has chunkSize rows and the last has between
    one and chunkSize. *)
Theorem chunk_dataframe_partitions (df : DataFrame) (chunk_size : Z) :
  (0 < chunk_size)%Z ->
  str_in "__row_id" (columns df) = true ->
  exists chunks,
    chunk_dataframe df chunk_size = Ok chunks /\
    let n := List.length chunks in
    let total := Z.of_nat (count df) in
    ((Z.of_nat n - 1) * chunk_size < total <= Z.of_nat n * chunk_size)%Z /\
    (rows_identified_from_zero df ->
     Permutation (flat_map rows chunks) (rows df) /\
     forall i, i < n ->
       let chunk := nth i chunks (mkDF [] []) in
       Permutation
         (row_ids chunk)
         (map Some (Zrange (Z.of_nat i * chunk_size)
                           (Z.min ((Z.of_nat i + 1) * chunk_size) total))) /\
       (S i < n -> Z.of_nat (count chunk) = chunk_size) /\
       (0 < Z.of_nat (count chunk) <= chunk_size)%Z).
Proof.
  intros Hc Hid. eexists. split; [apply chunk_dataframe_ok; assumption|].
  set (total := Z.of_nat (count df)).
  destruct (num_chunks_ceiling total chunk_size Hc ltac:(lia)) as (Hk0 & Hk).
  set (k := ((total + chunk_size - 1) / chunk_size)%Z) in *.
  rewrite length_map, range_length. cbv zeta.
  rewrite Z2Nat.id by exact Hk0.
  split; [exact Hk|]. intros Hids. split.
  - rewrite <- (Z2Nat.id k Hk0). apply chunks_cover; trivial.
    rewrite Z2Nat.id by exact Hk0. apply Hk.
  - intros i Hi.
    rewrite (nth_indep _ _ (chunk_number df chunk_size 0))
      by now rewrite length_map, range_length.
    rewrite map_nth, (nth_range i k 0 Hi).
    pose proof (chunk_ids_window df chunk_size i Hc Hids) as Hw.
    fold total in Hw.
    split; [exact Hw|].
    apply Permutation_length in Hw.
    rewrite count_row_ids, length_map, Zrange_length in Hw.
    split; [intros Hlast|]; nia.
Qed.

Lemma chunk_dataframe_partitions_witness :
  rows_identified_from_zero Examples.five /\
  exists chunks,
    chunk_dataframe Examples.five 2 = Ok chunks /\
    ((Z.of_nat (List.length chunks) - 1) * 2 < 5 <= Z.of_nat (List.length chunks) * 2)%Z.
Proof.
  split; [vm_compute; apply Permutation_refl|].
  destruct (chunk_dataframe_partitions Examples.five 2 ltac:(lia) eq_refl)
    as (chunks & Hok & Hceil & _).
  exists chunks. split; [exact Hok | exact Hceil].
Defined.

(** C3 fails on a source read over two partitions.  The identifiers that
    [monotonically_increasing_id] gives are 0 in the first partition and
    2^33, 2^33 + 1 in the second; with a chunk size of 1 the chunker
    counts three chunks, as the claim says, but only the row of
    identifier 0 reaches a chunk: the chunks hold 1, 0 and 0 rows, do not
    cover the source, and two chunks other than the last are short. *)
Theorem chunk_dataframe_loses_rows_of_later_partitions :
  rows three_rows_two_partitions
  = [[CVal "a"; CLong 0]; [CVal "b"; CLong (2 ^ 33)];
     [CVal "c"; CLong (2 ^ 33 + 1)]] /\
  exists chunks,
    chunk_dataframe three_rows_two_partitions 1 = Ok chunks /\
    map count chunks = [1; 0; 0] /\
    flat_map rows chunks = [[CVal "a"; CLong 0]] /\
    ~ Permutation (flat_map rows chunks) (rows three_rows_two_partitions).
Proof.
  split; [reflexivity|].
  eexists. split; [reflexivity|].
  split; [reflexivity|]. split; [reflexivity|].
  intros C. apply Permutation_length in C. vm_compute in C. discriminate.
Qed.

(** C8, as the code has it: a chunk size of zero makes the chunker fail at
    once, on the division that computes the number of chunks; a negative
    chunk size raises nothing: on a source with a row identifier column
    the chunker returns a chunk sequence, which is empty as soon as the
    source has two rows. *)
Theorem chunk_dataframe_non_positive (df : DataFrame) (chunk_size : Z) :
  (chunk_size <= 0)%Z ->
  (chunk_size = 0%Z -> chunk_dataframe df chunk_size = Raise ZeroDivisionError) /\
  ((chunk_size < 0)%Z ->
   str_in "__row_id" (columns df) = true ->
   exists chunks,
     chunk_dataframe df chunk_size = Ok chunks /\
     (2 <= count df -> chunks = [])).
Proof.
  intros _. split.
  - intros ->. reflexivity.
  - intros Hneg Hid. unfold chunk_dataframe.
    destruct (Z.eqb_spec chunk_size 0) as [E|_]; [lia|].
    rewrite Hid. eexists. split; [reflexivity|].
    intros Hrows. unfold range.
    replace (Z.to_nat _) with 0%nat; [reflexivity|].
    assert ((Z.of_nat (count df) + chunk_size - 1) / chunk_size <= 0)%Z; [|lia].
    destruct (Z_le_gt_dec ((Z.of_nat (count df) + chunk_size - 1) / chunk_size) 0)
      as [Hle|Hgt]; [exact Hle|].
    pose proof (Z.div_mod (Z.of_nat (count df) + chunk_size - 1) chunk_size ltac:(lia)).
    pose proof (Z.mod_neg_bound (Z.of_nat (count df) + chunk_size - 1) chunk_size Hneg).
    nia.
Qed.

Lemma chunk_dataframe_non_positive_witness :
  chunk_dataframe Examples.five 0 = Raise ZeroDivisionError.
Proof.
  apply (chunk_dataframe_non_positive Examples.five 0); lia.
Defined.

(** C8 as stated fails: with chunk size -1 the chunker returns an empty
    chunk sequence and no error. *)
Lemma negative_chunk_size_returns_silently :
  (-1 <= 0)%Z /\ chunk_dataframe Examples.five (-1) = Ok [].
Proof. split; [lia | reflexivity]. Qed.

(** ** The coordinator *)

Section SortByChunkId.
Lemma insert_by_chunk_id_perm (r : ChunkResult) (l : list ChunkResult) :
  Permutation (insert_by_chunk_id r l) (r :: l).
Proof.
  induction l as [|x l IH]; simpl; [reflexivity|].
  destruct (result_chunk_id r <=? result_chunk_id x); [reflexivity|].
  rewrite IH. apply perm_swap.
Qed.

Lemma sort_by_chunk_id_perm (l : list ChunkResult) :
  Permutation (sort_by_chunk_id l) l.
Proof.
  induction l as [|x l IH]; simpl; [constructor|].
  rewrite insert_by_chunk_id_perm. now constructor.
Qed.

Lemma insert_by_chunk_id_sorted (r : ChunkResult) (l : list ChunkResult) :
  Sorted chunk_id_le l -> Sorted chunk_id_le (insert_by_chunk_id r l).
Proof.
  induction 1 as [|x l Hs IH Hhd]; simpl.
  - repeat constructor.
  - destruct (Nat.leb_spec (result_chunk_id r) (result_chunk_id x)) as [Hle|Hgt].
    + repeat constructor; assumption.
    + constructor; [exact IH|].
      destruct l as [|y l]; simpl.
      * constructor. unfold chunk_id_le. lia.
      * destruct (result_chunk_id r <=? result_chunk_id y).
        -- constructor. unfold chunk_id_le. lia.
        -- constructor. now inversion Hhd.
Qed.

Lemma sort_by_chunk_id_sorted (l : list ChunkResult) :
  Sorted chunk_id_le (sort_by_chunk_id l).
Proof.
  induction l as [|x l IH]; simpl; [constructor|].
  now apply insert_by_chunk_id_sorted.
Qed.

Lemma sorted_ids (l : list ChunkResult) :
  Sorted chunk_id_le l -> StronglySorted le (map result_chunk_id l).
Proof.
  intros Hs. apply Sorted_StronglySorted; [intros a b c; apply Nat.le_trans|].
  induction Hs as [|x l Hs IH Hhd]; simpl; constructor; [exact IH|].
  destruct Hhd; simpl; constructor; assumption.
Qed.
End SortByChunkId.

(** Two ascending lists of numbers with the same members are equal. *)
Lemma sorted_perm_eq (l1 l2 : list nat) :
  StronglySorted le l1 -> StronglySorted le l2 -> Permutation l1 l2 -> l1 = l2.
Proof.
  intros H1. revert l2. induction H1 as [|a l1 Hs1 IH Ha]; intros l2 H2 Hp.
  - now apply Permutation_nil in Hp.
  - destruct H2 as [|b l2 Hs2 Hb].
    + symmetry in Hp. now apply Permutation_nil in Hp.
    + assert (a = b).
      { assert (Hina : In a (b :: l2)) by (apply (Permutation_in _ Hp); now left).
        assert (Hinb : In b (a :: l1))
          by (apply (Permutation_in _ (Permutation_sym Hp)); now left).
        rewrite Forall_forall in Ha, Hb.
        destruct Hina as [->|Hina]; [reflexivity|].
        destruct Hinb as [->|Hinb]; [reflexivity|].
        specialize (Ha _ Hinb). specialize (Hb _ Hina). lia. }
      subst b. f_equal. apply IH; [exact Hs2|].
      now apply Permutation_cons_inv in Hp.
Qed.

Lemma seq_strongly_sorted (s n : nat) : StronglySorted le (seq s n).
Proof.
  revert s. induction n as [|n IH]; intros s; simpl; constructor; [apply IH|].
  apply Forall_forall. intros x Hx. apply in_seq in Hx. lia.
Qed.

(** Every result of the comparator carries the chunk id of its
    configuration. *)
Lemma compare_data_chunks_chunk_id (chunk1 chunk2 : DataFrame) (config : Config) :
  result_chunk_id (compare_data_chunks chunk1 chunk2 config)
  = get_default (cfg_chunk_id config) 0.
Proof.
  unfold compare_data_chunks.
  destruct (common_columns_of chunk1 chunk2); [destruct (cfg_chunk_id config); reflexivity|].
  destruct (str_in "__row_id" (columns chunk1) && str_in "__row_id" (columns chunk2));
    destruct (cfg_chunk_id config); reflexivity.
Qed.

Lemma nth_error_submit_all (config : Config) (pairs : list (DataFrame * DataFrame))
      (s i : nat) :
  nth_error (submit_all config s pairs) i
  = option_map (submit_task config (s + i)) (nth_error pairs i).
Proof.
  revert s i. induction pairs as [|p pairs IH]; intros s [|i]; simpl; trivial.
  - now rewrite Nat.add_0_r.
  - rewrite IH. now rewrite Nat.add_succ_r.
Qed.

Lemma result_of_pair_chunk_id (config : Config)
      (pairs : list (DataFrame * DataFrame)) (i : nat) :
  result_chunk_id (result_of_pair config pairs i) = i.
Proof.
  unfold result_of_pair. destruct (nth_error pairs i); [|reflexivity].
  now rewrite compare_data_chunks_chunk_id.
Qed.

Lemma collect_one_submitted (config : Config)
      (pairs : list (DataFrame * DataFrame)) (i : nat) :
  i < List.length pairs ->
  collect_one (submit_all config 0 pairs) i = [result_of_pair config pairs i].
Proof.
  intros Hi. unfold collect_one, result_of_pair.
  rewrite nth_error_submit_all. simpl.
  destruct (nth_error pairs i) as [p|] eqn:E; [reflexivity|].
  apply nth_error_None in E. lia.
Qed.

Lemma collected_results (config : Config)
      (pairs : list (DataFrame * DataFrame)) (order : list nat) :
  (forall i, In i order -> i < List.length pairs) ->
  flat_map (collect_one (submit_all config 0 pairs)) order
  = map (result_of_pair config pairs) order.
Proof.
  induction order as [|i order IH]; intros H; simpl; [reflexivity|].
  rewrite collect_one_submitted by (apply H; now left).
  simpl. f_equal. apply IH. intros j Hj. apply H. now right.
Qed.

(** With a pool of at least one worker the coordinator goes on to submit
    the tasks. *)
Lemma parallel_chunk_comparison_pool
      (chunks1 chunks2 : list DataFrame) (config : Config) (order : list nat) :
  get_default (cfg_max_parallelism config) 4 <> 0 ->
  parallel_chunk_comparison chunks1 chunks2 config order
  = Ok (sort_by_chunk_id
          (flat_map (collect_one (submit_all config 0 (combine chunks1 chunks2)))
                    order)).
Proof.
  intros Hp. unfold parallel_chunk_comparison.
  change (match cfg_max_parallelism config with Some n => n | None => 4 end)
    with (get_default (cfg_max_parallelism config) 4).
  destruct (Nat.eqb_spec (get_default (cfg_max_parallelism config) 4) 0)
    as [E|_]; [contradiction|reflexivity].
Qed.

(** With no worker allowed the pool is refused and nothing is compared. *)
Lemma parallel_chunk_comparison_no_worker
      (chunks1 chunks2 : list DataFrame) (config : Config) (order : list nat) :
  get_default (cfg_max_parallelism config) 4 = 0 ->
  parallel_chunk_comparison chunks1 chunks2 config order
  = Raise (ValueError "max_workers must be greater than 0").
Proof.
  intros Hp. unfold parallel_chunk_comparison.
  change (match cfg_max_parallelism config with Some n => n | None => 4 end)
    with (get_default (cfg_max_parallelism config) 4).
  now rewrite Hp.
Qed.

(** Whatever the completion order, the coordinator returns the results in
    submission order. *)
Lemma parallel_chunk_comparison_canonical
      (chunks1 chunks2 : list DataFrame) (config : Config) (order : list nat) :
  let pairs := combine chunks1 chunks2 in
  get_default (cfg_max_parallelism config) 4 <> 0 ->
  Permutation order (seq 0 (List.length pairs)) ->
  parallel_chunk_comparison chunks1 chunks2 config order
  = Ok (map (result_of_pair config pairs) (seq 0 (List.length pairs))).
Proof.
  intros pairs Hp Hord. rewrite parallel_chunk_comparison_pool by exact Hp.
  f_equal. fold pairs.
  rewrite collected_results.
  2:{ intros i Hi. apply (Permutation_in _ Hord) in Hi. apply in_seq in Hi. lia. }
  set (results := map (result_of_pair config pairs) order).
  set (out := sort_by_chunk_id results).
  assert (Hperm : Permutation out results) by apply sort_by_chunk_id_perm.
  assert (Hids : map result_chunk_id out = seq 0 (List.length pairs)).
  { apply sorted_perm_eq.
    - apply sorted_ids, sort_by_chunk_id_sorted.
    - apply seq_strongly_sorted.
    - rewrite (Permutation_map result_chunk_id Hperm). unfold results.
      rewrite map_map.
      rewrite (map_ext _ (fun i => i)) by (intros; apply result_of_pair_chunk_id).
      now rewrite map_id. }
  rewrite <- Hids, map_map. symmetry.
  rewrite <- (map_id out) at 2. apply map_ext_in.
  intros r Hr. apply (Permutation_in _ Hperm) in Hr.
  unfold results in Hr. apply in_map_iff in Hr. destruct Hr as (i & <- & _).
  now rewrite result_of_pair_chunk_id.
Qed.



(** ** Fingerprint comparison *)

Section JoinPermutations.
Context {K A B : Type} (eqk : K -> K -> bool).

Lemma existsb_perm {X : Type} (p : X -> bool) (l l' : list X) :
  Permutation l l' -> existsb p l = existsb p l'.
Proof.
  induction 1 as [|x l l' _ IH|x y l|l l' l'' _ IH1 _ IH2]; simpl.
  - reflexivity.
  - now rewrite IH.
  - destruct (p x), (p y); reflexivity.
  - now rewrite IH1.
Qed.

Lemma inner_join_length_perm (l l' : list (K * A)) (r r' : list (K * B)) :
  Permutation l l' -> Permutation r r' ->
  List.length (inner_join eqk l r) = List.length (inner_join eqk l' r').
Proof.
  intros Hl Hr. unfold inner_join.
  transitivity
    (List.length
       (flat_map
          (fun a => map (fun b => (fst a, snd a, snd b))
                        (filter (fun b => eqk (fst a) (fst b)) r'))
          l)).
  - rewrite !length_flat_map_sum. f_equal. apply map_ext. intros a.
    rewrite !length_map. apply Permutation_length.
    now apply Permutation_filter.
  - apply Permutation_length. now apply Permutation_flat_map.
Qed.

Lemma left_anti_join_length_perm (l l' : list (K * A)) (r r' : list (K * B)) :
  Permutation l l' -> Permutation r r' ->
  List.length (left_anti_join eqk l r)
  = List.length (left_anti_join eqk l' r').
Proof.
  intros Hl Hr. unfold left_anti_join.
  rewrite (filter_ext _ (fun a => negb (existsb (fun b => eqk (fst a) (fst b)) r')))
    by (intros a; f_equal; now apply existsb_perm).
  apply Permutation_length. now apply Permutation_filter.
Qed.
End JoinPermutations.

(** Grouping does not depend on the order of the rows. *)
Lemma group_by_count_perm (l l' : list Cell) :
  Permutation l l' -> Permutation (group_by_count l) (group_by_count l').
Proof.
  intros Hp. unfold group_by_count.
  rewrite (map_ext _ (fun v => (v, count_occ Cell_eq_dec l' v))).
  - apply Permutation_map. apply NoDup_Permutation; try apply NoDup_nodup.
    intros x. rewrite !nodup_In. split; apply Permutation_in;
      [exact Hp | now symmetry].
  - intros v. f_equal.
    now apply (proj1 (Permutation_count_occ Cell_eq_dec l l')).
Qed.

(** C5: the fingerprint comparison does not depend on the order of the
    rows: permuting the rows of either fingerprinted source leaves the
    whole result, and with it [common_fingerprints], [only_in_dataset1]
    and [only_in_dataset2], unchanged. *)
Theorem compare_fingerprints_order_independent (df1 df1' df2 df2' : DataFrame) :
  schema df1' = schema df1 -> Permutation (rows df1) (rows df1') ->
  schema df2' = schema df2 -> Permutation (rows df2) (rows df2') ->
  compare_fingerprints df1' df2' = compare_fingerprints df1 df2.
Proof.
  intros Hs1 Hp1 Hs2 Hp2. unfold compare_fingerprints, columns.
  rewrite Hs1, Hs2.
  destruct (str_in "__fingerprint" (map name (schema df1))
            && str_in "__fingerprint" (map name (schema df2))); [|reflexivity].
  assert (Hf1 : Permutation (group_by_count (fingerprint_column df1'))
                            (group_by_count (fingerprint_column df1))).
  { apply group_by_count_perm. unfold fingerprint_column, columns.
    rewrite Hs1. apply Permutation_map. now symmetry. }
  assert (Hf2 : Permutation (group_by_count (fingerprint_column df2'))
                            (group_by_count (fingerprint_column df2))).
  { apply group_by_count_perm. unfold fingerprint_column, columns.
    rewrite Hs2. apply Permutation_map. now symmetry. }
  rewrite (inner_join_length_perm key_eqb _ _ _ _ Hf1 Hf2).
  rewrite (left_anti_join_length_perm key_eqb _ _ _ _ Hf1 Hf2).
  rewrite (left_anti_join_length_perm key_eqb _ _ _ _ Hf2 Hf1).
  unfold count.
  rewrite (Permutation_length Hp1), (Permutation_length Hp2).
  reflexivity.
Qed.

Lemma compare_fingerprints_order_independent_witness :
  compare_fingerprints (Examples.reversed Examples.fingerprinted1)
                       (Examples.reversed Examples.fingerprinted2)
  = compare_fingerprints Examples.fingerprinted1 Examples.fingerprinted2.
Proof.
  apply compare_fingerprints_order_independent.
  - reflexivity.
  - simpl. apply Permutation_rev.
  - reflexivity.
  - simpl. apply Permutation_rev.
Defined.

(** ** Sampling *)

Lemma bernoulli_length (draw : nat -> Q) (fraction : Q) (i : nat) (rs : list Row) :
  List.length (bernoulli draw fraction i rs) <= List.length rs.
Proof.
  revert i. induction rs as [|r rs IH]; intros i; simpl; [lia|].
  destruct (negb (Qle_bool fraction (draw i))); simpl;
    specialize (IH (S i)); lia.
Qed.












(** No declared type equals one of the four strings, so the list of
    numeric columns is always empty. *)
Lemma numeric_columns_of_nil (df : DataFrame) : numeric_columns_of df = [].
Proof.
  unfold numeric_columns_of.
  induction (schema df) as [|field fields IH]; simpl; [reflexivity | exact IH].
Qed.

(** C7, what the code does: under the stratified strategy name the
    adaptive sampler finds no numeric column in any source, whatever the
    declared types, and always falls back to random sampling; on a source
    with an integer column [age] it does not stratify on it. *)
Theorem adaptive_stratified_always_random
        (draw : nat -> Q) (df : DataFrame) (sample_size : Z) :
  adaptive_sampling draw df sample_size "stratified"
  = random_sampling draw df sample_size /\
  In (mkField "age" IntegerType) (schema Examples.with_age) /\
  adaptive_sampling Examples.draws Examples.with_age 2 "stratified"
  = random_sampling Examples.draws Examples.with_age 2.
Proof.
  assert (H : forall d f n, adaptive_sampling d f n "stratified"
                            = random_sampling d f n).
  { intros d f n. unfold adaptive_sampling. simpl.
    now rewrite numeric_columns_of_nil. }
  split; [apply H|]. split; [simpl; tauto | apply H].
Qed.

(** ** The default column set of the fingerprinting phase *)

(** C4, what the code does: when the settings carry no
    [fingerprint_columns] key, the phase passes the empty list, not
    [None], to [create_data_fingerprint]; no column is hashed and every
    row of both sources gets the hash of the empty string, so that two
    sources with different rows are reported as matching.  Called with
    [None], as the sampling path calls it, the same function hashes every
    column but [__row_id]. *)
Theorem absent_fingerprint_columns_hash_nothing
        (H : HashFunctions) (df1 df2 : DataFrame) :
  run_fingerprinting_frames H df1 df2 (mkSettings None None None)
  = Some (Ok (withColumn df1 "__fingerprint" StringType
                         (fun _ _ => CVal (md5 H EmptyString)),
              withColumn df2 "__fingerprint" StringType
                         (fun _ _ => CVal (md5 H EmptyString)))) /\
  (exists r,
      run_fingerprinting_comparison Examples.marking_hashes
                                    Examples.abc Examples.bcd
                                    (mkSettings None None None)
      = Some (Ok r) /\ fingerprints_match r = true) /\
  (exists fp1 fp2 r,
      create_data_fingerprint Examples.marking_hashes Examples.abc None "md5"
      = Ok fp1 /\
      create_data_fingerprint Examples.marking_hashes Examples.bcd None "md5"
      = Ok fp2 /\
      compare_fingerprints fp1 fp2 = Ok r /\ fingerprints_match r = false).
Proof.
  split; [reflexivity|]. split.
  - eexists. split; reflexivity.
  - do 3 eexists. repeat split; reflexivity.
Qed.

(** ** Drift indicators *)

(** C10: when the baseline mean is zero, the relative change is taken to
    be 0, which does not exceed the threshold: whatever the second
    sample's statistics, the column's drift indicators contain no
    [mean_change]. *)
Theorem zero_baseline_mean_never_flags
        (python_float : string -> option float)
        (stats1_dict stats2_dict : Drift.Stats) (s : string) (mean1 : float) :
  Drift.lookup "mean" stats1_dict = Some (Some s) ->
  python_float s = Some mean1 ->
  PrimFloat.eqb mean1 0%float = true ->
  Drift.mean_indicators python_float stats1_dict stats2_dict = [] /\
  forall i,
    In i (Drift.drift_indicators
            (Drift.column_drift python_float stats1_dict stats2_dict)) ->
    Drift.ind_type i <> "mean_change".
Proof.
  intros Hlook Hparse Hzero.
  assert (Hnone : Drift.mean_indicators python_float stats1_dict stats2_dict = []).
  { unfold Drift.mean_indicators. rewrite Hlook.
    destruct (Drift.lookup "mean" stats2_dict) as [v2|]; [|reflexivity].
    unfold Drift.to_float at 1. rewrite Hparse.
    destruct (Drift.to_float python_float v2) as [mean2|e]; [|reflexivity].
    rewrite Hzero. reflexivity. }
  split; [exact Hnone|].
  intros i Hi. unfold Drift.column_drift in Hi. simpl in Hi.
  rewrite Hnone in Hi. simpl in Hi.
  unfold Drift.stddev_indicators in Hi.
  destruct (Drift.lookup "stddev" stats1_dict) as [v1|]; [|contradiction].
  destruct (Drift.lookup "stddev" stats2_dict) as [v2|]; [|contradiction].
  destruct (Drift.to_float python_float v1) as [std1|e1]; [|contradiction].
  destruct (Drift.to_float python_float v2) as [std2|e2]; [|contradiction].
  destruct (PrimFloat.ltb 20 _); [|contradiction].
  destruct Hi as [<-|[]]. simpl. discriminate.
Qed.

Lemma zero_baseline_mean_never_flags_witness :
  Drift.mean_indicators Examples.read_float
                        Examples.baseline_stats Examples.current_stats = [].
Proof.
  apply (zero_baseline_mean_never_flags
           Examples.read_float Examples.baseline_stats Examples.current_stats
           "0.0" 0%float); reflexivity.
Defined.


(** * Further properties of the engine *)

(** ** The chunk comparator: equal contents, null cells *)




(** Null cells leave no trace in the content key: a row [(null, s)] and a
    row [(s, null)] get the same key and are counted as a match. *)
Theorem null_cells_are_skipped_in_keys (s : string) (id1 id2 : Z)
        (config : Config) :
  let r := compare_data_chunks (single_row CNull (CVal s) id1)
                               (single_row (CVal s) CNull id2)
                               config in
  get_matches r = 1 /\ get_only_in_dataset1 r = 0 /\ get_only_in_dataset2 r = 0.
Proof.
  cbv [compare_data_chunks single_row common_columns_of columns
       schema rows map name filter str_in existsb system_columns].
  simpl. unfold with_key, comparison_key, columns. simpl.
  unfold inner_join, left_anti_join, concat_ws. simpl.
  rewrite !String.eqb_refl. simpl. repeat split.
Qed.

(** ** The aggregator: counts of chunks, order of the results *)

Lemma aggregate_fold_chunks (results : list ChunkResult) (acc : Totals) :
  let out := fold_left aggregate_step results acc in
  t_successful out
  = t_successful acc
    + List.length (filter (fun r => negb (has_error r)) results) /\
  t_errors out = (t_errors acc ++ flat_map error_lines results)%list.
Proof.
  revert acc. induction results as [|r results IH]; intros acc; simpl.
  - rewrite app_nil_r. split; [lia | reflexivity].
  - destruct (IH (aggregate_step acc r)) as (Hs & He).
    rewrite Hs, He. destruct r; simpl.
    + split; [lia | reflexivity].
    + rewrite <- app_assoc. split; [lia | reflexivity].
Qed.

Lemma error_lines_length (results : list ChunkResult) :
  List.length (flat_map error_lines results)
  = List.length (filter has_error results).
Proof.
  induction results as [|r results IH]; simpl; [reflexivity|].
  destruct r; simpl; now rewrite ?IH.
Qed.

Lemma filter_split_length {A : Type} (f : A -> bool) (l : list A) :
  List.length (filter (fun x => negb (f x)) l) + List.length (filter f l)
  = List.length l.
Proof.
  induction l as [|x l IH]; simpl; [reflexivity|].
  destruct (f x); simpl; lia.
Qed.

(** The chunk counts and the error lines of the aggregate. *)
Lemma aggregate_chunk_counts (results : list ChunkResult) :
  let a := aggregate_chunk_results results in
  successful_chunks a
  = List.length (filter (fun r => negb (has_error r)) results) /\
  failed_chunks a = List.length (filter has_error results) /\
  errors a = flat_map error_lines results.
Proof.
  unfold aggregate_chunk_results. simpl.
  destruct (aggregate_fold_chunks results (mkTotals 0 0 0 0 0 0 []))
    as (Hs & He).
  destruct (aggregate_fold results (mkTotals 0 0 0 0 0 0 []))
    as (_ & _ & _ & _ & Hf).
  simpl in *. repeat split; assumption.
Qed.

(** Every chunk result is counted once, as successful or as failed; the
    aggregate holds one error line per failed chunk, in the order of the
    results; and [total_differences] is the sum of the one-sided totals. *)
Theorem aggregate_counts_every_chunk (results : list ChunkResult) :
  let a := aggregate_chunk_results results in
  successful_chunks a + failed_chunks a = total_chunks a /\
  total_chunks a = List.length results /\
  failed_chunks a = List.length (filter has_error results) /\
  errors a = flat_map error_lines results /\
  List.length (errors a) = failed_chunks a /\
  total_differences a = total_only_in_dataset1 a + total_only_in_dataset2 a.
Proof.
  intros a. destruct (aggregate_chunk_counts results) as (Hs & Hf & He).
  fold a in Hs, Hf, He.
  assert (Ht : total_chunks a = List.length results) by reflexivity.
  rewrite Hs, Hf, He, Ht, error_lines_length.
  repeat split; try reflexivity. apply filter_split_length.
Qed.

Lemma Permutation_filter_length {A : Type} (f : A -> bool) (l l' : list A) :
  Permutation l l' -> List.length (filter f l) = List.length (filter f l').
Proof. intros H. apply Permutation_length. now apply Permutation_filter. Qed.

(** The totals, the chunk counts and [datasets_match] do not depend on the
    order in which the chunk results are aggregated; only the order of the
    error lines follows it. *)
Theorem aggregate_order_independent (results results' : list ChunkResult) :
  Permutation results results' ->
  let a := aggregate_chunk_results results in
  let a' := aggregate_chunk_results results' in
  total_matches a' = total_matches a /\
  total_only_in_dataset1 a' = total_only_in_dataset1 a /\
  total_only_in_dataset2 a' = total_only_in_dataset2 a /\
  total_rows_processed a' = total_rows_processed a /\
  successful_chunks a' = successful_chunks a /\
  failed_chunks a' = failed_chunks a /\
  datasets_match a' = datasets_match a /\
  Permutation (errors a') (errors a).
Proof.
  intros Hp a a'.
  destruct (aggregate_chunk_counts results) as (Hs & Hf & He).
  destruct (aggregate_chunk_counts results') as (Hs' & Hf' & He').
  fold a in Hs, Hf, He. fold a' in Hs', Hf', He'.
  rewrite Hs, Hs', Hf, Hf', He, He'.
  assert (Hflag : datasets_match a'
                  = ((total_only_in_dataset1 a' + total_only_in_dataset2 a' =? 0)
                     && (failed_chunks a' =? 0))) by reflexivity.
  assert (Hflag0 : datasets_match a
                   = ((total_only_in_dataset1 a + total_only_in_dataset2 a =? 0)
                      && (failed_chunks a =? 0))) by reflexivity.
  rewrite Hflag, Hflag0, Hf, Hf'. clear Hflag Hflag0 Hs Hs' Hf Hf' He He'.
  subst a a'. unfold aggregate_chunk_results. simpl.
  destruct (aggregate_fold results (mkTotals 0 0 0 0 0 0 []))
    as (Hm & H1 & H2 & Hr & _).
  destruct (aggregate_fold results' (mkTotals 0 0 0 0 0 0 []))
    as (Hm' & H1' & H2' & Hr' & _).
  simpl in *.
  assert (Em : forall g : ChunkResult -> nat,
             list_sum (map g results') = list_sum (map g results)).
  { intros g. apply Permutation_list_sum. apply Permutation_map. now symmetry. }
  assert (Ef : forall f : ChunkResult -> bool,
             List.length (filter f results') = List.length (filter f results))
    by (intros f; apply Permutation_filter_length; now symmetry).
  rewrite Hm, Hm', H1, H1', H2, H2', Hr, Hr', !Em, !Ef.
  repeat split; try reflexivity.
  apply Permutation_flat_map. now symmetry.
Qed.

Lemma aggregate_order_independent_witness :
  let results :=
    [ChunkError 1 "boom";
     compare_data_chunks Examples.abc Examples.bcd Examples.no_config] in
  datasets_match (aggregate_chunk_results (rev results))
  = datasets_match (aggregate_chunk_results results).
Proof.
  intros results.
  destruct (aggregate_order_independent results (rev results)
                                        (Permutation_rev results))
    as (_ & _ & _ & _ & _ & _ & H & _).
  exact H.
Defined.

(** ** The chunker: which rows reach a chunk *)

Lemma chunk_number_rows (df : DataFrame) (chunk_size i : Z) (r : Row) :
  In r (rows (chunk_number df chunk_size i)) <->
  In r (rows df) /\
  exists z, row_id_of (columns df) r = Some z /\ Z.quot z chunk_size = i.
Proof.
  unfold chunk_number, chunk_id_of. simpl. rewrite filter_In.
  split.
  - intros (Hin & Hk). split; [exact Hin|].
    destruct (row_id_of (columns df) r) as [z|]; simpl in Hk; [|discriminate].
    exists z. split; [reflexivity | now apply Z.eqb_eq].
  - intros (Hin & z & Hz & Hq). split; [exact Hin|].
    rewrite Hz. simpl. now apply Z.eqb_eq.
Qed.

(** For a positive chunk size, chunk [i] holds exactly the rows of the
    frame whose identifier divided by the chunk size, truncated, is [i];
    nothing else reaches a chunk.  A row without identifier, and a row
    whose identifier is at or beyond the number of chunks times the
    chunk size, is in no chunk at all. *)
Theorem chunk_dataframe_membership (df : DataFrame) (chunk_size : Z) :
  (0 < chunk_size)%Z ->
  str_in "__row_id" (columns df) = true ->
  exists chunks,
    chunk_dataframe df chunk_size = Ok chunks /\
    (forall i r, i < List.length chunks ->
       (In r (rows (nth i chunks (mkDF [] []))) <->
        In r (rows df) /\
        exists z, row_id_of (columns df) r = Some z
                  /\ Z.quot z chunk_size = Z.of_nat i)) /\
    (forall chunk, In chunk chunks ->
       schema chunk = schema df /\ incl (rows chunk) (rows df)) /\
    (forall r chunk, row_id_of (columns df) r = None ->
       In chunk chunks -> ~ In r (rows chunk)) /\
    (forall r z chunk, row_id_of (columns df) r = Some z ->
       (Z.of_nat (List.length chunks) * chunk_size <= z)%Z ->
       In chunk chunks -> ~ In r (rows chunk)).
Proof.
  intros Hc Hid. eexists. split; [apply chunk_dataframe_ok; assumption|].
  set (total := Z.of_nat (count df)).
  destruct (num_chunks_ceiling total chunk_size Hc ltac:(lia)) as (Hk0 & Hk).
  set (k := ((total + chunk_size - 1) / chunk_size)%Z) in *.
  rewrite length_map, range_length.
  assert (Hmem : forall chunk,
             In chunk (map (chunk_number df chunk_size) (range k)) ->
             exists i, (0 <= i < k)%Z /\ chunk = chunk_number df chunk_size i).
  { intros chunk Hin. apply in_map_iff in Hin. destruct Hin as (i & <- & Hi).
    exists i. split; [|reflexivity].
    rewrite range_eq_Zrange in Hi. apply In_Zrange in Hi. lia. }
  split; [|split; [|split]].
  - intros i r Hi.
    rewrite (nth_indep _ _ (chunk_number df chunk_size 0))
      by now rewrite length_map, range_length.
    rewrite map_nth, (nth_range i k 0 Hi). apply chunk_number_rows.
  - intros chunk Hin. destruct (Hmem _ Hin) as (i & _ & ->).
    split; [reflexivity|]. unfold chunk_number. simpl. apply incl_filter.
  - intros r chunk Hnone Hin Hr.
    destruct (Hmem _ Hin) as (i & _ & ->).
    apply chunk_number_rows in Hr. destruct Hr as (_ & z & Hz & _). congruence.
  - intros r z chunk Hz Hbig Hin Hr.
    destruct (Hmem _ Hin) as (i & Hi & ->).
    apply chunk_number_rows in Hr. destruct Hr as (_ & z' & Hz' & Hq).
    assert (z' = z) by congruence. subst z'.
    rewrite Z2Nat.id in Hbig by exact Hk0.
    assert (0 <= z)%Z by nia.
    rewrite Z.quot_div_nonneg in Hq by lia.
    assert (k <= z / chunk_size)%Z by (apply Z.div_le_lower_bound; lia).
    lia.
Qed.

Lemma chunk_dataframe_membership_witness :
  exists chunks,
    chunk_dataframe two_partitions 1 = Ok chunks /\
    List.length chunks = 2 /\
    forall chunk, In chunk chunks ->
                  ~ In [CVal "b"; CLong 8589934592] (rows chunk).
Proof.
  destruct (chunk_dataframe_membership two_partitions 1 ltac:(lia) eq_refl)
    as (chunks & Hok & _ & _ & _ & Hfar).
  exists chunks. split; [exact Hok|].
  assert (Hlen : List.length chunks = 2).
  { vm_compute in Hok. injection Hok as <-. reflexivity. }
  split; [exact Hlen|].
  intros chunk. apply (Hfar _ 8589934592%Z); [reflexivity|].
  rewrite Hlen. lia.
Defined.

(** ** The full comparison *)

Lemma flat_map_nil {A B : Type} (l : list A) :
  flat_map (fun _ : A => @nil B) l = [].
Proof. induction l; simpl; trivial. Qed.

Lemma parallel_chunk_comparison_no_pairs
      (chunks1 chunks2 : list DataFrame) (config : Config) (order : list nat) :
  get_default (cfg_max_parallelism config) 4 <> 0 ->
  combine chunks1 chunks2 = [] ->
  parallel_chunk_comparison chunks1 chunks2 config order = Ok [].
Proof.
  intros Hp E. rewrite parallel_chunk_comparison_pool by exact Hp.
  f_equal. rewrite E. simpl.
  rewrite (flat_map_ext _ (fun _ => [])).
  - now rewrite flat_map_nil.
  - intros i. unfold collect_one. now destruct i.
Qed.

Lemma ceiling_of_zero (c : Z) : (0 < c)%Z -> ((0 + c - 1) / c = 0)%Z.
Proof. intros H. apply Z.div_small. lia. Qed.

(** When either source has no row, the full comparison compares no chunk
    at all and reports [datasets_match = true] with zero rows processed,
    whatever the other source holds. *)
Theorem full_data_comparison_empty_side
        (df1 df2 : DataFrame) (config : Config) (order : list nat) :
  (0 < get_default (cfg_chunk_size config) 1000000)%Z ->
  str_in "__row_id" (columns df1) = true ->
  str_in "__row_id" (columns df2) = true ->
  get_default (cfg_max_parallelism config) 4 <> 0 ->
  count df1 = 0 \/ count df2 = 0 ->
  exists r,
    full_data_comparison df1 df2 config order = Ok r /\
    chunks_processed r = 0 /\
    total_rows_processed (aggregated r) = 0 /\
    datasets_match (aggregated r) = true.
Proof.
  intros Hc H1 H2 Hp Hempty. unfold full_data_comparison.
  rewrite (chunk_dataframe_ok df1 _ Hc H1), (chunk_dataframe_ok df2 _ Hc H2).
  rewrite parallel_chunk_comparison_no_pairs.
  - eexists. split; [reflexivity|]. repeat split.
  - exact Hp.
  - rewrite !length_map, !range_length.
    destruct Hempty as [E|E]; rewrite E; simpl Z.of_nat;
      rewrite ceiling_of_zero by exact Hc; simpl.
    + reflexivity.
    + rewrite Nat.min_0_r. reflexivity.
Qed.

Lemma full_data_comparison_empty_side_witness :
  exists r,
    full_data_comparison Examples.five (mkDF Examples.schema_v [])
                         Examples.no_config []
    = Ok r /\
    datasets_match (aggregated r) = true.
Proof.
  destruct (full_data_comparison_empty_side
              Examples.five (mkDF Examples.schema_v []) Examples.no_config []
              ltac:(simpl; lia) eq_refl eq_refl ltac:(simpl; lia)
              (or_intror eq_refl))
    as (r & Hok & _ & _ & Hm).
  exists r. split; assumption.
Defined.

(** For a positive chunk size the full comparison compares as many chunk
    pairs as the source with fewer chunks has chunks; the chunks beyond
    that number on the other side are not compared, and the outcome does
    not depend on the order in which the chunk tasks complete. *)
Theorem full_data_comparison_pairs_the_common_chunks
        (df1 df2 : DataFrame) (config : Config) (order order' : list nat) :
  let c := get_default (cfg_chunk_size config) 1000000%Z in
  let n1 := Z.to_nat ((Z.of_nat (count df1) + c - 1) / c) in
  let n2 := Z.to_nat ((Z.of_nat (count df2) + c - 1) / c) in
  (0 < c)%Z ->
  str_in "__row_id" (columns df1) = true ->
  str_in "__row_id" (columns df2) = true ->
  get_default (cfg_max_parallelism config) 4 <> 0 ->
  Permutation order (seq 0 (Nat.min n1 n2)) ->
  Permutation order' (seq 0 (Nat.min n1 n2)) ->
  exists r,
    full_data_comparison df1 df2 config order = Ok r /\
    chunks_processed r = Nat.min n1 n2 /\
    total_chunks (aggregated r) = Nat.min n1 n2 /\
    full_data_comparison df1 df2 config order' = Ok r.
Proof.
  intros c n1 n2 Hc H1 H2 Hp Hord Hord'. unfold full_data_comparison.
  fold c. rewrite (chunk_dataframe_ok df1 c Hc H1), (chunk_dataframe_ok df2 c Hc H2).
  rewrite !length_map, !range_length. fold n1 n2.
  set (chunks1 := firstn (Nat.min n1 n2) (map (chunk_number df1 c) (range _))).
  set (chunks2 := firstn (Nat.min n1 n2) (map (chunk_number df2 c) (range _))).
  assert (Hlen : List.length (combine chunks1 chunks2) = Nat.min n1 n2).
  { rewrite length_combine. unfold chunks1, chunks2.
    rewrite !length_firstn, !length_map, !range_length. fold n1 n2. lia. }
  rewrite <- Hlen in Hord, Hord'.
  rewrite !parallel_chunk_comparison_canonical by assumption.
  eexists. split; [reflexivity|]. simpl.
  rewrite length_map, length_seq. repeat split; exact Hlen.
Qed.

Lemma full_data_comparison_pairs_the_common_chunks_witness :
  exists r,
    full_data_comparison Examples.five Examples.abc
                         (mkConfig None (Some 2%Z) None) [1; 0]
    = Ok r /\
    chunks_processed r = 2.
Proof.
  destruct (full_data_comparison_pairs_the_common_chunks
              Examples.five Examples.abc (mkConfig None (Some 2%Z) None)
              [1; 0] [0; 1]
              ltac:(simpl; lia) eq_refl eq_refl ltac:(simpl; lia)
              (perm_swap 0 1 []) (Permutation_refl _))
    as (r & Hok & Hn & _).
  exists r. split; [exact Hok | exact Hn].
Defined.

(** ** Detailed differences *)

Lemma true_div_above_one (a b : Z) :
  (0 < b)%Z -> (b < a)%Z -> Qle_bool (true_div a b) 1 = false.
Proof.
  intros Hb Ha. destruct (Qle_bool (true_div a b) 1) eqn:E; [|reflexivity].
  apply Qle_bool_iff in E. unfold true_div in E.
  assert (Hpos : (inject_Z 0 < inject_Z b)%Q) by (rewrite <- Zlt_Qlt; lia).
  assert (Hle : (inject_Z a <= inject_Z b)%Q).
  { rewrite <- (Qmult_1_l (inject_Z b)).
    rewrite <- (Qmult_div_r (inject_Z a) (inject_Z b)) at 1.
    - rewrite Qmult_comm. apply Qmult_le_compat_r; [exact E|].
      apply Qlt_le_weak. exact Hpos.
    - intros C. rewrite C in Hpos. now apply Qlt_irrefl in Hpos. }
  rewrite <- Zle_Qle in Hle. lia.
Qed.


(** The detailed analysis fails on small sources: when one of the two has
    fewer rows than the sample size (1000 by default), the sampling
    fraction is a division by zero or exceeds 1, and the function
    raises. *)
Theorem find_detailed_differences_small_source
        (draw : nat -> Q) (df1 df2 : DataFrame) (sample_size : Z) :
  (sample_size <= 1000000)%Z ->
  (Z.of_nat (count df1) < sample_size)%Z
  \/ (Z.of_nat (count df2) < sample_size)%Z ->
  exists e, find_detailed_differences draw df1 df2 sample_size = Raise e.
Proof.
  intros _ Hsmall. unfold find_detailed_differences.
  destruct (Nat.eqb_spec (count df1) 0) as [E1|N1]; [eexists; reflexivity|].
  destruct (sample draw (true_div sample_size (Z.of_nat (count df1))) df1)
    as [sample1|e] eqn:S1; [|eexists; reflexivity].
  destruct (Nat.eqb_spec (count df2) 0) as [E2|N2]; [eexists; reflexivity|].
  destruct Hsmall as [H|H].
  - unfold sample in S1.
    rewrite (true_div_above_one sample_size (Z.of_nat (count df1))
                                ltac:(lia) H) in S1.
    rewrite andb_false_r in S1. discriminate.
  - unfold sample.
    rewrite (true_div_above_one sample_size (Z.of_nat (count df2))
                                ltac:(lia) H).
    rewrite andb_false_r. eexists; reflexivity.
Qed.

Lemma find_detailed_differences_small_source_witness :
  exists e,
    find_detailed_differences Examples.draws Examples.five Examples.five 1000
    = Raise e.
Proof.
  apply find_detailed_differences_small_source; [lia | left; simpl; lia].
Defined.



Lemma filter_none {A : Type} (f : A -> bool) (l : list A) :
  (forall x, In x l -> f x = false) -> filter f l = [].
Proof.
  induction l as [|x l IH]; simpl; intros H; [reflexivity|].
  rewrite (H x) by now left. apply IH. intros; apply H; now right.
Qed.





(** ** Sampling: exact and bounded sample sizes, unknown strategies *)

Lemma insert_by_row_id_perm (names : list string) (r : Row) (l : list Row) :
  Permutation (insert_by_row_id names r l) (r :: l).
Proof.
  induction l as [|x l IH]; simpl; [reflexivity|].
  destruct (row_id_leb (row_id_of names r) (row_id_of names x)); [reflexivity|].
  rewrite IH. apply perm_swap.
Qed.

Lemma order_by_row_id_perm (names : list string) (l : list Row) :
  Permutation (order_by_row_id names l) l.
Proof.
  induction l as [|x l IH]; simpl; [constructor|].
  rewrite insert_by_row_id_perm. now constructor.
Qed.

Lemma number_from_snoc (n : Z) (l : list Row) (x : Row) :
  number_from n (l ++ [x])
  = (number_from n l ++ [((n + Z.of_nat (List.length l))%Z, x)])%list.
Proof.
  revert n. induction l as [|y l IH]; intros n.
  - simpl. now rewrite Z.add_0_r.
  - cbn [app number_from List.length]. rewrite IH, Nat2Z.inj_succ.
    replace (n + 1 + Z.of_nat (List.length l))%Z
      with (n + Z.succ (Z.of_nat (List.length l)))%Z by lia.
    reflexivity.
Qed.

Lemma map_snd_number_from (n : Z) (l : list Row) :
  map snd (number_from n l) = l.
Proof.
  revert n. induction l as [|y l IH]; intros n; simpl; [reflexivity|].
  now rewrite IH.
Qed.

Lemma div_succ (n k : Z) :
  (0 <= n)%Z -> (0 < k)%Z ->
  ((n + 1) / k
   = n / k + (if Z.eqb (Z.rem (n + 1) k) 0 then 1 else 0))%Z.
Proof.
  intros Hn Hk. rewrite Z.rem_mod_nonneg by lia.
  pose proof (Z.div_mod n k ltac:(lia)) as Hdm.
  pose proof (Z.mod_pos_bound n k Hk) as Hb.
  destruct (Z.eq_dec (n mod k + 1) k) as [E|N].
  - assert (Hq : ((n + 1) / k = n / k + 1)%Z)
      by (symmetry; apply (Z.div_unique (n + 1) k (n / k + 1) 0); lia).
    assert (Hr : ((n + 1) mod k = 0)%Z)
      by (symmetry; apply (Z.mod_unique (n + 1) k (n / k + 1) 0); lia).
    rewrite Hq, Hr. reflexivity.
  - assert (Hq : ((n + 1) / k = n / k)%Z)
      by (symmetry; apply (Z.div_unique (n + 1) k (n / k) (n mod k + 1)); lia).
    assert (Hr : ((n + 1) mod k = n mod k + 1)%Z)
      by (symmetry; apply (Z.mod_unique (n + 1) k (n / k) (n mod k + 1)); lia).
    rewrite Hq, Hr.
    destruct (Z.eqb_spec (n mod k + 1) 0); lia.
Qed.

(** Among the positions 1 to n, n / k are multiples of k. *)
Lemma multiples_among_positions (k : Z) (l : list Row) :
  (0 < k)%Z ->
  Z.of_nat (List.length
              (filter (fun p : Z * Row => Z.eqb (Z.rem (fst p) k) 0)
                      (number_from 1 l)))
  = (Z.of_nat (List.length l) / k)%Z.
Proof.
  intros Hk. induction l as [|x l IH] using rev_ind.
  - simpl. now rewrite Z.div_0_l by lia.
  - rewrite number_from_snoc, filter_app, !length_app.
    cbn [filter fst List.length].
    rewrite !Nat2Z.inj_add, IH.
    change (Z.of_nat 1) with 1%Z.
    rewrite (div_succ (Z.of_nat (List.length l)) k) by lia.
    replace (1 + Z.of_nat (List.length l))%Z
      with (Z.of_nat (List.length l) + 1)%Z by lia.
    destruct (Z.eqb (Z.rem (Z.of_nat (List.length l) + 1) k) 0);
      cbn [List.length]; lia.
Qed.

Lemma firstn_incl {A : Type} (n : nat) (l : list A) : incl (firstn n l) l.
Proof.
  intros x Hx. rewrite <- (firstn_skipn n l). apply in_or_app. now left.
Qed.

(** On a source with more rows than the sample size, systematic sampling
    returns exactly [sample_size] rows, all of them rows of the source,
    under the schema of the source. *)
Theorem systematic_sampling_exact_size (df : DataFrame) (sample_size : Z) :
  (0 < sample_size < Z.of_nat (count df))%Z ->
  str_in "__row_id" (columns df) = true ->
  exists s,
    systematic_sampling df sample_size = Ok s /\
    Z.of_nat (count s) = sample_size /\
    schema s = schema df /\
    incl (rows s) (rows df).
Proof.
  intros Hss Hid. unfold systematic_sampling.
  destruct (Z.leb_spec (Z.of_nat (count df)) sample_size) as [C|_]; [lia|].
  destruct (Z.eqb_spec sample_size 0) as [C|_]; [lia|].
  rewrite Hid. simpl.
  destruct (Z.ltb_spec sample_size 0) as [C|_]; [lia|].
  eexists. split; [reflexivity|]. simpl.
  set (interval := (Z.of_nat (count df) / sample_size)%Z).
  set (sorted := order_by_row_id (columns df) (rows df)).
  assert (Hlen : List.length sorted = count df)
    by (apply Permutation_length, order_by_row_id_perm).
  assert (Hint : (0 < interval)%Z)
    by (apply Z.div_str_pos; lia).
  split; [|split; [reflexivity|]].
  - unfold count. simpl. rewrite length_map, length_firstn.
    pose proof (multiples_among_positions interval sorted Hint) as Hm.
    rewrite Hlen in Hm.
    assert (sample_size <= Z.of_nat (count df) / interval)%Z.
    { apply Z.div_le_lower_bound; [exact Hint|].
      unfold interval. rewrite Z.mul_comm. apply Z.mul_div_le. lia. }
    lia.
  - intros r Hr. apply in_map_iff in Hr. destruct Hr as ((n, r') & <- & Hin).
    apply firstn_incl, filter_In in Hin. destruct Hin as (Hin & _).
    apply (in_map snd) in Hin. rewrite map_snd_number_from in Hin.
    simpl. exact (Permutation_in _ (order_by_row_id_perm (columns df) (rows df)) Hin).
Qed.

Lemma systematic_sampling_exact_size_witness :
  exists s, systematic_sampling Examples.five 2 = Ok s /\
            Z.of_nat (count s) = 2%Z.
Proof.
  destruct (systematic_sampling_exact_size Examples.five 2
                                           ltac:(simpl; lia) eq_refl)
    as (s & Hok & Hn & _).
  exists s. split; assumption.
Defined.




(** The adaptive sampler raises its [ValueError] for the strategy names
    other than random, systematic and stratified, and only for these. *)
Theorem adaptive_sampling_unknown_strategy
        (draw : nat -> Q) (df : DataFrame) (sample_size : Z)
        (sampling_strategy : string) :
  (exists msg,
      adaptive_sampling draw df sample_size sampling_strategy
      = Raise (ValueError msg)) <->
  sampling_strategy <> "random" /\ sampling_strategy <> "systematic"
  /\ sampling_strategy <> "stratified".
Proof.
  assert (Hrandom : forall msg,
             random_sampling draw df sample_size <> Raise (ValueError msg)).
  { intros msg. unfold random_sampling, sample.
    destruct (Z.leb _ _); [discriminate|].
    destruct (Z.eqb _ _); [discriminate|].
    destruct (_ && _); discriminate. }
  assert (Hsystematic : forall msg,
             systematic_sampling df sample_size <> Raise (ValueError msg)).
  { intros msg. unfold systematic_sampling.
    destruct (Z.leb _ _); [discriminate|].
    destruct (Z.eqb _ _); [discriminate|].
    destruct (negb _); [discriminate|].
    destruct (Z.ltb _ _); discriminate. }
  unfold adaptive_sampling. rewrite numeric_columns_of_nil.
  destruct (String.eqb_spec sampling_strategy "random") as [->|N1].
  { split; [intros (msg & H); now apply Hrandom in H | intros (C & _); congruence]. }
  destruct (String.eqb_spec sampling_strategy "systematic") as [->|N2].
  { split; [intros (msg & H); now apply Hsystematic in H
           | intros (_ & C & _); congruence]. }
  destruct (String.eqb_spec sampling_strategy "stratified") as [->|N3].
  { split; [intros (msg & H); now apply Hrandom in H
           | intros (_ & _ & C); congruence]. }
  split; [intros _; repeat split; assumption | intros _; eexists; reflexivity].
Qed.

(** ** Fingerprint comparison: distinct fingerprints, blind to repetition *)

Lemma key_eqb_true (a b : Cell) : key_eqb a b = true <-> a = b /\ a <> CNull.
Proof.
  unfold key_eqb. split.
  - intros H.
    destruct a; [discriminate| | |];
      (destruct b; [discriminate| | |]);
      (destruct (Cell_eq_dec _ _) as [e|n]; [|discriminate]);
      (split; [exact e | discriminate]).
  - intros (<- & Hn).
    destruct a; [congruence| | |];
      (destruct (Cell_eq_dec _ _) as [e|n]; [reflexivity | congruence]).
Qed.

Lemma key_eqb_sym (a b : Cell) : key_eqb a b = key_eqb b a.
Proof.
  destruct (key_eqb a b) eqn:E1, (key_eqb b a) eqn:E2; trivial.
  - apply key_eqb_true in E1. destruct E1 as (<- & Hn).
    assert (key_eqb a a = true) by (apply key_eqb_true; now split).
    congruence.
  - apply key_eqb_true in E2. destruct E2 as (<- & Hn).
    assert (key_eqb b b = true) by (apply key_eqb_true; now split).
    congruence.
Qed.

Section KeyJoins.
Context {A B : Type}.

Lemma inner_join_length_keys (l : list (Cell * A)) (r : list (Cell * B)) :
  List.length (inner_join key_eqb l r)
  = list_sum (map (fun a => List.length (filter (key_eqb a) (map fst r)))
                  (map fst l)).
Proof.
  unfold inner_join. rewrite length_flat_map_sum, map_map.
  f_equal. apply map_ext. intros a. rewrite length_map.
  induction r as [|b r IH]; simpl; [reflexivity|].
  destruct (key_eqb (fst a) (fst b)); simpl; now rewrite IH.
Qed.

Lemma left_anti_join_length_keys (l : list (Cell * A)) (r : list (Cell * B)) :
  List.length (left_anti_join key_eqb l r)
  = List.length (filter (fun a => negb (existsb (key_eqb a) (map fst r)))
                        (map fst l)).
Proof.
  unfold left_anti_join.
  assert (E : forall a : Cell * A,
             existsb (fun b : Cell * B => key_eqb (fst a) (fst b)) r
             = existsb (key_eqb (fst a)) (map fst r)).
  { intros a. induction r as [|b r IH]; simpl; [reflexivity | now rewrite IH]. }
  induction l as [|a l IH]; simpl; [reflexivity|].
  rewrite E. destruct (existsb (key_eqb (fst a)) (map fst r)); simpl; now rewrite IH.
Qed.
End KeyJoins.

Lemma key_matches_at_most_once (a : Cell) (ks : list Cell) :
  NoDup ks ->
  List.length (filter (key_eqb a) ks)
  = if existsb (key_eqb a) ks then 1 else 0.
Proof.
  induction 1 as [|k ks Hk Hnd IH]; simpl; [reflexivity|].
  destruct (key_eqb a k) eqn:E; simpl.
  - apply key_eqb_true in E. destruct E as (<- & Hn).
    rewrite IH.
    destruct (existsb (key_eqb a) ks) eqn:Ex; [|reflexivity].
    apply existsb_exists in Ex. destruct Ex as (x & Hx & Hax).
    apply key_eqb_true in Hax. destruct Hax as (<- & _). contradiction.
  - exact IH.
Qed.

Lemma matched_or_alone_keys (ks1 ks2 : list Cell) :
  NoDup ks2 ->
  list_sum (map (fun a => List.length (filter (key_eqb a) ks2)) ks1)
  + List.length (filter (fun a => negb (existsb (key_eqb a) ks2)) ks1)
  = List.length ks1.
Proof.
  intros Hnd. induction ks1 as [|k ks1 IH]; simpl; [reflexivity|].
  rewrite (key_matches_at_most_once k ks2 Hnd).
  destruct (existsb (key_eqb k) ks2); simpl; lia.
Qed.

Lemma key_pair_count_sym (ks1 ks2 : list Cell) :
  list_sum (map (fun a => List.length (filter (key_eqb a) ks2)) ks1)
  = list_sum (map (fun b => List.length (filter (key_eqb b) ks1)) ks2).
Proof.
  revert ks2. induction ks1 as [|k ks1 IH]; intros ks2; simpl.
  - induction ks2 as [|k2 ks2 IH2]; simpl; [reflexivity | exact IH2].
  - rewrite IH. clear IH.
    induction ks2 as [|k2 ks2 IH2]; simpl; [reflexivity|].
    rewrite (key_eqb_sym k2 k).
    destruct (key_eqb k k2); simpl; lia.
Qed.

Lemma group_by_count_keys (values : list Cell) :
  map fst (group_by_count values) = nodup Cell_eq_dec values.
Proof.
  unfold group_by_count. rewrite map_map. simpl. apply map_id.
Qed.

(** The three counts of the fingerprint comparison, by distinct
    fingerprints. *)
Lemma compare_fingerprints_counts (df1 df2 : DataFrame) :
  str_in "__fingerprint" (columns df1) = true ->
  str_in "__fingerprint" (columns df2) = true ->
  let k1 := nodup Cell_eq_dec (fingerprint_column df1) in
  let k2 := nodup Cell_eq_dec (fingerprint_column df2) in
  exists r,
    compare_fingerprints df1 df2 = Ok r /\
    common_fingerprints r
    = list_sum (map (fun a => List.length (filter (key_eqb a) k2)) k1) /\
    only_in_dataset1 r
    = List.length (filter (fun a => negb (existsb (key_eqb a) k2)) k1) /\
    only_in_dataset2 r
    = List.length (filter (fun a => negb (existsb (key_eqb a) k1)) k2) /\
    total_dataset1 r = count df1 /\ total_dataset2 r = count df2 /\
    fingerprints_match r
    = ((only_in_dataset1 r =? 0) && (only_in_dataset2 r =? 0)).
Proof.
  intros H1 H2 k1 k2. unfold compare_fingerprints. rewrite H1, H2. simpl.
  eexists. split; [reflexivity|]. simpl.
  rewrite inner_join_length_keys, !left_anti_join_length_keys.
  rewrite !group_by_count_keys. repeat split.
Qed.

(** Every distinct fingerprint of a side is either common or one-sided:
    [common_fingerprints + only_in_dataset1] is the number of distinct
    fingerprints of the first frame, and likewise for the second. *)
Theorem compare_fingerprints_partitions_distinct (df1 df2 : DataFrame) :
  str_in "__fingerprint" (columns df1) = true ->
  str_in "__fingerprint" (columns df2) = true ->
  exists r,
    compare_fingerprints df1 df2 = Ok r /\
    common_fingerprints r + only_in_dataset1 r
    = List.length (nodup Cell_eq_dec (fingerprint_column df1)) /\
    common_fingerprints r + only_in_dataset2 r
    = List.length (nodup Cell_eq_dec (fingerprint_column df2)).
Proof.
  intros H1 H2.
  destruct (compare_fingerprints_counts df1 df2 H1 H2)
    as (r & Hok & Hc & Ho1 & Ho2 & _).
  exists r. split; [exact Hok|]. split.
  - rewrite Hc, Ho1. apply matched_or_alone_keys, NoDup_nodup.
  - rewrite Hc, Ho2, key_pair_count_sym.
    apply matched_or_alone_keys, NoDup_nodup.
Qed.

Lemma compare_fingerprints_partitions_distinct_witness :
  exists r,
    compare_fingerprints Examples.fingerprinted1 Examples.fingerprinted2 = Ok r /\
    common_fingerprints r + only_in_dataset1 r = 2.
Proof.
  destruct (compare_fingerprints_partitions_distinct
              Examples.fingerprinted1 Examples.fingerprinted2 eq_refl eq_refl)
    as (r & Hok & H1 & _).
  exists r. split; [exact Hok | exact H1].
Defined.

(** The comparison sees which fingerprints occur, not how often: two
    frames with the same set of fingerprints are interchangeable, so a
    duplicated or a dropped copy of a row goes unnoticed in the three
    counts and in [fingerprints_match]. *)
Theorem compare_fingerprints_ignores_repetition (df1 df1' df2 df2' : DataFrame) :
  str_in "__fingerprint" (columns df1) = true ->
  str_in "__fingerprint" (columns df1') = true ->
  str_in "__fingerprint" (columns df2) = true ->
  str_in "__fingerprint" (columns df2') = true ->
  (forall x, In x (fingerprint_column df1) <-> In x (fingerprint_column df1')) ->
  (forall x, In x (fingerprint_column df2) <-> In x (fingerprint_column df2')) ->
  exists r r',
    compare_fingerprints df1 df2 = Ok r /\
    compare_fingerprints df1' df2' = Ok r' /\
    common_fingerprints r' = common_fingerprints r /\
    only_in_dataset1 r' = only_in_dataset1 r /\
    only_in_dataset2 r' = only_in_dataset2 r /\
    fingerprints_match r' = fingerprints_match r.
Proof.
  intros H1 H1' H2 H2' Hs1 Hs2.
  destruct (compare_fingerprints_counts df1 df2 H1 H2)
    as (r & Hok & Hc & Ho1 & Ho2 & _ & _ & Hm).
  destruct (compare_fingerprints_counts df1' df2' H1' H2')
    as (r' & Hok' & Hc' & Ho1' & Ho2' & _ & _ & Hm').
  exists r, r'. split; [exact Hok|]. split; [exact Hok'|].
  assert (P1 : Permutation (nodup Cell_eq_dec (fingerprint_column df1'))
                           (nodup Cell_eq_dec (fingerprint_column df1))).
  { apply NoDup_Permutation; try apply NoDup_nodup.
    intros x. rewrite !nodup_In. symmetry. apply Hs1. }
  assert (P2 : Permutation (nodup Cell_eq_dec (fingerprint_column df2'))
                           (nodup Cell_eq_dec (fingerprint_column df2))).
  { apply NoDup_Permutation; try apply NoDup_nodup.
    intros x. rewrite !nodup_In. symmetry. apply Hs2. }
  assert (Ec : common_fingerprints r' = common_fingerprints r).
  { rewrite Hc, Hc'.
    rewrite (map_ext _ (fun a => List.length
                                   (filter (key_eqb a)
                                           (nodup Cell_eq_dec
                                                  (fingerprint_column df2)))))
      by (intros a; now apply Permutation_filter_length).
    apply Permutation_list_sum, Permutation_map, P1. }
  assert (E1 : only_in_dataset1 r' = only_in_dataset1 r).
  { rewrite Ho1, Ho1'.
    rewrite (filter_ext _ (fun a => negb (existsb (key_eqb a)
                                           (nodup Cell_eq_dec
                                                  (fingerprint_column df2)))))
      by (intros a; f_equal; now apply existsb_perm).
    now apply Permutation_filter_length. }
  assert (E2 : only_in_dataset2 r' = only_in_dataset2 r).
  { rewrite Ho2, Ho2'.
    rewrite (filter_ext _ (fun a => negb (existsb (key_eqb a)
                                           (nodup Cell_eq_dec
                                                  (fingerprint_column df1)))))
      by (intros a; f_equal; now apply existsb_perm).
    now apply Permutation_filter_length. }
  repeat split; try assumption.
  rewrite Hm, Hm', E1, E2. reflexivity.
Qed.

Lemma compare_fingerprints_ignores_repetition_witness :
  exists r r',
    compare_fingerprints Examples.fingerprinted1 Examples.fingerprinted2 = Ok r /\
    compare_fingerprints fingerprinted1_once Examples.fingerprinted2 = Ok r' /\
    common_fingerprints r' = common_fingerprints r.
Proof.
  destruct (compare_fingerprints_ignores_repetition
              Examples.fingerprinted1 fingerprinted1_once
              Examples.fingerprinted2 Examples.fingerprinted2
              eq_refl eq_refl eq_refl eq_refl)
    as (r & r' & Hok & Hok' & Hc & _).
  - intros x. vm_compute. tauto.
  - intros x. tauto.
  - exists r, r'. repeat split; assumption.
Defined.

(** ** Fingerprints: what is hashed *)

Lemma index_of_Some (c : string) (names : list string) (i : nat) :
  index_of c names = Some i -> nth_error names i = Some c.
Proof.
  revert i. induction names as [|n names IH]; intros i; simpl; [discriminate|].
  destruct (String.eqb_spec c n) as [->|Hne].
  - intros [= <-]. reflexivity.
  - destruct (index_of c names) as [j|]; simpl; [|discriminate].
    intros [= <-]. simpl. now apply IH.
Qed.

Lemma str_in_index_of (c : string) (names : list string) :
  str_in c names = true -> exists i, index_of c names = Some i.
Proof.
  induction names as [|n names IH]; simpl; [discriminate|].
  destruct (String.eqb_spec c n) as [->|Hne]; [intros _; now exists 0|].
  simpl. intros H. destruct (IH H) as (i & ->). now exists (S i).
Qed.

Lemma index_of_None (c : string) (names : list string) :
  index_of c names = None -> str_in c names = false.
Proof.
  induction names as [|n names IH]; simpl; [reflexivity|].
  destruct (String.eqb_spec c n) as [->|Hne]; [discriminate|].
  destruct (index_of c names); simpl; [discriminate | intros _; now apply IH].
Qed.

Lemma index_of_snoc (c : string) (names : list string) :
  index_of c names = None ->
  index_of c (names ++ [c]) = Some (List.length names).
Proof.
  induction names as [|n names IH]; simpl.
  - now rewrite String.eqb_refl.
  - destruct (String.eqb_spec c n) as [->|Hne]; [discriminate|].
    destruct (index_of c names); [discriminate|].
    intros _. now rewrite IH.
Qed.

Lemma set_nth_length {A : Type} (i : nat) (x : A) (l : list A) :
  List.length (set_nth i x l) = List.length l.
Proof.
  revert i. induction l as [|y l IH]; intros [|i]; simpl; trivial.
  now rewrite IH.
Qed.

Lemma nth_set_nth_same {A : Type} (i : nat) (x d : A) (l : list A) :
  i < List.length l -> nth i (set_nth i x l) d = x.
Proof.
  revert i. induction l as [|y l IH]; intros [|i]; simpl; try lia; trivial.
  intros H. apply IH. lia.
Qed.

Lemma nth_set_nth_other {A : Type} (i j : nat) (x d : A) (l : list A) :
  i <> j -> nth j (set_nth i x l) d = nth j l d.
Proof.
  revert i j. induction l as [|y l IH]; intros [|i] [|j] H; simpl; trivial;
    try lia.
  apply IH. lia.
Qed.

Lemma set_nth_same_value {A : Type} (i : nat) (x : A) (l : list A) :
  nth_error l i = Some x -> set_nth i x l = l.
Proof.
  revert i. induction l as [|y l IH]; intros [|i]; simpl; trivial.
  - intros [= ->]. reflexivity.
  - intros H. now rewrite IH.
Qed.

Lemma map_set_nth {A B : Type} (f : A -> B) (i : nat) (x : A) (l : list A) :
  map f (set_nth i x l) = set_nth i (f x) (map f l).
Proof.
  revert i. induction l as [|y l IH]; intros [|i]; simpl; trivial.
  now rewrite IH.
Qed.

(** Rewriting a column that exists keeps the column names and the shape
    of the rows. *)
Lemma withColumn_replace (df : DataFrame) (c : string) (ty : DataType)
      (e : list string -> Row -> Cell) (i : nat) :
  index_of c (columns df) = Some i ->
  columns (withColumn df c ty e) = columns df /\
  rows (withColumn df c ty e)
  = map (fun r => set_nth i (e (columns df) r) r) (rows df) /\
  (well_formed df -> well_formed (withColumn df c ty e)).
Proof.
  intros Hi. unfold withColumn. rewrite Hi. simpl.
  assert (Hcols : columns (mkDF (set_nth i (mkField c ty) (schema df))
                                (map (fun r => set_nth i (e (columns df) r) r)
                                     (rows df)))
                  = columns df).
  { unfold columns. simpl. rewrite map_set_nth. simpl.
    apply set_nth_same_value. now apply index_of_Some. }
  split; [exact Hcols|]. split; [reflexivity|].
  intros Hwf r Hr. simpl in Hr. apply in_map_iff in Hr.
  destruct Hr as (r0 & <- & Hr0). simpl.
  rewrite !set_nth_length. now apply Hwf.
Qed.

(** The cell of a column that has just been written. *)
Lemma cell_at_withColumn (df : DataFrame) (c : string) (ty : DataType)
      (e : list string -> Row -> Cell) :
  well_formed df ->
  str_in c (columns (withColumn df c ty e)) = true /\
  map (fun r => cell_at (columns (withColumn df c ty e)) r c)
      (rows (withColumn df c ty e))
  = map (e (columns df)) (rows df).
Proof.
  intros Hwf. destruct (index_of c (columns df)) as [i|] eqn:Hi.
  - destruct (withColumn_replace df c ty e i Hi) as (Hcols & Hrows & _).
    rewrite Hcols, Hrows, map_map.
    assert (Hlt : i < List.length (columns df))
      by (apply nth_error_Some; rewrite (index_of_Some _ _ _ Hi); discriminate).
    split.
    + apply existsb_exists. exists c. split; [|apply String.eqb_refl].
      apply nth_error_In with i. now apply index_of_Some.
    + apply map_ext_in. intros r Hr. unfold cell_at. rewrite Hi.
      apply nth_set_nth_same. rewrite (Hwf r Hr).
      unfold columns in Hlt. now rewrite length_map in Hlt.
  - unfold withColumn. rewrite Hi. unfold columns at 1 3. simpl.
    rewrite map_app. simpl. fold (columns df). split.
    + unfold str_in. rewrite existsb_app. simpl.
      rewrite String.eqb_refl. apply orb_true_r.
    + rewrite map_map. apply map_ext_in. intros r Hr.
      unfold cell_at. rewrite (index_of_snoc _ _ Hi).
      unfold columns. rewrite length_map, <- (Hwf r Hr).
      rewrite app_nth2 by lia. now rewrite Nat.sub_diag.
Qed.

Lemma drop_nulls_map_Some (l : list string) : drop_nulls (map Some l) = l.
Proof. induction l as [|s l IH]; simpl; [reflexivity | now rewrite IH]. Qed.

Lemma wf_row_length (df : DataFrame) (r : Row) :
  well_formed df -> In r (rows df) ->
  List.length r = List.length (columns df).
Proof.
  intros Hwf Hr. unfold columns. rewrite length_map. now apply Hwf.
Qed.

Lemma index_of_inj (names : list string) (c c' : string) (i : nat) :
  index_of c names = Some i -> index_of c' names = Some i -> c = c'.
Proof.
  intros H H'. apply index_of_Some in H, H'. congruence.
Qed.

Lemma five_well_formed : well_formed Examples.five.
Proof.
  intros r Hr. simpl in Hr.
  repeat (destruct Hr as [<-|Hr]; [reflexivity|]). contradiction.
Qed.

Lemma hash_cell_not_null (H : HashFunctions) (algorithm s : string) :
  hash_cell H algorithm s <> CNull.
Proof.
  unfold hash_cell.
  destruct (String.eqb algorithm "md5"); [discriminate|].
  destruct (String.eqb algorithm "sha256"); discriminate.
Qed.

Lemma all_keys_found (k1 k2 : list Cell) :
  (forall a, In a k1 -> In a k2 /\ a <> CNull) ->
  List.length (filter (fun a => negb (existsb (key_eqb a) k2)) k1) = 0.
Proof.
  intros Hall. rewrite filter_none; [reflexivity|].
  intros a Ha. destruct (Hall a Ha) as (Hin & Hn).
  apply negb_false_iff, existsb_exists. exists a. split; [exact Hin|].
  apply key_eqb_true. now split.
Qed.

(** *** Resolving names *)

Lemma nodup_singleton (l : list nat) (i : nat) :
  NoDup l -> (forall j, In j l <-> j = i) -> l = [i].
Proof.
  intros Hnd Hin. destruct l as [|a l].
  - exfalso. apply (proj2 (Hin i) eq_refl).
  - assert (a = i) by (apply Hin; now left). subst a.
    destruct l as [|b l]; [reflexivity|].
    assert (b = i) by (apply Hin; right; now left). subst b.
    inversion Hnd as [|? ? Hni _]. exfalso. apply Hni. now left.
Qed.

Lemma In_matching_positions (H : HashFunctions) (c : string)
      (names : list string) (i : nat) :
  In i (matching_positions H c names)
  <-> i < List.length names /\ same_name H c (nth i names EmptyString) = true.
Proof.
  unfold matching_positions. rewrite filter_In, in_seq. intuition lia.
Qed.

Lemma NoDup_matching_positions (H : HashFunctions) (c : string)
      (names : list string) :
  NoDup (matching_positions H c names).
Proof. apply NoDup_filter, seq_NoDup. Qed.

(** What a successful resolution says. *)
Lemma resolve_Ok (H : HashFunctions) (c : string) (names : list string)
      (i : nat) :
  resolve H c names = Ok i <-> matching_positions H c names = [i].
Proof.
  unfold resolve. destruct (matching_positions H c names) as [|a [|b l]];
    split; intros E; try discriminate; congruence.
Qed.

Lemma resolve_position (H : HashFunctions) (c : string) (names : list string)
      (i : nat) :
  resolve H c names = Ok i ->
  i < List.length names /\ same_name H c (nth i names EmptyString) = true
  /\ forall j, j < List.length names ->
               same_name H c (nth j names EmptyString) = true -> j = i.
Proof.
  intros E. apply resolve_Ok in E.
  assert (Hin : forall j, In j (matching_positions H c names) <-> j = i).
  { intros j. rewrite E. simpl. intuition. }
  destruct (proj1 (In_matching_positions H c names i) (proj2 (Hin i) eq_refl))
    as (Hlt & Hs).
  split; [exact Hlt|]. split; [exact Hs|].
  intros j Hj Hsj. apply Hin. apply In_matching_positions. now split.
Qed.

Lemma resolve_unique (H : HashFunctions) (c : string) (names : list string)
      (i : nat) :
  i < List.length names ->
  same_name H c (nth i names EmptyString) = true ->
  (forall j, j < List.length names ->
             same_name H c (nth j names EmptyString) = true -> j = i) ->
  resolve H c names = Ok i.
Proof.
  intros Hlt Hs Hu. apply resolve_Ok. apply nodup_singleton.
  - apply NoDup_matching_positions.
  - intros j. rewrite In_matching_positions. split.
    + intros (Hj & Hsj). now apply Hu.
    + intros ->. now split.
Qed.

Lemma Forall2_nth_same_name (H : HashFunctions) (names' names : list string) :
  Forall2 (fun a b => same_name H a b = true) names' names ->
  forall j, j < List.length names ->
            same_name H (nth j names' EmptyString) (nth j names EmptyString)
            = true.
Proof.
  induction 1 as [|a b l' l Hab _ IH]; intros [|j] Hj; simpl in *; try lia.
  - exact Hab.
  - apply IH. lia.
Qed.

(** Names that the resolver takes for the same, position by position,
    resolve alike. *)
Lemma matching_positions_equiv (H : HashFunctions) (c : string)
      (names' names : list string) :
  resolver_laws H ->
  Forall2 (fun a b => same_name H a b = true) names' names ->
  matching_positions H c names' = matching_positions H c names.
Proof.
  intros (_ & Hsym & Htrans) Heq. unfold matching_positions.
  rewrite (Forall2_length Heq). apply filter_ext_in.
  intros j Hj. apply in_seq in Hj.
  pose proof (Forall2_nth_same_name H names' names Heq j ltac:(lia)) as Hj'.
  destruct (same_name H c (nth j names' EmptyString)) eqn:E1,
           (same_name H c (nth j names EmptyString)) eqn:E2; trivial.
  - rewrite (Htrans _ _ _ E1 Hj') in E2. discriminate.
  - rewrite (Htrans _ _ _ E2 (Hsym _ _ Hj')) in E1. discriminate.
Qed.

Lemma resolve_equiv (H : HashFunctions) (c : string)
      (names' names : list string) :
  resolver_laws H ->
  Forall2 (fun a b => same_name H a b = true) names' names ->
  resolve H c names' = resolve H c names.
Proof.
  intros Hl Heq. unfold resolve.
  now rewrite (matching_positions_equiv H c names' names Hl Heq).
Qed.

Lemma resolve_all_equiv (H : HashFunctions) (cols names' names : list string) :
  resolver_laws H ->
  Forall2 (fun a b => same_name H a b = true) names' names ->
  resolve_all H cols names' = resolve_all H cols names.
Proof.
  intros Hl Heq. induction cols as [|c cols IH]; simpl; [reflexivity|].
  now rewrite (resolve_equiv H c names' names Hl Heq), IH.
Qed.

Lemma same_name_refl_list (H : HashFunctions) (names : list string) :
  resolver_laws H ->
  Forall2 (fun a b => same_name H a b = true) names names.
Proof.
  intros (Hrefl & _). induction names; constructor; auto.
Qed.

Lemma same_name_trans_list (H : HashFunctions) (l1 l2 l3 : list string) :
  resolver_laws H ->
  Forall2 (fun a b => same_name H a b = true) l1 l2 ->
  Forall2 (fun a b => same_name H a b = true) l2 l3 ->
  Forall2 (fun a b => same_name H a b = true) l1 l3.
Proof.
  intros (_ & _ & Htrans) H12. revert l3.
  induction H12 as [|a b l1 l2 Hab _ IH]; intros l3 H23; inversion H23; subst.
  - constructor.
  - constructor; [eapply Htrans; eassumption | now apply IH].
Qed.

(** Renaming a column to a name of its own class. *)
Lemma same_name_set_nth (H : HashFunctions) (names : list string)
      (i : nat) (c : string) :
  resolver_laws H ->
  same_name H c (nth i names EmptyString) = true ->
  Forall2 (fun a b => same_name H a b = true) (set_nth i c names) names.
Proof.
  intros Hl. revert i. induction names as [|n names IH]; intros [|i] Hs;
    simpl in *; try constructor; trivial.
  - now apply same_name_refl_list.
  - apply (proj1 Hl).
  - now apply IH.
Qed.

Lemma resolve_all_positions (H : HashFunctions) (cols names : list string)
      (positions : list nat) :
  resolve_all H cols names = Ok positions ->
  Forall2 (fun c i => resolve H c names = Ok i) cols positions.
Proof.
  revert positions. induction cols as [|c cols IH]; intros positions; simpl.
  - intros [= <-]. constructor.
  - destruct (resolve H c names) as [i|e] eqn:Ei; [|discriminate].
    destruct (resolve_all H cols names) as [ps|e] eqn:Eps; [|discriminate].
    intros [= <-]. constructor; [exact Ei | now apply IH].
Qed.

Lemma resolve_all_bound (H : HashFunctions) (cols names : list string)
      (positions : list nat) :
  resolve_all H cols names = Ok positions ->
  forall i, In i positions -> i < List.length names.
Proof.
  intros E. apply resolve_all_positions in E.
  induction E as [|c i cols ps Hc _ IH]; intros j [].
  - subst j. now apply resolve_position in Hc.
  - now apply IH.
Qed.

(** *** The loop over the chosen columns *)

Lemma null_safe_string_text (H : HashFunctions) (ty : DataType) (v : Cell) :
  null_safe_string H ty v = CVal (null_safe_text H ty v).
Proof.
  destruct v; simpl; trivial.
  destruct (DataType_eq_dec ty StringType); [|reflexivity].
  now destruct (nan_text H s).
Qed.

Lemma columns_set_nth (df : DataFrame) (i : nat) (c : string) (ty : DataType)
      (rs : list Row) :
  columns (mkDF (set_nth i (mkField c ty) (schema df)) rs)
  = set_nth i c (columns df).
Proof. unfold columns. simpl. now rewrite map_set_nth. Qed.

Lemma type_at_set_nth_other (df : DataFrame) (i j : nat) (field : StructField)
      (rs : list Row) :
  i <> j ->
  type_at (mkDF (set_nth i field (schema df)) rs) j = type_at df j.
Proof.
  intros Hne. unfold type_at. simpl. now rewrite nth_set_nth_other.
Qed.

Lemma process_row_ext (H : HashFunctions) (df1 df : DataFrame)
      (positions : list nat) (r : Row) :
  (forall i, In i positions -> type_at df1 i = type_at df i) ->
  process_row H df1 positions r = process_row H df positions r.
Proof.
  unfold process_row. revert r.
  induction positions as [|p ps IH]; intros r Hty; simpl; [reflexivity|].
  rewrite (Hty p) by now left. apply IH. intros i Hi. apply Hty. now right.
Qed.

Lemma process_row_length (H : HashFunctions) (df : DataFrame)
      (positions : list nat) (r : Row) :
  List.length (process_row H df positions r) = List.length r.
Proof.
  unfold process_row. revert r.
  induction positions as [|p ps IH]; intros r; simpl; [reflexivity|].
  now rewrite IH, set_nth_length.
Qed.

(** One turn of the loop on a column that resolves and has a type that
    [isnan] accepts. *)
Lemma process_column_Ok (H : HashFunctions) (df : DataFrame) (c : string)
      (i : nat) :
  resolve H c (columns df) = Ok i ->
  isnan_accepts (type_at df i) = true ->
  process_column H df c
  = Ok (mkDF (set_nth i (mkField c StringType) (schema df))
             (map (fun r => set_nth i (null_safe_string H (type_at df i)
                                                        (nth i r CNull)) r)
                  (rows df))).
Proof.
  intros Hi Hty. unfold process_column. now rewrite Hi, Hty.
Qed.

(** The whole loop, on columns that resolve to different positions. *)
Lemma process_columns_rows (H : HashFunctions) :
  resolver_laws H ->
  forall (cols : list string) (df : DataFrame) (positions : list nat),
    resolve_all H cols (columns df) = Ok positions ->
    NoDup positions ->
    (forall i, In i positions -> isnan_accepts (type_at df i) = true) ->
    well_formed df ->
    exists df',
      process_columns H df cols = Ok df' /\
      Forall2 (fun a b => same_name H a b = true) (columns df') (columns df) /\
      well_formed df' /\
      (forall j, ~ In j positions -> type_at df' j = type_at df j) /\
      rows df' = map (process_row H df positions) (rows df).
Proof.
  intros Hl. induction cols as [|c cols IH]; intros df positions Hres Hnd Hty Hwf.
  - simpl in Hres. injection Hres as <-. exists df. simpl.
    split; [reflexivity|]. split; [now apply same_name_refl_list|].
    split; [exact Hwf|]. split; [reflexivity|].
    unfold process_row. simpl. now rewrite map_id.
  - simpl in Hres.
    destruct (resolve H c (columns df)) as [i|e] eqn:Ei; [|discriminate].
    destruct (resolve_all H cols (columns df)) as [ps|e] eqn:Eps; [|discriminate].
    injection Hres as <-.
    inversion Hnd as [|? ? Hni Hnd']; subst.
    destruct (resolve_position H c (columns df) i Ei) as (Hlt & Hsame & _).
    set (df1 := mkDF (set_nth i (mkField c StringType) (schema df))
                     (map (fun r => set_nth i (null_safe_string
                                                 H (type_at df i) (nth i r CNull)) r)
                          (rows df))).
    assert (Hnames : Forall2 (fun a b => same_name H a b = true)
                             (columns df1) (columns df)).
    { unfold df1. rewrite columns_set_nth. now apply same_name_set_nth. }
    assert (Hty1 : forall j, j <> i -> type_at df1 j = type_at df j).
    { intros j Hj. unfold df1. apply type_at_set_nth_other. congruence. }
    destruct (IH df1 ps) as (df' & Hok & Hn' & Hwf' & Hty' & Hrows').
    + now rewrite (resolve_all_equiv H cols _ _ Hl Hnames).
    + exact Hnd'.
    + intros j Hj. rewrite Hty1 by (intros ->; contradiction).
      apply Hty. now right.
    + intros r Hr. unfold df1 in Hr |- *. simpl in Hr |- *.
      apply in_map_iff in Hr. destruct Hr as (r0 & <- & Hr0).
      rewrite !set_nth_length. now apply Hwf.
    + exists df'. simpl.
      rewrite (process_column_Ok H df c i Ei (Hty i (or_introl eq_refl))).
      fold df1. split; [exact Hok|].
      split; [now apply (same_name_trans_list H _ (columns df1))|].
      split; [exact Hwf'|]. split.
      * intros j Hj. rewrite Hty' by (intros C; apply Hj; now right).
        apply Hty1. intros ->. apply Hj. now left.
      * rewrite Hrows'. unfold df1 at 2. simpl. rewrite map_map.
        apply map_ext. intros r.
        rewrite (process_row_ext H df1 df ps)
          by (intros j Hj; apply Hty1; intros ->; contradiction).
        reflexivity.
Qed.

(** After the loop a chosen position holds the text of its cell. *)
Lemma nth_process_row_other (H : HashFunctions) (df : DataFrame)
      (positions : list nat) (r : Row) (i : nat) :
  ~ In i positions ->
  nth i (process_row H df positions r) CNull = nth i r CNull.
Proof.
  unfold process_row. revert r.
  induction positions as [|p ps IH]; intros r Hni; simpl; [reflexivity|].
  rewrite IH by (intros C; apply Hni; now right).
  apply nth_set_nth_other. intros ->. apply Hni. now left.
Qed.

Lemma nth_process_row (H : HashFunctions) (df : DataFrame)
      (positions : list nat) (r : Row) (i : nat) :
  NoDup positions -> In i positions -> i < List.length r ->
  nth i (process_row H df positions r) CNull
  = null_safe_string H (type_at df i) (nth i r CNull).
Proof.
  revert r. induction positions as [|p ps IH]; intros r Hnd Hin Hlt;
    [contradiction|].
  inversion Hnd as [|? ? Hni Hnd']; subst.
  change (process_row H df (p :: ps) r)
    with (process_row H df ps
            (set_nth p (null_safe_string H (type_at df p) (nth p r CNull)) r)).
  destruct (Nat.eq_dec i p) as [->|Hne].
  - rewrite nth_process_row_other by exact Hni.
    now apply nth_set_nth_same.
  - destruct Hin as [->|Hin]; [contradiction|].
    rewrite IH by (trivial; now rewrite set_nth_length).
    rewrite nth_set_nth_other by congruence. reflexivity.
Qed.

(** The string hashed for a processed row is the canonical string of the
    row as it was. *)
Lemma canonical_of_processed (H : HashFunctions) (df : DataFrame)
      (positions : list nat) (r : Row) :
  NoDup positions ->
  (forall i, In i positions -> i < List.length r) ->
  concat_ws "|" (map (fun i => cast_string
                                 (nth i (process_row H df positions r) CNull))
                     positions)
  = canonical_string H df positions r.
Proof.
  intros Hnd Hlt. unfold concat_ws, canonical_string. f_equal.
  rewrite <- (drop_nulls_map_Some
                (map (fun i => null_safe_text H (type_at df i) (nth i r CNull))
                     positions)).
  f_equal. rewrite map_map. apply map_ext_in. intros i Hi.
  rewrite nth_process_row by (trivial; now apply Hlt).
  now rewrite null_safe_string_text.
Qed.

(** *** What is hashed *)

(** Writing the fingerprint column over the processed frame. *)
Lemma fingerprint_of_processed (H : HashFunctions) (df df' : DataFrame)
      (cols : list string) (positions : list nat)
      (ty : DataType) (h : string -> Cell) :
  resolver_laws H ->
  well_formed df ->
  resolve_all H cols (columns df) = Ok positions ->
  NoDup positions ->
  Forall2 (fun a b => same_name H a b = true) (columns df') (columns df) ->
  well_formed df' ->
  rows df' = map (process_row H df positions) (rows df) ->
  exists fp,
    with_fingerprint H df' cols ty h = Ok fp /\
    str_in "__fingerprint" (columns fp) = true /\
    fingerprint_column fp
    = map (fun r => h (canonical_string H df positions r)) (rows df).
Proof.
  intros Hl Hwf Hres Hnd Hnames Hwf' Hrows. unfold with_fingerprint.
  rewrite (resolve_all_equiv H cols _ _ Hl Hnames), Hres.
  eexists. split; [reflexivity|].
  set (e := fun (_ : list string) (r : Row) =>
              h (concat_ws "|" (map (fun i => cast_string (nth i r CNull))
                                    positions))).
  destruct (cell_at_withColumn df' "__fingerprint" ty e Hwf') as (Hstr & Hmap).
  split; [exact Hstr|].
  unfold fingerprint_column. rewrite Hmap, Hrows, map_map.
  apply map_ext_in. intros r Hr. unfold e. f_equal.
  apply canonical_of_processed; [exact Hnd|].
  intros i Hi. rewrite (wf_row_length df r Hwf Hr).
  now apply (resolve_all_bound H cols (columns df) positions Hres).
Qed.

(** What fingerprinting computes, for any choice of columns. *)
Lemma fingerprint_values
      (H : HashFunctions) (df : DataFrame)
      (columns_arg : option (list string)) (algorithm : string)
      (positions : list nat) :
  resolver_laws H ->
  well_formed df ->
  resolve_all H (fingerprint_columns_of df columns_arg) (columns df)
  = Ok positions ->
  NoDup positions ->
  (forall i, In i positions -> isnan_accepts (type_at df i) = true) ->
  algorithm = "md5" \/ algorithm = "sha256" \/ algorithm = "xxhash" ->
  exists fp,
    create_data_fingerprint H df columns_arg algorithm = Ok fp /\
    str_in "__fingerprint" (columns fp) = true /\
    fingerprint_column fp
    = map (fun r => hash_cell H algorithm (canonical_string H df positions r))
          (rows df).
Proof.
  intros Hl Hwf Hres Hnd Hty Halg. unfold create_data_fingerprint.
  fold (fingerprint_columns_of df columns_arg).
  set (cols := fingerprint_columns_of df columns_arg) in *.
  destruct (process_columns_rows H Hl cols df positions Hres Hnd Hty Hwf)
    as (df' & Hok & Hnames & Hwf' & _ & Hrows).
  rewrite Hok. unfold hash_cell.
  destruct Halg as [->|[->| ->]]; simpl.
  - apply (fingerprint_of_processed H df df' cols positions StringType
                                    (fun s => CVal (md5 H s))); assumption.
  - apply (fingerprint_of_processed H df df' cols positions StringType
                                    (fun s => CVal (sha2_256 H s))); assumption.
  - apply (fingerprint_of_processed H df df' cols positions IntegerType
                                    (fun s => CLong (spark_hash H s))); assumption.
Qed.

(** On a frame whose rows fit its schema, with chosen names that each
    resolve to one column, no column chosen twice, every chosen column of
    a type that [isnan] accepts, and a known algorithm, fingerprinting
    succeeds; the fingerprint of a row is the hash of the texts of the
    chosen cells joined by [|], where a null reads [__NULL__] and a
    not-a-number (in a string column: a text that casts to it) reads
    [__NAN__], so that no cell is skipped. *)
Theorem create_data_fingerprint_hashes_canonical_string
        (H : HashFunctions) (df : DataFrame)
        (columns_arg : option (list string)) (algorithm : string)
        (positions : list nat) :
  resolver_laws H ->
  well_formed df ->
  resolve_all H (fingerprint_columns_of df columns_arg) (columns df)
  = Ok positions ->
  NoDup positions ->
  (forall i, In i positions -> isnan_accepts (type_at df i) = true) ->
  algorithm = "md5" \/ algorithm = "sha256" \/ algorithm = "xxhash" ->
  exists fp,
    create_data_fingerprint H df columns_arg algorithm = Ok fp /\
    str_in "__fingerprint" (columns fp) = true /\
    fingerprint_column fp
    = map (fun r => hash_cell H algorithm (canonical_string H df positions r))
          (rows df).
Proof. apply fingerprint_values. Qed.

(** Equality up to case is an equivalence. *)
Lemma marking_hashes_laws : resolver_laws Examples.marking_hashes.
Proof.
  unfold resolver_laws. simpl. unfold Examples.equals_ignore_case.
  split; [|split].
  - intros a. apply String.eqb_refl.
  - intros a b E. apply String.eqb_eq in E. apply String.eqb_eq. congruence.
  - intros a b c E1 E2. apply String.eqb_eq in E1, E2. apply String.eqb_eq.
    congruence.
Qed.

(** A frame with a text that reads as the not-a-number, a null and a
    number in a string column and the three in a column of doubles. *)
Lemma create_data_fingerprint_hashes_canonical_string_witness :
  exists fp,
    create_data_fingerprint Examples.marking_hashes texts_and_doubles
                            (Some ["S"; "x"]) "md5"
    = Ok fp /\
    fingerprint_column fp
    = [CVal "md5:__NAN__|__NAN__"; CVal "md5:__NULL__|__NULL__";
       CVal "md5:1.5|1.5"].
Proof.
  destruct (create_data_fingerprint_hashes_canonical_string
              Examples.marking_hashes texts_and_doubles
              (Some ["S"; "x"]) "md5" [0; 1]
              marking_hashes_laws)
    as (fp & Hok & _ & Hfp).
  - intros r Hr. simpl in Hr.
    repeat (destruct Hr as [<-|Hr]; [reflexivity|]). contradiction.
  - reflexivity.
  - repeat constructor; simpl; intuition discriminate.
  - intros i [<-|[<-|[]]]; reflexivity.
  - now left.
  - exists fp. split; [exact Hok|]. rewrite Hfp. reflexivity.
Defined.

(** *** How fingerprinting fails *)

Lemma process_columns_app (H : HashFunctions) (df : DataFrame)
      (l1 l2 : list string) :
  process_columns H df (l1 ++ l2)
  = match process_columns H df l1 with
    | Ok df' => process_columns H df' l2
    | Raise e => Raise e
    end.
Proof.
  revert df. induction l1 as [|c l1 IH]; intros df; simpl; [reflexivity|].
  destruct (process_column H df c); [apply IH | reflexivity].
Qed.

(** Fingerprinting fails in three ways.  After chosen columns that were
    accepted, the first name that matches no column, or several, raises
    Spark's analysis error, and so does the first column of boolean or
    timestamp type, which [isnan] refuses, both before the algorithm is
    looked at; with every chosen column accepted, an algorithm other than
    md5, sha256 and xxhash raises the [ValueError]. *)
Theorem create_data_fingerprint_errors
        (H : HashFunctions) (df : DataFrame)
        (columns_arg : option (list string)) (algorithm : string)
        (accepted : list string) (positions : list nat) :
  resolver_laws H ->
  well_formed df ->
  resolve_all H accepted (columns df) = Ok positions ->
  NoDup positions ->
  (forall i, In i positions -> isnan_accepts (type_at df i) = true) ->
  (forall c rest,
      fingerprint_columns_of df columns_arg = (accepted ++ c :: rest)%list ->
      (forall e, resolve H c (columns df) = Raise e ->
                 create_data_fingerprint H df columns_arg algorithm = Raise e) /\
      (forall i, resolve H c (columns df) = Ok i ->
                 ~ In i positions ->
                 type_at df i = BooleanType \/ type_at df i = TimestampType ->
                 create_data_fingerprint H df columns_arg algorithm
                 = Raise (AnalysisException
                            ("data type mismatch: isnan(" ++ c ++ ")")))) /\
  (fingerprint_columns_of df columns_arg = accepted ->
   algorithm <> "md5" -> algorithm <> "sha256" -> algorithm <> "xxhash" ->
   create_data_fingerprint H df columns_arg algorithm
   = Raise (ValueError ("Unsupported algorithm: " ++ algorithm))).
Proof.
  intros Hl Hwf Hres Hnd Hty.
  destruct (process_columns_rows H Hl accepted df positions Hres Hnd Hty Hwf)
    as (df' & Hok & Hnames & _ & Hty' & _).
  unfold create_data_fingerprint.
  fold (fingerprint_columns_of df columns_arg). split.
  - intros c rest ->. rewrite process_columns_app, Hok. simpl.
    unfold process_column.
    rewrite (resolve_equiv H c _ _ Hl Hnames). split.
    + intros e ->. reflexivity.
    + intros i -> Hni Hbad. cbv zeta. rewrite (Hty' i Hni).
      destruct Hbad as [-> | ->]; reflexivity.
  - intros -> N1 N2 N3. rewrite Hok.
    destruct (String.eqb_spec algorithm "md5"); [contradiction|].
    destruct (String.eqb_spec algorithm "sha256"); [contradiction|].
    destruct (String.eqb_spec algorithm "xxhash"); [contradiction|].
    reflexivity.
Qed.

Lemma create_data_fingerprint_errors_witness :
  create_data_fingerprint Examples.marking_hashes with_flag None "md5"
  = Raise (AnalysisException "data type mismatch: isnan(flag)") /\
  create_data_fingerprint Examples.marking_hashes with_flag (Some ["v"]) "sha1"
  = Raise (ValueError "Unsupported algorithm: sha1").
Proof.
  split.
  - destruct (create_data_fingerprint_errors
                Examples.marking_hashes with_flag None "md5" ["v"] [0]
                marking_hashes_laws)
      as (Hfirst & _).
    + intros r Hr. simpl in Hr.
      repeat (destruct Hr as [<-|Hr]; [reflexivity|]). contradiction.
    + reflexivity.
    + repeat constructor; simpl; intuition discriminate.
    + intros i [<-|[]]; reflexivity.
    + apply (proj2 (Hfirst "flag" [] eq_refl) 1).
      * reflexivity.
      * simpl. intuition discriminate.
      * now left.
  - destruct (create_data_fingerprint_errors
                Examples.marking_hashes with_flag (Some ["v"]) "sha1" ["v"] [0]
                marking_hashes_laws)
      as (_ & Halg).
    + intros r Hr. simpl in Hr.
      repeat (destruct Hr as [<-|Hr]; [reflexivity|]). contradiction.
    + reflexivity.
    + repeat constructor; simpl; intuition discriminate.
    + intros i [<-|[]]; reflexivity.
    + apply Halg; [reflexivity | discriminate | discriminate | discriminate].
Defined.

(** *** The default columns *)

Lemma unambiguous_NoDup (H : HashFunctions) (names : list string) :
  resolver_laws H -> unambiguous H names -> NoDup names.
Proof.
  intros (Hrefl & _) Hu. apply (NoDup_nth names EmptyString).
  intros i j Hi Hj E. apply Hu; trivial. rewrite E. apply Hrefl.
Qed.

(** Among unambiguous names a name of the frame resolves to its own
    column. *)
Lemma resolve_own (H : HashFunctions) (names : list string) (c : string)
      (i : nat) :
  resolver_laws H -> unambiguous H names ->
  index_of c names = Some i ->
  resolve H c names = Ok i.
Proof.
  intros (Hrefl & _) Hu Hi. apply index_of_Some in Hi.
  assert (Hlt : i < List.length names)
    by (apply nth_error_Some; rewrite Hi; discriminate).
  pose proof (nth_error_nth names i EmptyString Hi) as Hn.
  apply resolve_unique; trivial.
  - rewrite Hn. apply Hrefl.
  - intros j Hj Hs. symmetry. apply Hu; trivial. now rewrite Hn.
Qed.

Lemma resolve_all_map (H : HashFunctions) (cols names : list string)
      (f : string -> nat) :
  (forall c, In c cols -> resolve H c names = Ok (f c)) ->
  resolve_all H cols names = Ok (map f cols).
Proof.
  induction cols as [|c cols IH]; intros Hres; simpl; [reflexivity|].
  rewrite (Hres c) by now left.
  rewrite IH by (intros c' Hc'; apply Hres; now right). reflexivity.
Qed.

Lemma default_columns_exist (df : DataFrame) (c : string) :
  In c (fingerprint_columns_of df None) ->
  c <> "__row_id" /\
  index_of c (columns df) = Some (position_of (columns df) c).
Proof.
  simpl. intros Hc. apply filter_In in Hc. destruct Hc as (Hc & Hne). split.
  - intros ->. discriminate.
  - assert (Hs : str_in c (columns df) = true)
      by (apply existsb_exists; exists c; split;
          [exact Hc | apply String.eqb_refl]).
    destruct (str_in_index_of c (columns df) Hs) as (i & Hi).
    unfold position_of. now rewrite Hi.
Qed.

Lemma default_resolution (H : HashFunctions) (df : DataFrame) :
  resolver_laws H -> unambiguous H (columns df) ->
  resolve_all H (fingerprint_columns_of df None) (columns df)
  = Ok (default_positions df).
Proof.
  intros Hl Hu. unfold default_positions. apply resolve_all_map.
  intros c Hc. apply resolve_own; trivial.
  apply (default_columns_exist df c Hc).
Qed.

Lemma default_positions_NoDup (H : HashFunctions) (df : DataFrame) :
  resolver_laws H -> unambiguous H (columns df) ->
  NoDup (default_positions df).
Proof.
  intros Hl Hu. unfold default_positions.
  apply NoDup_map_NoDup_ForallPairs.
  - intros c c' Hc Hc' E.
    destruct (default_columns_exist df c Hc) as (_ & Hi).
    destruct (default_columns_exist df c' Hc') as (_ & Hi').
    rewrite <- E in Hi'. exact (index_of_inj _ _ _ _ Hi Hi').
  - simpl. apply NoDup_filter. exact (unambiguous_NoDup H _ Hl Hu).
Qed.

Lemma default_positions_hashable (df : DataFrame) (i : nat) :
  hashable df -> In i (default_positions df) ->
  isnan_accepts (type_at df i) = true.
Proof.
  intros Hh Hi. unfold default_positions in Hi. apply in_map_iff in Hi.
  destruct Hi as (c & <- & Hc).
  destruct (default_columns_exist df c Hc) as (Hne & Hi).
  apply index_of_Some in Hi.
  set (i := position_of (columns df) c) in *.
  unfold columns in Hi. rewrite nth_error_map in Hi.
  destruct (nth_error (schema df) i) as [field|] eqn:Ef; [|discriminate].
  injection Hi as Hname. unfold type_at.
  rewrite (nth_error_nth _ _ _ Ef). apply Hh.
  - now apply nth_error_In in Ef.
  - now rewrite Hname.
Qed.

(** What fingerprinting computes with the default columns. *)
Lemma default_fingerprint_values
      (H : HashFunctions) (df : DataFrame) (algorithm : string) :
  resolver_laws H -> unambiguous H (columns df) ->
  well_formed df -> hashable df ->
  algorithm = "md5" \/ algorithm = "sha256" \/ algorithm = "xxhash" ->
  exists fp,
    create_data_fingerprint H df None algorithm = Ok fp /\
    str_in "__fingerprint" (columns fp) = true /\
    fingerprint_column fp
    = map (fun r => hash_cell H algorithm
                              (canonical_string H df (default_positions df) r))
          (rows df).
Proof.
  intros Hl Hu Hwf Hh Halg. apply fingerprint_values; trivial.
  - now apply default_resolution.
  - now apply (default_positions_NoDup H).
  - intros i Hi. now apply default_positions_hashable.
Qed.

Lemma canonical_string_same_content (H : HashFunctions) (df : DataFrame)
      (r r' : Row) :
  same_content (columns df) r r' ->
  canonical_string H df (default_positions df) r
  = canonical_string H df (default_positions df) r'.
Proof.
  intros Hsame. unfold canonical_string. f_equal.
  apply map_ext_in. intros i Hi. f_equal.
  unfold default_positions in Hi. apply in_map_iff in Hi.
  destruct Hi as (c & <- & Hc).
  destruct (default_columns_exist df c Hc) as (Hne & Hi).
  pose proof (Hsame c Hne) as E. unfold cell_at in E. now rewrite Hi in E.
Qed.

Lemma canonical_string_schema (H : HashFunctions) (df df' : DataFrame)
      (r : Row) :
  schema df' = schema df ->
  canonical_string H df' (default_positions df') r
  = canonical_string H df (default_positions df) r.
Proof.
  intros E.
  unfold canonical_string, default_positions, fingerprint_columns_of,
    type_at, columns.
  now rewrite E.
Qed.

Lemma map_same_content (H : HashFunctions) (df : DataFrame)
      (h : string -> Cell) (l l' : list Row) :
  Forall2 (same_content (columns df)) l l' ->
  map (fun r => h (canonical_string H df (default_positions df) r)) l'
  = map (fun r => h (canonical_string H df (default_positions df) r)) l.
Proof.
  intros Hrows.
  induction Hrows as [|r r' l l' Hr _ IH]; simpl; [reflexivity|].
  rewrite IH. f_equal. f_equal. symmetry.
  now apply canonical_string_same_content.
Qed.

(** With the default columns the fingerprint of a row does not depend on
    its row identifier: two frames over the same schema, with unambiguous
    column names of types that [isnan] accepts, whose rows agree, one by
    one, on every column but [__row_id], get the same fingerprints. *)
Theorem fingerprint_ignores_row_id
        (H : HashFunctions) (df df' : DataFrame) (algorithm : string) :
  resolver_laws H -> unambiguous H (columns df) -> hashable df ->
  well_formed df -> well_formed df' ->
  schema df' = schema df ->
  Forall2 (same_content (columns df)) (rows df) (rows df') ->
  algorithm = "md5" \/ algorithm = "sha256" \/ algorithm = "xxhash" ->
  exists fp fp',
    create_data_fingerprint H df None algorithm = Ok fp /\
    create_data_fingerprint H df' None algorithm = Ok fp' /\
    fingerprint_column fp' = fingerprint_column fp.
Proof.
  intros Hl Hu Hh Hwf Hwf' Hschema Hrows Halg.
  assert (Hu' : unambiguous H (columns df'))
    by (unfold columns; now rewrite Hschema).
  assert (Hh' : hashable df') by (unfold hashable; now rewrite Hschema).
  destruct (default_fingerprint_values H df algorithm Hl Hu Hwf Hh Halg)
    as (fp & Hok & _ & Hfp).
  destruct (default_fingerprint_values H df' algorithm Hl Hu' Hwf' Hh' Halg)
    as (fp' & Hok' & _ & Hfp').
  exists fp, fp'. split; [exact Hok|]. split; [exact Hok'|].
  rewrite Hfp, Hfp'.
  rewrite (map_ext _ (fun r => hash_cell H algorithm
                                 (canonical_string H df (default_positions df) r)))
    by (intros r; now rewrite (canonical_string_schema H df df' r Hschema)).
  now apply (map_same_content H df (hash_cell H algorithm)).
Qed.

Lemma schema_v_unambiguous (rs : list Row) :
  unambiguous Examples.marking_hashes (columns (mkDF Examples.schema_v rs)).
Proof.
  intros [|[|i]] [|[|j]] Hi Hj; simpl in *; trivial; try lia; discriminate.
Qed.

Lemma schema_v_hashable (rs : list Row) : hashable (mkDF Examples.schema_v rs).
Proof.
  intros field [<-|[<-|[]]] Hne; reflexivity.
Qed.

Lemma same_content_v (a : string) (id id' : Z) :
  same_content ["v"; "__row_id"] [CVal a; CLong id] [CVal a; CLong id'].
Proof.
  intros c Hc. unfold cell_at. simpl.
  destruct (String.eqb_spec c "v"); [reflexivity|].
  destruct (String.eqb_spec c "__row_id"); [contradiction | reflexivity].
Qed.

Lemma fingerprint_ignores_row_id_witness :
  exists fp fp',
    create_data_fingerprint Examples.marking_hashes Examples.five None "md5"
    = Ok fp /\
    create_data_fingerprint
      Examples.marking_hashes
      (mkDF Examples.schema_v
            [[CVal "a"; CLong 7]; [CVal "b"; CLong 8]; [CVal "c"; CLong 9];
             [CVal "d"; CLong 10]; [CVal "e"; CLong 11]])
      None "md5"
    = Ok fp' /\
    fingerprint_column fp' = fingerprint_column fp.
Proof.
  apply fingerprint_ignores_row_id.
  - exact marking_hashes_laws.
  - apply schema_v_unambiguous.
  - apply schema_v_hashable.
  - exact five_well_formed.
  - intros r Hr. simpl in Hr.
    repeat (destruct Hr as [<-|Hr]; [reflexivity|]). contradiction.
  - reflexivity.
  - simpl. repeat (constructor; [apply same_content_v|]). constructor.
  - now left.
Defined.

(** Fingerprints of equal multisets of rows match. *)
Lemma same_content_comparison
      (H : HashFunctions) (df1 df2 : DataFrame) (algorithm : string)
      (l : list Row) :
  resolver_laws H -> unambiguous H (columns df1) -> hashable df1 ->
  well_formed df1 -> well_formed df2 ->
  schema df2 = schema df1 ->
  Permutation (rows df1) l ->
  Forall2 (same_content (columns df1)) l (rows df2) ->
  algorithm = "md5" \/ algorithm = "sha256" \/ algorithm = "xxhash" ->
  exists fp1 fp2 r,
    create_data_fingerprint H df1 None algorithm = Ok fp1 /\
    create_data_fingerprint H df2 None algorithm = Ok fp2 /\
    compare_fingerprints fp1 fp2 = Ok r /\
    only_in_dataset1 r = 0 /\ only_in_dataset2 r = 0 /\
    fingerprints_match r = true.
Proof.
  intros Hl Hu Hh Hwf1 Hwf2 Hschema Hperm Hrows Halg.
  assert (Hu2 : unambiguous H (columns df2))
    by (unfold columns; now rewrite Hschema).
  assert (Hh2 : hashable df2) by (unfold hashable; now rewrite Hschema).
  destruct (default_fingerprint_values H df1 algorithm Hl Hu Hwf1 Hh Halg)
    as (fp1 & Hok1 & Hs1 & Hfp1).
  destruct (default_fingerprint_values H df2 algorithm Hl Hu2 Hwf2 Hh2 Halg)
    as (fp2 & Hok2 & Hs2 & Hfp2).
  destruct (compare_fingerprints_counts fp1 fp2 Hs1 Hs2)
    as (r & Hok & _ & Ho1 & Ho2 & _ & _ & Hm).
  exists fp1, fp2, r. repeat (split; [assumption|]).
  rewrite (map_ext _ (fun r => hash_cell H algorithm
                                 (canonical_string H df1 (default_positions df1) r)))
    in Hfp2
    by (intros x; now rewrite (canonical_string_schema H df1 df2 x Hschema)).
  rewrite (map_same_content H df1 (hash_cell H algorithm) _ _ Hrows) in Hfp2.
  assert (Hp : Permutation (fingerprint_column fp1) (fingerprint_column fp2))
    by (rewrite Hfp1, Hfp2; now apply Permutation_map).
  assert (Hnn : forall a, In a (fingerprint_column fp1) -> a <> CNull).
  { intros a Ha. rewrite Hfp1 in Ha. apply in_map_iff in Ha.
    destruct Ha as (x & <- & _). apply hash_cell_not_null. }
  assert (E1 : only_in_dataset1 r = 0).
  { rewrite Ho1. apply all_keys_found. intros a Ha. apply nodup_In in Ha.
    split; [|now apply Hnn]. apply nodup_In. now apply (Permutation_in _ Hp). }
  assert (E2 : only_in_dataset2 r = 0).
  { rewrite Ho2. apply all_keys_found. intros a Ha. apply nodup_In in Ha.
    apply (Permutation_in _ (Permutation_sym Hp)) in Ha.
    split; [now apply nodup_In | now apply Hnn]. }
  split; [exact E1|]. split; [exact E2|].
  rewrite Hm, E1, E2. reflexivity.
Qed.

(** Two sources over one schema, with unambiguous column names of types
    that [isnan] accepts, that hold the same rows, in any order and under
    any row identifiers, are reported as matching by the fingerprint
    comparison with the default columns: no one-sided fingerprint on
    either side. *)
Theorem same_content_fingerprints_match
        (H : HashFunctions) (df1 df2 : DataFrame) (algorithm : string)
        (l : list Row) :
  resolver_laws H -> unambiguous H (columns df1) -> hashable df1 ->
  well_formed df1 -> well_formed df2 ->
  schema df2 = schema df1 ->
  Permutation (rows df1) l ->
  Forall2 (same_content (columns df1)) l (rows df2) ->
  algorithm = "md5" \/ algorithm = "sha256" \/ algorithm = "xxhash" ->
  exists fp1 fp2 r,
    create_data_fingerprint H df1 None algorithm = Ok fp1 /\
    create_data_fingerprint H df2 None algorithm = Ok fp2 /\
    compare_fingerprints fp1 fp2 = Ok r /\
    only_in_dataset1 r = 0 /\ only_in_dataset2 r = 0 /\
    fingerprints_match r = true.
Proof. apply same_content_comparison. Qed.

Lemma five_renumbered_well_formed : well_formed five_renumbered.
Proof.
  intros r Hr. simpl in Hr.
  repeat (destruct Hr as [<-|Hr]; [reflexivity|]). contradiction.
Qed.

Lemma same_content_fingerprints_match_witness :
  exists fp1 fp2 r,
    create_data_fingerprint Examples.marking_hashes Examples.five None "md5"
    = Ok fp1 /\
    create_data_fingerprint Examples.marking_hashes five_renumbered None "md5"
    = Ok fp2 /\
    compare_fingerprints fp1 fp2 = Ok r /\
    fingerprints_match r = true.
Proof.
  destruct (same_content_fingerprints_match
              Examples.marking_hashes Examples.five five_renumbered "md5"
              [[CVal "a"; CLong 0]; [CVal "b"; CLong 1]; [CVal "c"; CLong 2];
               [CVal "e"; CLong 4]; [CVal "d"; CLong 3]])
    as (fp1 & fp2 & r & H1 & H2 & H3 & _ & _ & H4).
  - exact marking_hashes_laws.
  - apply schema_v_unambiguous.
  - apply schema_v_hashable.
  - exact five_well_formed.
  - exact five_renumbered_well_formed.
  - reflexivity.
  - simpl. do 3 apply perm_skip. apply perm_swap.
  - simpl. repeat (constructor; [apply same_content_v|]). constructor.
  - now left.
  - exists fp1, fp2, r. repeat split; assumption.
Defined.

(** ** Drift indicators: a constant baseline *)

(** A baseline standard deviation of zero never yields a [stddev_change]
    indicator, whatever the second sample's standard deviation; with a
    baseline mean of zero as well, no drift is detected for the column. *)
Theorem zero_baseline_stddev_never_flags
        (python_float : string -> option float)
        (stats1_dict stats2_dict : Drift.Stats) (s : string) (std1 : float) :
  Drift.lookup "stddev" stats1_dict = Some (Some s) ->
  python_float s = Some std1 ->
  PrimFloat.eqb std1 0%float = true ->
  Drift.stddev_indicators python_float stats1_dict stats2_dict = [] /\
  (forall s' mean1,
      Drift.lookup "mean" stats1_dict = Some (Some s') ->
      python_float s' = Some mean1 ->
      PrimFloat.eqb mean1 0%float = true ->
      Drift.column_drift python_float stats1_dict stats2_dict
      = Drift.mkColumnDrift false []).
Proof.
  intros Hlook Hparse Hzero.
  assert (Hstd : Drift.stddev_indicators python_float stats1_dict stats2_dict = []).
  { unfold Drift.stddev_indicators. rewrite Hlook.
    destruct (Drift.lookup "stddev" stats2_dict) as [v2|]; [|reflexivity].
    unfold Drift.to_float at 1. rewrite Hparse.
    destruct (Drift.to_float python_float v2) as [std2|e]; [|reflexivity].
    rewrite Hzero. reflexivity. }
  split; [exact Hstd|].
  intros s' mean1 Hlook' Hparse' Hzero'.
  assert (Hmean : Drift.mean_indicators python_float stats1_dict stats2_dict = []).
  { unfold Drift.mean_indicators. rewrite Hlook'.
    destruct (Drift.lookup "mean" stats2_dict) as [v2|]; [|reflexivity].
    unfold Drift.to_float at 1. rewrite Hparse'.
    destruct (Drift.to_float python_float v2) as [mean2|e]; [|reflexivity].
    rewrite Hzero'. reflexivity. }
  unfold Drift.column_drift. rewrite Hstd, Hmean. reflexivity.
Qed.

Lemma zero_baseline_stddev_never_flags_witness :
  Drift.column_drift Examples.read_float constant_stats spread_stats
  = Drift.mkColumnDrift false [].
Proof.
  destruct (zero_baseline_stddev_never_flags
              Examples.read_float constant_stats spread_stats "0.0" 0%float
              eq_refl eq_refl eq_refl) as (_ & H).
  apply (H "0.0" 0%float); reflexivity.
Defined.

(** ** Metadata: when schemas and null counts match *)

Lemma str_in_iff (c : string) (l : list string) :
  str_in c l = true <-> In c l.
Proof.
  unfold str_in. rewrite existsb_exists. split.
  - intros (x & Hx & E). apply String.eqb_eq in E. now subst.
  - intros H. exists c. split; [exact H | apply String.eqb_refl].
Qed.

Lemma filter_nil_iff {A : Type} (f : A -> bool) (l : list A) :
  filter f l = [] <-> forall x, In x l -> f x = false.
Proof.
  split; [|apply filter_none].
  intros H x Hx. destruct (f x) eqn:E; [|reflexivity].
  assert (Hin : In x (filter f l)) by (apply filter_In; now split).
  rewrite H in Hin. contradiction.
Qed.

Lemma flat_map_nil_iff {A B : Type} (f : A -> list B) (l : list A) :
  flat_map f l = [] <-> forall x, In x l -> f x = [].
Proof.
  induction l as [|a l IH]; simpl.
  - split; [intros _ x [] | reflexivity].
  - split.
    + intros H x [<-|Hx]; apply app_eq_nil in H; destruct H as (Ha & Hl);
        [exact Ha | now apply IH].
    + intros H. rewrite (H a) by now left. simpl. apply IH.
      intros x Hx. apply H. now right.
Qed.

Lemma length_zero_iff {A : Type} (l : list A) :
  (List.length l =? 0) = true <-> l = [].
Proof.
  rewrite Nat.eqb_eq. split; [apply length_zero_iff_nil | now intros ->].
Qed.

Lemma schema_get_Some (key : string) (schema : list Metadata.FieldInfo)
      (f : Metadata.FieldInfo) :
  Metadata.schema_get key schema = Some f ->
  Metadata.f_name f = key /\ In key (map Metadata.f_name schema).
Proof.
  induction schema as [|g schema IH]; simpl; [discriminate|].
  destruct (Metadata.schema_get key schema) as [h|].
  - intros [= <-]. destruct (IH eq_refl) as (Hn & Hin). split; [exact Hn | now right].
  - destruct (String.eqb_spec key (Metadata.f_name g)) as [->|Hne];
      [|discriminate].
    intros [= <-]. split; [reflexivity | now left].
Qed.

Lemma schema_get_In (key : string) (schema : list Metadata.FieldInfo) :
  In key (map Metadata.f_name schema) ->
  exists f, Metadata.schema_get key schema = Some f.
Proof.
  induction schema as [|g schema IH]; simpl; [contradiction|].
  intros [E|Hin].
  - destruct (Metadata.schema_get key schema) as [h|]; [now exists h|].
    subst key. rewrite String.eqb_refl. now exists g.
  - destruct (IH Hin) as (f & ->). now exists f.
Qed.

(** When two schemas match. *)
Lemma schema_match_iff (schema1 schema2 : list Metadata.FieldInfo) :
  Metadata.sc_schema_match (Metadata.compare_schemas schema1 schema2) = true <->
  (forall n, In n (map Metadata.f_name schema1)
             <-> In n (map Metadata.f_name schema2)) /\
  (forall n f1 f2,
      Metadata.schema_get n schema1 = Some f1 ->
      Metadata.schema_get n schema2 = Some f2 ->
      Metadata.f_type f1 = Metadata.f_type f2).
Proof.
  unfold Metadata.compare_schemas. simpl.
  rewrite !andb_true_iff, !length_zero_iff.
  rewrite flat_map_nil_iff, !filter_nil_iff.
  unfold Metadata.schema_keys. split.
  - intros ((Htd & H1) & H2). split.
    + intros n. split; intros Hn.
      * specialize (H1 n). rewrite nodup_In in H1. specialize (H1 Hn).
        apply negb_false_iff, str_in_iff, nodup_In in H1. exact H1.
      * specialize (H2 n). rewrite nodup_In in H2. specialize (H2 Hn).
        apply negb_false_iff, str_in_iff, nodup_In in H2. exact H2.
    + intros n f1 f2 G1 G2.
      assert (Hin1 : In n (map Metadata.f_name schema1))
        by (apply (schema_get_Some n schema1 f1 G1)).
      assert (Hin2 : In n (map Metadata.f_name schema2))
        by (apply (schema_get_Some n schema2 f2 G2)).
      specialize (Htd n). rewrite filter_In, nodup_In, str_in_iff, nodup_In in Htd.
      specialize (Htd (conj Hin1 Hin2)).
      unfold Metadata.type_difference in Htd. rewrite G1, G2 in Htd.
      destruct (String.eqb_spec (Metadata.f_type f1) (Metadata.f_type f2));
        [assumption | discriminate].
  - intros (Hnames & Htypes). repeat split.
    + intros n Hn. unfold Metadata.type_difference.
      destruct (Metadata.schema_get n schema1) as [f1|] eqn:G1; [|reflexivity].
      destruct (Metadata.schema_get n schema2) as [f2|] eqn:G2; [|reflexivity].
      rewrite (Htypes n f1 f2 G1 G2), String.eqb_refl. reflexivity.
    + intros n Hn. apply nodup_In in Hn.
      apply negb_false_iff, str_in_iff, nodup_In, Hnames, Hn.
    + intros n Hn. apply nodup_In in Hn.
      apply negb_false_iff, str_in_iff, nodup_In, Hnames, Hn.
Qed.

(** The schemas match exactly when both sides have the same column names
    and, for each name, the same declared type (of several columns with
    one name the last counts); nullability plays no part.  Swapping the
    sides swaps the one-sided columns. *)
Theorem compare_schemas_match_iff (schema1 schema2 : list Metadata.FieldInfo) :
  (Metadata.sc_schema_match (Metadata.compare_schemas schema1 schema2) = true <->
   (forall n, In n (map Metadata.f_name schema1)
              <-> In n (map Metadata.f_name schema2)) /\
   (forall n f1 f2,
       Metadata.schema_get n schema1 = Some f1 ->
       Metadata.schema_get n schema2 = Some f2 ->
       Metadata.f_type f1 = Metadata.f_type f2)) /\
  Metadata.sc_only_in_dataset1 (Metadata.compare_schemas schema2 schema1)
  = Metadata.sc_only_in_dataset2 (Metadata.compare_schemas schema1 schema2) /\
  Metadata.sc_only_in_dataset2 (Metadata.compare_schemas schema2 schema1)
  = Metadata.sc_only_in_dataset1 (Metadata.compare_schemas schema1 schema2).
Proof.
  split; [apply schema_match_iff|]. split; reflexivity.
Qed.

Lemma counts_get_Some (key : string) (d : Metadata.NullCounts) (v : Z) :
  Metadata.counts_get key d = Some v -> In key (map fst d).
Proof.
  induction d as [|[k w] d IH]; simpl; [discriminate|].
  destruct (String.eqb_spec key k) as [->|Hne]; [now left|].
  intros H. right. now apply IH.
Qed.

(** When the null counts of two sides match. *)
Lemma null_counts_match_iff (d1 d2 : Metadata.NullCounts) (rc1 rc2 : Z) :
  Metadata.null_counts_match (Metadata.compare_null_counts d1 d2 rc1 rc2) = true
  <->
  (forall c n1 n2,
      Metadata.counts_get c d1 = Some n1 ->
      Metadata.counts_get c d2 = Some n2 -> n1 = n2).
Proof.
  unfold Metadata.compare_null_counts. simpl.
  rewrite length_zero_iff, flat_map_nil_iff. unfold Metadata.counts_keys. split.
  - intros H c n1 n2 G1 G2.
    specialize (H c). rewrite filter_In, nodup_In, str_in_iff, nodup_In in H.
    specialize (H (conj (counts_get_Some c d1 n1 G1) (counts_get_Some c d2 n2 G2))).
    unfold Metadata.null_difference in H. rewrite G1, G2 in H.
    destruct (Z.eqb_spec n1 n2); [assumption | discriminate].
  - intros H c _. unfold Metadata.null_difference.
    destruct (Metadata.counts_get c d1) as [n1|] eqn:G1; [|reflexivity].
    destruct (Metadata.counts_get c d2) as [n2|] eqn:G2; [|reflexivity].
    rewrite (H c n1 n2 G1 G2), Z.eqb_refl. reflexivity.
Qed.

(** The null counts match exactly when every column counted on both
    sides has the same count on both; a column counted on one side only
    is not looked at, and the row counts play no part.  Every recorded
    difference is the non-zero [null2 - null1] of its column. *)
Theorem compare_null_counts_match_iff
        (d1 d2 : Metadata.NullCounts) (rc1 rc2 : Z) :
  (Metadata.null_counts_match (Metadata.compare_null_counts d1 d2 rc1 rc2) = true
   <->
   (forall c n1 n2,
       Metadata.counts_get c d1 = Some n1 ->
       Metadata.counts_get c d2 = Some n2 -> n1 = n2)) /\
  (forall nd,
      In nd (Metadata.null_differences
               (Metadata.compare_null_counts d1 d2 rc1 rc2)) ->
      Metadata.counts_get (Metadata.nd_column nd) d1
      = Some (Metadata.nd_null_count1 nd) /\
      Metadata.counts_get (Metadata.nd_column nd) d2
      = Some (Metadata.nd_null_count2 nd) /\
      Metadata.nd_difference nd
      = (Metadata.nd_null_count2 nd - Metadata.nd_null_count1 nd)%Z /\
      Metadata.nd_difference nd <> 0%Z).
Proof.
  split; [apply null_counts_match_iff|].
  intros nd Hnd. unfold Metadata.compare_null_counts in Hnd. simpl in Hnd.
  apply in_flat_map in Hnd. destruct Hnd as (c & _ & Hnd).
  unfold Metadata.null_difference in Hnd.
  destruct (Metadata.counts_get c d1) as [n1|] eqn:G1; [|contradiction].
  destruct (Metadata.counts_get c d2) as [n2|] eqn:G2; [|contradiction].
  destruct (Z.eqb_spec n1 n2) as [E|N]; [contradiction|].
  destruct Hnd as [<-|[]]. simpl. repeat split; trivial. lia.
Qed.

(** The overall verdict of the metadata comparison does not depend on
    which source is called the first; a metadata dictionary compared with
    itself matches; and swapping the sides negates the differences of the
    row and column counts. *)
Theorem compare_metadata_symmetric (m1 m2 : Metadata.Metadata) :
  Metadata.overall_match (Metadata.compare_metadata m2 m1)
  = Metadata.overall_match (Metadata.compare_metadata m1 m2) /\
  Metadata.overall_match (Metadata.compare_metadata m1 m1) = true /\
  Metadata.difference
    (Metadata.row_count_comparison (Metadata.compare_metadata m2 m1))
  = (- Metadata.difference
         (Metadata.row_count_comparison (Metadata.compare_metadata m1 m2)))%Z /\
  Metadata.difference
    (Metadata.column_count_comparison (Metadata.compare_metadata m2 m1))
  = (- Metadata.difference
         (Metadata.column_count_comparison (Metadata.compare_metadata m1 m2)))%Z.
Proof.
  assert (Hs : forall s1 s2,
             Metadata.sc_schema_match (Metadata.compare_schemas s2 s1)
             = Metadata.sc_schema_match (Metadata.compare_schemas s1 s2)).
  { intros s1 s2. apply eq_iff_eq_true. rewrite !schema_match_iff.
    split; intros (Hn & Ht); split;
      try (intros n; symmetry; apply Hn);
      intros n f1 f2 G1 G2; symmetry; eapply Ht; eassumption. }
  assert (Hn : forall d1 d2 a b c d,
             Metadata.null_counts_match (Metadata.compare_null_counts d2 d1 a b)
             = Metadata.null_counts_match
                 (Metadata.compare_null_counts d1 d2 c d)).
  { intros d1 d2 a b c d. apply eq_iff_eq_true. rewrite !null_counts_match_iff.
    split; intros H x n1 n2 G1 G2; symmetry; eapply H; eassumption. }
  split; [|split; [|split]].
  - cbv beta iota zeta delta [Metadata.compare_metadata Metadata.overall_match].
    rewrite (Hs (Metadata.md_schema m1) (Metadata.md_schema m2)).
    rewrite (Hn (Metadata.null_counts m1) (Metadata.null_counts m2)
                (Metadata.row_count m2) (Metadata.row_count m1)
                (Metadata.row_count m1) (Metadata.row_count m2)).
    f_equal; [f_equal|].
    + destruct (Z.eqb_spec (Metadata.row_count m1 - Metadata.row_count m2) 0),
               (Z.eqb_spec (Metadata.row_count m2 - Metadata.row_count m1) 0);
        trivial; lia.
    + destruct (Z.eqb_spec (Metadata.column_count m1 - Metadata.column_count m2) 0),
               (Z.eqb_spec (Metadata.column_count m2 - Metadata.column_count m1) 0);
        trivial; lia.
  - cbv beta iota zeta delta [Metadata.compare_metadata Metadata.overall_match].
    rewrite !Z.sub_diag. rewrite Z.eqb_refl, !andb_true_r.
    apply andb_true_iff. split.
    + apply schema_match_iff. split; [tauto|]. intros; congruence.
    + apply null_counts_match_iff. intros; congruence.
  - simpl. lia.
  - simpl. lia.
Qed.

(** ** The consolidated report *)

Lemma successes_failures_length (outcomes : list Report.Result) :
  List.length (Report.successes outcomes)
  + List.length (Report.failures outcomes)
  = List.length outcomes.
Proof.
  induction outcomes as [|[r|r] outcomes IH]; simpl; lia.
Qed.

Lemma get_from_done {A B : Type} (e : Report.Entry A) (read : A -> B) (d : B) :
  e <> Report.IsNone -> exists b, Report.get_from e read d = Report.Done b.
Proof. destruct e; intros H; [eexists; reflexivity | congruence | eexists; reflexivity]. Qed.

Lemma no_none_reads (r : Report.SuccessResult) :
  Report.no_none r ->
  (exists b, Report.matches_everywhere r = Report.Done b) /\
  (exists n, Report.row_counts r = Report.Done n) /\
  (exists s, Report.summarise (Report.Success r) = Report.Done s).
Proof.
  intros (Hm & Hf & Hd).
  unfold Report.matches_everywhere, Report.row_counts, Report.summarise.
  destruct (Report.s_metadata_comparison r) as [| |m]; [|congruence|];
    destruct (Report.s_fingerprint_comparison r) as [| |f]; try congruence;
    destruct (Report.s_full_comparison r) as [| |d]; try congruence; simpl;
    repeat split;
    repeat match goal with
           | |- context [if ?b then _ else _] => destruct b
           end; simpl; eexists; reflexivity.
Qed.

Lemma all_match_done (results : list Report.SuccessResult) :
  Forall Report.no_none results ->
  exists b, Report.all_match results = Report.Done b /\
            (b = true <->
             forall r, In r results ->
                       Report.matches_everywhere r = Report.Done true).
Proof.
  induction 1 as [|r results Hr _ IH]; simpl.
  - exists true. split; [reflexivity|]. split; [intros _ r [] | reflexivity].
  - destruct (no_none_reads r Hr) as ((b & Hb) & _). rewrite Hb. simpl.
    destruct b.
    + destruct IH as (b' & Hb' & Hiff). exists b'. split; [exact Hb'|].
      rewrite Hiff. split.
      * intros H r' [<-|Hr']; [exact Hb | now apply H].
      * intros H r' Hr'. apply H. now right.
    + exists false. split; [reflexivity|]. split; [discriminate|].
      intros H. specialize (H r (or_introl eq_refl)). congruence.
Qed.

Lemma sum_row_counts_done (results : list Report.SuccessResult) :
  Forall Report.no_none results ->
  exists n, Report.sum_row_counts results = Report.Done n.
Proof.
  induction 1 as [|r results Hr _ IH]; simpl; [eexists; reflexivity|].
  destruct (no_none_reads r Hr) as (_ & (n & Hn) & _). rewrite Hn. simpl.
  destruct IH as (m & ->). simpl. eexists; reflexivity.
Qed.

Lemma summarise_all_done (outcomes : list Report.Result) :
  Forall Report.no_none (Report.successes outcomes) ->
  exists l, Report.summarise_all outcomes = Report.Done l /\
            List.length l = List.length outcomes.
Proof.
  induction outcomes as [|[r|r] outcomes IH]; intros H.
  - exists []. split; reflexivity.
  - simpl in H. inversion H as [|? ? Hr Hrest]; subst.
    destruct (no_none_reads r Hr) as (_ & _ & (s & Hs)).
    destruct (IH Hrest) as (l & Hl & Hlen).
    cbn [Report.summarise_all]. rewrite Hs. simpl. rewrite Hl. simpl.
    eexists. split; [reflexivity|]. simpl. now rewrite Hlen.
  - destruct (IH H) as (l & Hl & Hlen).
    cbn [Report.summarise_all Report.summarise Report.bind]. rewrite Hl. simpl.
    eexists. split; [reflexivity|]. simpl. now rewrite Hlen.
Qed.

(** When no successful result holds [None] for a phase, the report is
    made: every recorded result is counted once, as successful or failed,
    and has one summary; [overall_match] holds exactly when every
    successful result matches in metadata, fingerprints and full
    comparison, a phase without entry counting as no match. *)
Theorem consolidate_counts_and_verdict (outcomes : list Report.Result) :
  Forall Report.no_none (Report.successes outcomes) ->
  exists report,
    Report.consolidate outcomes = Report.Done report /\
    Report.successful_comparisons report + Report.failed_comparisons report
    = Report.total_datasets report /\
    Report.total_datasets report = List.length outcomes /\
    List.length (Report.dataset_summaries report) = List.length outcomes /\
    (Report.overall_match report = true <->
     forall r, In r (Report.successes outcomes) ->
               Report.matches_everywhere r = Report.Done true).
Proof.
  intros H. unfold Report.consolidate, Report.create_consolidated_report.
  destruct (all_match_done _ H) as (b & Hb & Hiff).
  destruct (sum_row_counts_done _ H) as (n & Hn).
  destruct (summarise_all_done _ H) as (l & Hl & Hlen).
  rewrite Hb, Hn, Hl. simpl. eexists. split; [reflexivity|]. simpl.
  repeat split; trivial; try apply successes_failures_length; apply Hiff.
Qed.

Lemma all_failed_lists (outcomes : list Report.Result) :
  (forall o, In o outcomes -> exists f, o = Report.Failed f) ->
  Report.successes outcomes = [] /\
  List.length (Report.failures outcomes) = List.length outcomes.
Proof.
  induction outcomes as [|o outcomes IH]; intros H; [split; reflexivity|].
  destruct (H o (or_introl eq_refl)) as (f & ->). simpl.
  destruct IH as (Hs & Hf); [intros; apply H; now right|].
  split; [exact Hs | now rewrite Hf].
Qed.

(** When every dataset pair of a batch fails, the consolidated report
    still says [overall_match = true]: the verdict ranges over the
    successful pairs only, and there is none. *)
Theorem consolidate_all_failed_reports_match (outcomes : list Report.Result) :
  (forall o, In o outcomes -> exists f, o = Report.Failed f) ->
  exists report,
    Report.consolidate outcomes = Report.Done report /\
    Report.overall_match report = true /\
    Report.successful_comparisons report = 0 /\
    Report.failed_comparisons report = List.length outcomes /\
    Report.total_rows_processed report = 0%Z.
Proof.
  intros H. destruct (all_failed_lists outcomes H) as (Hs & Hf).
  assert (Hnn : Forall Report.no_none (Report.successes outcomes))
    by (rewrite Hs; constructor).
  destruct (summarise_all_done outcomes Hnn) as (l & Hl & _).
  unfold Report.consolidate, Report.create_consolidated_report.
  rewrite Hs, Hl. simpl. eexists. split; [reflexivity|]. simpl.
  repeat split. exact Hf.
Qed.

Lemma summarise_all_raises (outcomes : list Report.Result)
      (r : Report.SuccessResult) :
  In (Report.Success r) outcomes ->
  Report.summarise (Report.Success r) = Report.AttributeError ->
  Report.summarise_all outcomes = Report.AttributeError.
Proof.
  intros Hin Hr. induction outcomes as [|o outcomes IH]; [contradiction|].
  cbn [Report.summarise_all]. destruct Hin as [->|Hin].
  - rewrite Hr. reflexivity.
  - rewrite (IH Hin). destruct (Report.summarise o); reflexivity.
Qed.

(** A successful result in which a phase stored [None] (the fingerprint
    or the full comparison when disabled) makes the consolidated report
    fail with an [AttributeError]: no report is made for the batch. *)
Theorem consolidate_fails_on_disabled_phase
        (outcomes : list Report.Result) (r : Report.SuccessResult) :
  In (Report.Success r) outcomes ->
  Report.s_metadata_comparison r = Report.IsNone
  \/ Report.s_fingerprint_comparison r = Report.IsNone
  \/ Report.s_full_comparison r = Report.IsNone ->
  Report.consolidate outcomes = Report.AttributeError.
Proof.
  intros Hin Hnone.
  assert (Hr : Report.summarise (Report.Success r) = Report.AttributeError).
  { unfold Report.summarise.
    destruct Hnone as [E|[E|E]]; rewrite E;
      destruct (Report.s_metadata_comparison r); simpl; trivial;
      destruct (Report.s_fingerprint_comparison r); simpl; trivial;
      try discriminate. }
  unfold Report.consolidate, Report.create_consolidated_report.
  rewrite (summarise_all_raises outcomes r Hin Hr).
  destruct (Report.all_match _); [|reflexivity]. simpl.
  destruct (Report.sum_row_counts _); reflexivity.
Qed.

Lemma consolidate_counts_and_verdict_witness :
  exists report,
    Report.consolidate [failed_pair; bare_pair] = Report.Done report /\
    Report.successful_comparisons report + Report.failed_comparisons report = 2.
Proof.
  destruct (consolidate_counts_and_verdict [failed_pair; bare_pair])
    as (report & Hok & Hsum & Htot & _).
  - simpl. constructor; [|constructor].
    repeat split; discriminate.
  - exists report. split; [exact Hok|]. now rewrite Hsum, Htot.
Defined.

Lemma consolidate_all_failed_reports_match_witness :
  exists report,
    Report.consolidate [failed_pair; failed_pair] = Report.Done report /\
    Report.overall_match report = true.
Proof.
  destruct (consolidate_all_failed_reports_match [failed_pair; failed_pair])
    as (report & Hok & Hm & _).
  - intros o [<-|[<-|[]]]; eexists; reflexivity.
  - exists report. split; assumption.
Defined.

Lemma consolidate_fails_on_disabled_phase_witness :
  Report.consolidate [failed_pair; Report.Success pair_without_fingerprints]
  = Report.AttributeError.
Proof.
  apply (consolidate_fails_on_disabled_phase _ pair_without_fingerprints).
  - simpl. right. now left.
  - right. left. reflexivity.
Defined.

(** ** The sample comparison *)

Lemma adaptive_sampling_small (draw : nat -> Q) (df : DataFrame)
      (sample_size : Z) (sampling_strategy : string) :
  (Z.of_nat (count df) <= sample_size)%Z ->
  sampling_strategy = "random" \/ sampling_strategy = "systematic"
  \/ sampling_strategy = "stratified" ->
  adaptive_sampling draw df sample_size sampling_strategy = Ok df.
Proof.
  intros Hsmall Hs. unfold adaptive_sampling. rewrite numeric_columns_of_nil.
  unfold random_sampling, systematic_sampling.
  destruct (Z.leb_spec (Z.of_nat (count df)) sample_size); [|lia].
  destruct Hs as [->|[->| ->]]; reflexivity.
Qed.

(** On two sources that both have at most [sample_size] rows, with
    unambiguous column names of types that [isnan] accepts, the sample
    comparison is, under each of the three strategies, the fingerprint
    comparison of the whole sources over all columns but [__row_id]; when
    the sources are over one schema and hold the same rows, in any order
    and under any row identifiers, it reports a match. *)
Theorem create_sample_comparison_small_sources
        (H : HashFunctions) (draw : nat -> Q) (df1 df2 : DataFrame)
        (sample_size : Z) (sampling_strategy : string) :
  resolver_laws H ->
  unambiguous H (columns df1) -> unambiguous H (columns df2) ->
  hashable df1 -> hashable df2 ->
  well_formed df1 -> well_formed df2 ->
  (Z.of_nat (count df1) <= sample_size)%Z ->
  (Z.of_nat (count df2) <= sample_size)%Z ->
  sampling_strategy = "random" \/ sampling_strategy = "systematic"
  \/ sampling_strategy = "stratified" ->
  exists fp1 fp2 r res,
    create_data_fingerprint H df1 None "md5" = Ok fp1 /\
    create_data_fingerprint H df2 None "md5" = Ok fp2 /\
    compare_fingerprints fp1 fp2 = Ok r /\
    create_sample_comparison H draw df1 df2 sample_size sampling_strategy
    = Ok res /\
    sample_fingerprint_comparison res = r /\
    sm_row_count (sample1_metadata res) = count df1 /\
    sm_row_count (sample2_metadata res) = count df2 /\
    (schema df2 = schema df1 ->
     (exists l, Permutation (rows df1) l
                /\ Forall2 (same_content (columns df1)) l (rows df2)) ->
     fingerprints_match r = true).
Proof.
  intros Hl Hu1 Hu2 Hh1 Hh2 Hwf1 Hwf2 Hs1 Hs2 Hstrat.
  destruct (default_fingerprint_values
              H df1 "md5" Hl Hu1 Hwf1 Hh1 (or_introl eq_refl))
    as (fp1 & Hok1 & Hc1 & _).
  destruct (default_fingerprint_values
              H df2 "md5" Hl Hu2 Hwf2 Hh2 (or_introl eq_refl))
    as (fp2 & Hok2 & Hc2 & _).
  destruct (compare_fingerprints_counts fp1 fp2 Hc1 Hc2)
    as (r & Hok & _).
  exists fp1, fp2, r. eexists.
  split; [exact Hok1|]. split; [exact Hok2|]. split; [exact Hok|].
  unfold create_sample_comparison.
  rewrite !adaptive_sampling_small by assumption.
  rewrite Hok1, Hok2, Hok.
  split; [reflexivity|]. simpl. repeat split.
  intros Hschema (l & Hperm & Hrows).
  destruct (same_content_comparison
              H df1 df2 "md5" l Hl Hu1 Hh1 Hwf1 Hwf2 Hschema Hperm Hrows
              (or_introl eq_refl))
    as (fp1' & fp2' & r' & Hok1' & Hok2' & Hok' & _ & _ & Hm).
  assert (fp1' = fp1) by congruence. assert (fp2' = fp2) by congruence.
  subst fp1' fp2'. assert (r' = r) by congruence. now subst r'.
Qed.

Lemma create_sample_comparison_small_sources_witness :
  exists res,
    create_sample_comparison Examples.marking_hashes Examples.draws
                             Examples.five five_renumbered 10 "systematic"
    = Ok res /\
    sm_row_count (sample1_metadata res) = 5.
Proof.
  destruct (create_sample_comparison_small_sources
              Examples.marking_hashes Examples.draws
              Examples.five five_renumbered 10 "systematic")
    as (fp1 & fp2 & r & res & _ & _ & _ & Hres & _ & Hn & _).
  - exact marking_hashes_laws.
  - apply schema_v_unambiguous.
  - apply schema_v_unambiguous.
  - apply schema_v_hashable.
  - apply schema_v_hashable.
  - exact five_well_formed.
  - exact five_renumbered_well_formed.
  - simpl. lia.
  - simpl. lia.
  - right. now left.
  - exists res. split; [exact Hres | exact Hn].
Defined.

